(** * MCP-Fresh: the professional code analyzer, embedded and verified

    A shallow embedding of [professional_code_analyzer.py] and of the tools
    of [minimal_code_server.py]: the Python syntax tree as the [ast] module
    presents it, [ast.walk] and [ast.NodeVisitor], the four dimension
    analyzers of [CodeIntelligenceEngine] and the quality scorer, the
    project context of [ContextAwareEngine] (technology stack, architecture
    pattern, technical debt, recommendations), the commit messages and the
    refactoring suggestions of [DevAcceleratorEngine], and the line counts,
    structure analysis and file listing of the minimal server.

    Conventions.
    - Python [int] is [Z] for line numbers and [nat] for lengths and counters.
    - Python [float] confidences and scores are exact rationals ([Q]); every
      confidence the analyzers emit is a short decimal and every penalty
      they cause is a whole number, which binary floating point computes
      exactly.
    - Python [str] is [string], the UTF-8 text of the string, byte for byte;
      [len] counts its characters ([PyStr.len]), not its bytes.
    - A [dict] with string keys is an association list in insertion order.
    - Library functions whose text is not part of the repository
      ([ast.parse], [ast.dump], [str] of a list of nodes, the file system)
      are Section variables. *)

From Stdlib Require Import String Ascii List ZArith QArith Qminmax Lia Bool.
From Stdlib Require Import Permutation Arith Wf_nat DecimalString Sorted.
Import ListNotations.

Set Warnings "-register-all".

Open Scope string_scope.
Open Scope list_scope.

(* ====================================================================== *)
(** * Python strings *)
(* ====================================================================== *)

Module PyStr.

(** [c.lower()] on the ASCII range. *)
Definition lower_ascii (c : ascii) : ascii :=
  let n := nat_of_ascii c in
  if (65 <=? n)%nat && (n <=? 90)%nat then ascii_of_nat (n + 32) else c.

(** [s.lower()]. *)
Fixpoint lower (s : string) : string :=
  match s with
  | EmptyString => EmptyString
  | String c r => String (lower_ascii c) (lower r)
  end.

(** A continuation byte of UTF-8, [10xxxxxx]: every character is written
    as one byte that is not a continuation byte, followed by continuation
    bytes only. *)
Definition is_continuation (c : ascii) : bool :=
  let n := nat_of_ascii c in (128 <=? n)%nat && (n <? 192)%nat.

(** [len(s)]: the number of characters. *)
Fixpoint len (s : string) : nat :=
  match s with
  | EmptyString => O
  | String c r => if is_continuation c then len r else S (len r)
  end.

(** [s.startswith(p)]. *)
Definition startswith (s p : string) : bool := String.prefix p s.

(** [sub in s]. *)
Fixpoint contains (sub s : string) : bool :=
  if String.prefix sub s then true
  else match s with
       | EmptyString => false
       | String _ r => contains sub r
       end.

(** [s.endswith(p)]. *)
Definition endswith (s p : string) : bool :=
  let n := String.length s in
  let m := String.length p in
  if (m <=? n)%nat then String.eqb (String.substring (n - m) m s) p else false.

(** [s.split(sep)] for a one-character separator: the pieces between the
    separators, always at least one piece. *)
Fixpoint split_char (sep : ascii) (s : string) : list string :=
  match s with
  | EmptyString => [EmptyString]
  | String c r =>
      if Ascii.eqb c sep then EmptyString :: split_char sep r
      else match split_char sep r with
           | [] => [String c EmptyString]
           | p :: ps => String c p :: ps
           end
  end.

Definition LF : ascii := ascii_of_nat 10.

(** [s.split('\n')]. *)
Definition split_lines (s : string) : list string := split_char LF s.

(** Drop [n] characters. *)
Fixpoint drop (n : nat) (s : string) : string :=
  match n, s with
  | O, _ => s
  | S k, EmptyString => EmptyString
  | S k, String _ r => drop k r
  end.

(** [s.count(sub)] for a non-empty [sub]: non-overlapping occurrences,
    scanning left to right. The fuel is the length of [s], which bounds the
    number of steps. *)
Fixpoint count_from (fuel : nat) (sub s : string) : nat :=
  match fuel with
  | O => O
  | S f =>
      match s with
      | EmptyString => O
      | String _ r =>
          if String.prefix sub s
          then S (count_from f sub (drop (Nat.pred (String.length sub)) r))
          else count_from f sub r
      end
  end.

Definition count (s sub : string) : nat :=
  count_from (String.length s) sub s.

(** [str(n)] for a non-negative machine-independent integer. *)
Definition of_nat (n : nat) : string :=
  NilZero.string_of_uint (Nat.to_uint n).

(** [str(z)]. *)
Definition of_Z (z : Z) : string :=
  NilZero.string_of_int (Z.to_int z).

(** [lst[i]] read at a 0-based index known to be in range. *)
Definition nth_line (lines : list string) (i : nat) : string :=
  nth i lines EmptyString.

End PyStr.

(* ====================================================================== *)
(** * The syntax tree ([ast]) *)
(* ====================================================================== *)

(** Leaf enumerations of the grammar. *)
Inductive boolop := And | Or.
Inductive operator :=
  Add | Sub | Mult | MatMult | Div | Mod | Pow | LShift | RShift
| BitOr | BitXor | BitAnd | FloorDiv.
Inductive unaryop := Invert | Not | UAdd | USub.
Inductive cmpop := Eq | NotEq | Lt | LtE | Gt | GtE | Is | IsNot | In_ | NotIn.
Inductive expr_context := Load | Store | Del.

(** The payload of [ast.Constant]. *)
Inductive constant :=
| CNone
| CBool (b : bool)
| CInt (z : Z)
| CFloat (q : Q)
| CStr (s : string)
| CBytes (s : string)
| CEllipsis.

(** The fields of an [ast.arguments] node. *)
Record arguments_ (A : Type) : Type := mk_arguments {
  posonlyargs : list A;
  a_args : list A;
  vararg : option A;
  kwonlyargs : list A;
  kw_defaults : list (option A);
  kwarg : option A;
  defaults : list A
}.
Arguments mk_arguments {A}.
Arguments posonlyargs {A}.
Arguments a_args {A}.
Arguments vararg {A}.
Arguments kwonlyargs {A}.
Arguments kw_defaults {A}.
Arguments kwarg {A}.
Arguments defaults {A}.

(** One type for every node class, as in Python, where every node is an
    [ast.AST]; the fields of a class are the arguments of its constructor,
    in the order of [_fields]. The grammar is that of Python 3.11, the
    grammar of 3.10 (the oldest interpreter the program's imports run on)
    together with [TryStar], the [try ... except*] statement of 3.11; the
    type parameters of 3.12 are left out. Line attributes are kept on the
    classes where the analyzer reads them.
    Operator and context objects are nodes too ([Boolop_], [Operator_], ...):
    [ast.walk] yields them. *)
Inductive ast : Type :=
(* mod *)
| Module_ (body : list ast)
(* stmt *)
| FunctionDef (name : string) (args : arguments_ ast) (body : list ast)
              (decorator_list : list ast) (returns : option ast)
              (lineno end_lineno : Z)
| AsyncFunctionDef (name : string) (args : arguments_ ast) (body : list ast)
                   (decorator_list : list ast) (returns : option ast)
                   (lineno end_lineno : Z)
| ClassDef (name : string) (bases : list ast) (keywords : list ast)
           (body : list ast) (decorator_list : list ast)
           (lineno end_lineno : Z)
| Return (value : option ast)
| Delete (targets : list ast)
| Assign (targets : list ast) (value : ast) (lineno : Z)
| AugAssign (target : ast) (op : operator) (value : ast)
| AnnAssign (target : ast) (annotation : ast) (value : option ast)
| For (target : ast) (iter : ast) (body : list ast) (orelse : list ast)
      (lineno : Z)
| AsyncFor (target : ast) (iter : ast) (body : list ast) (orelse : list ast)
           (lineno : Z)
| While (test : ast) (body : list ast) (orelse : list ast) (lineno : Z)
| If (test : ast) (body : list ast) (orelse : list ast)
| With (items : list ast) (body : list ast)
| AsyncWith (items : list ast) (body : list ast)
| Raise (exc : option ast) (cause : option ast)
| Match (subject : ast) (cases : list ast)
| Try (body : list ast) (handlers : list ast) (orelse : list ast)
      (finalbody : list ast)
| TryStar (body : list ast) (handlers : list ast) (orelse : list ast)
          (finalbody : list ast)
| Assert (test : ast) (msg : option ast)
| Import_ (names : list ast)
| ImportFrom (module : option string) (names : list ast) (level : Z)
| Global_ (names : list string)
| Nonlocal (names : list string)
| Expr (value : ast)
| Pass
| Break
| Continue
(* expr *)
| BoolOp (op : boolop) (values : list ast)
| NamedExpr (target : ast) (value : ast)
| BinOp (left : ast) (op : operator) (right : ast)
| UnaryOp (op : unaryop) (operand : ast)
| Lambda (args : arguments_ ast) (body : ast)
| IfExp (test : ast) (body : ast) (orelse : ast)
| Dict (keys : list (option ast)) (values : list ast)
| Set_ (elts : list ast)
| ListComp (elt : ast) (generators : list ast)
| SetComp (elt : ast) (generators : list ast)
| DictComp (key : ast) (value : ast) (generators : list ast)
| GeneratorExp (elt : ast) (generators : list ast)
| Await (value : ast)
| Yield (value : option ast)
| YieldFrom (value : ast)
| Compare (left : ast) (ops : list cmpop) (comparators : list ast)
| Call (func : ast) (args : list ast) (keywords : list ast) (lineno : Z)
| FormattedValue (value : ast) (conversion : Z) (format_spec : option ast)
| JoinedStr (values : list ast)
| Constant (value : constant)
| Attribute (value : ast) (attr : string) (ctx : expr_context)
| Subscript (value : ast) (slice : ast) (ctx : expr_context)
| Starred (value : ast) (ctx : expr_context)
| Name (id : string) (ctx : expr_context)
| List_ (elts : list ast) (ctx : expr_context)
| Tuple (elts : list ast) (ctx : expr_context)
| Slice (lower : option ast) (upper : option ast) (step : option ast)
(* auxiliary node classes *)
| comprehension (target : ast) (iter : ast) (ifs : list ast) (is_async : Z)
| ExceptHandler (type : option ast) (name : option string) (body : list ast)
                (lineno : Z)
| arguments (a : arguments_ ast)
| arg (arg_name : string) (annotation : option ast)
| keyword (arg_name : option string) (value : ast)
| alias (name : string) (asname : option string)
| withitem (context_expr : ast) (optional_vars : option ast)
| match_case (pattern : ast) (guard : option ast) (body : list ast)
(* pattern *)
| MatchValue (value : ast)
| MatchSingleton (value : constant)
| MatchSequence (patterns : list ast)
| MatchMapping (keys : list ast) (patterns : list ast) (rest : option string)
| MatchClass (cls : ast) (patterns : list ast) (kwd_attrs : list string)
             (kwd_patterns : list ast)
| MatchStar (name : option string)
| MatchAs (pattern : option ast) (name : option string)
| MatchOr (patterns : list ast)
(* operator and context objects *)
| Boolop_ (o : boolop)
| Operator_ (o : operator)
| Unaryop_ (o : unaryop)
| Cmpop_ (o : cmpop)
| Context_ (c : expr_context).

(** The nodes among an optional field and among a list of optional fields
    ([None] is not a node and is skipped by [iter_child_nodes]). *)
Definition opt_nodes {A} (o : option A) : list A :=
  match o with Some x => [x] | None => [] end.

Definition opts_nodes {A} (l : list (option A)) : list A :=
  flat_map opt_nodes l.

(** The child nodes of an [arguments] node, in field order. *)
Definition arguments_children {A} (a : arguments_ A) : list A :=
  posonlyargs a ++ a_args a ++ opt_nodes (vararg a) ++ kwonlyargs a
  ++ opts_nodes (kw_defaults a) ++ opt_nodes (kwarg a) ++ defaults a.

(** [ast.iter_child_nodes(node)]: the direct child nodes, field by field in
    the order of [_fields], list fields in list order. *)
Definition iter_child_nodes (n : ast) : list ast :=
  match n with
  | Module_ body => body
  | FunctionDef _ a body decos ret _ _ =>
      arguments a :: body ++ decos ++ opt_nodes ret
  | AsyncFunctionDef _ a body decos ret _ _ =>
      arguments a :: body ++ decos ++ opt_nodes ret
  | ClassDef _ bases kws body decos _ _ => bases ++ kws ++ body ++ decos
  | Return v => opt_nodes v
  | Delete ts => ts
  | Assign ts v _ => ts ++ [v]
  | AugAssign t o v => [t; Operator_ o; v]
  | AnnAssign t an v => t :: an :: opt_nodes v
  | For t i body orelse _ => t :: i :: body ++ orelse
  | AsyncFor t i body orelse _ => t :: i :: body ++ orelse
  | While t body orelse _ => t :: body ++ orelse
  | If t body orelse => t :: body ++ orelse
  | With items body => items ++ body
  | AsyncWith items body => items ++ body
  | Raise e c => opt_nodes e ++ opt_nodes c
  | Match subj cs => subj :: cs
  | Try body hs orelse fin => body ++ hs ++ orelse ++ fin
  | TryStar body hs orelse fin => body ++ hs ++ orelse ++ fin
  | Assert t m => t :: opt_nodes m
  | Import_ ns => ns
  | ImportFrom _ ns _ => ns
  | Global_ _ => []
  | Nonlocal _ => []
  | Expr v => [v]
  | Pass => []
  | Break => []
  | Continue => []
  | BoolOp o vs => Boolop_ o :: vs
  | NamedExpr t v => [t; v]
  | BinOp l o r => [l; Operator_ o; r]
  | UnaryOp o e => [Unaryop_ o; e]
  | Lambda a b => [arguments a; b]
  | IfExp t b o => [t; b; o]
  | Dict ks vs => opts_nodes ks ++ vs
  | Set_ es => es
  | ListComp e gs => e :: gs
  | SetComp e gs => e :: gs
  | DictComp k v gs => k :: v :: gs
  | GeneratorExp e gs => e :: gs
  | Await v => [v]
  | Yield v => opt_nodes v
  | YieldFrom v => [v]
  | Compare l os cs => l :: map Cmpop_ os ++ cs
  | Call f xs kws _ => f :: xs ++ kws
  | FormattedValue v _ fs => v :: opt_nodes fs
  | JoinedStr vs => vs
  | Constant _ => []
  | Attribute v _ c => [v; Context_ c]
  | Subscript v s c => [v; s; Context_ c]
  | Starred v c => [v; Context_ c]
  | Name _ c => [Context_ c]
  | List_ es c => es ++ [Context_ c]
  | Tuple es c => es ++ [Context_ c]
  | Slice l u s => opt_nodes l ++ opt_nodes u ++ opt_nodes s
  | comprehension t i ifs _ => t :: i :: ifs
  | ExceptHandler ty _ body _ => opt_nodes ty ++ body
  | arguments a => arguments_children a
  | arg _ an => opt_nodes an
  | keyword _ v => [v]
  | alias _ _ => []
  | withitem c o => c :: opt_nodes o
  | match_case p g body => p :: opt_nodes g ++ body
  | MatchValue v => [v]
  | MatchSingleton _ => []
  | MatchSequence ps => ps
  | MatchMapping ks ps _ => ks ++ ps
  | MatchClass c ps _ kps => c :: ps ++ kps
  | MatchStar _ => []
  | MatchAs p _ => opt_nodes p
  | MatchOr ps => ps
  | Boolop_ _ => []
  | Operator_ _ => []
  | Unaryop_ _ => []
  | Cmpop_ _ => []
  | Context_ _ => []
  end.

(* ====================================================================== *)
(** * Recursion over the tree *)
(* ====================================================================== *)

(** Images of the nodes of an optional field, and of a list of them. *)
Definition omap {A R} (g : A -> R) (o : option A) : list R :=
  match o with Some x => [g x] | None => [] end.

Definition omaps {A R} (g : A -> R) (l : list (option A)) : list R :=
  flat_map (omap g) l.

Section Fold.
Context {R : Type}.
Variable f : ast -> list R -> R.

(** The recursion scheme of the tree: the value at a node is computed from
    the node and the values at its child nodes, taken in the order of
    [iter_child_nodes] (see [ast_fold_eq]). *)
Fixpoint ast_fold (n : ast) : R :=
  let fargs (a : arguments_ ast) : R :=
    f (arguments a)
      (match a with
       | mk_arguments p xs v k kd kw d =>
           map ast_fold p ++ map ast_fold xs ++ omap ast_fold v
           ++ map ast_fold k ++ omaps ast_fold kd ++ omap ast_fold kw
           ++ map ast_fold d
       end) in
  let leaf (x : ast) : R := f x [] in
  f n
    match n with
    | Module_ body => map ast_fold body
    | FunctionDef _ a body decos ret _ _ =>
        fargs a :: map ast_fold body ++ map ast_fold decos ++ omap ast_fold ret
    | AsyncFunctionDef _ a body decos ret _ _ =>
        fargs a :: map ast_fold body ++ map ast_fold decos ++ omap ast_fold ret
    | ClassDef _ bases kws body decos _ _ =>
        map ast_fold bases ++ map ast_fold kws ++ map ast_fold body
        ++ map ast_fold decos
    | Return v => omap ast_fold v
    | Delete ts => map ast_fold ts
    | Assign ts v _ => map ast_fold ts ++ [ast_fold v]
    | AugAssign t o v => [ast_fold t; leaf (Operator_ o); ast_fold v]
    | AnnAssign t an v => ast_fold t :: ast_fold an :: omap ast_fold v
    | For t i body orelse _ =>
        ast_fold t :: ast_fold i :: map ast_fold body ++ map ast_fold orelse
    | AsyncFor t i body orelse _ =>
        ast_fold t :: ast_fold i :: map ast_fold body ++ map ast_fold orelse
    | While t body orelse _ =>
        ast_fold t :: map ast_fold body ++ map ast_fold orelse
    | If t body orelse =>
        ast_fold t :: map ast_fold body ++ map ast_fold orelse
    | With items body => map ast_fold items ++ map ast_fold body
    | AsyncWith items body => map ast_fold items ++ map ast_fold body
    | Raise e c => omap ast_fold e ++ omap ast_fold c
    | Match subj cs => ast_fold subj :: map ast_fold cs
    | Try body hs orelse fin =>
        map ast_fold body ++ map ast_fold hs ++ map ast_fold orelse
        ++ map ast_fold fin
    | TryStar body hs orelse fin =>
        map ast_fold body ++ map ast_fold hs ++ map ast_fold orelse
        ++ map ast_fold fin
    | Assert t m => ast_fold t :: omap ast_fold m
    | Import_ ns => map ast_fold ns
    | ImportFrom _ ns _ => map ast_fold ns
    | Global_ _ => []
    | Nonlocal _ => []
    | Expr v => [ast_fold v]
    | Pass => []
    | Break => []
    | Continue => []
    | BoolOp o vs => leaf (Boolop_ o) :: map ast_fold vs
    | NamedExpr t v => [ast_fold t; ast_fold v]
    | BinOp l o r => [ast_fold l; leaf (Operator_ o); ast_fold r]
    | UnaryOp o e => [leaf (Unaryop_ o); ast_fold e]
    | Lambda a b => [fargs a; ast_fold b]
    | IfExp t b o => [ast_fold t; ast_fold b; ast_fold o]
    | Dict ks vs => omaps ast_fold ks ++ map ast_fold vs
    | Set_ es => map ast_fold es
    | ListComp e gs => ast_fold e :: map ast_fold gs
    | SetComp e gs => ast_fold e :: map ast_fold gs
    | DictComp k v gs => ast_fold k :: ast_fold v :: map ast_fold gs
    | GeneratorExp e gs => ast_fold e :: map ast_fold gs
    | Await v => [ast_fold v]
    | Yield v => omap ast_fold v
    | YieldFrom v => [ast_fold v]
    | Compare l os cs =>
        ast_fold l :: map (fun o => leaf (Cmpop_ o)) os ++ map ast_fold cs
    | Call fn xs kws _ =>
        ast_fold fn :: map ast_fold xs ++ map ast_fold kws
    | FormattedValue v _ fs => ast_fold v :: omap ast_fold fs
    | JoinedStr vs => map ast_fold vs
    | Constant _ => []
    | Attribute v _ c => [ast_fold v; leaf (Context_ c)]
    | Subscript v s c => [ast_fold v; ast_fold s; leaf (Context_ c)]
    | Starred v c => [ast_fold v; leaf (Context_ c)]
    | Name _ c => [leaf (Context_ c)]
    | List_ es c => map ast_fold es ++ [leaf (Context_ c)]
    | Tuple es c => map ast_fold es ++ [leaf (Context_ c)]
    | Slice l u s => omap ast_fold l ++ omap ast_fold u ++ omap ast_fold s
    | comprehension t i ifs _ =>
        ast_fold t :: ast_fold i :: map ast_fold ifs
    | ExceptHandler ty _ body _ => omap ast_fold ty ++ map ast_fold body
    | arguments a =>
        match a with
        | mk_arguments p xs v k kd kw d =>
            map ast_fold p ++ map ast_fold xs ++ omap ast_fold v
            ++ map ast_fold k ++ omaps ast_fold kd ++ omap ast_fold kw
            ++ map ast_fold d
        end
    | arg _ an => omap ast_fold an
    | keyword _ v => [ast_fold v]
    | alias _ _ => []
    | withitem c o => ast_fold c :: omap ast_fold o
    | match_case p g body =>
        ast_fold p :: omap ast_fold g ++ map ast_fold body
    | MatchValue v => [ast_fold v]
    | MatchSingleton _ => []
    | MatchSequence ps => map ast_fold ps
    | MatchMapping ks ps _ => map ast_fold ks ++ map ast_fold ps
    | MatchClass c ps _ kps =>
        ast_fold c :: map ast_fold ps ++ map ast_fold kps
    | MatchStar _ => []
    | MatchAs p _ => omap ast_fold p
    | MatchOr ps => map ast_fold ps
    | Boolop_ _ => []
    | Operator_ _ => []
    | Unaryop_ _ => []
    | Cmpop_ _ => []
    | Context_ _ => []
    end.

End Fold.

(** Number of nodes of a subtree. *)
Definition size : ast -> nat := ast_fold (fun _ rs => S (list_sum rs)).

(** The nodes of a subtree, parents before children, siblings in field
    order (depth first). *)
Definition preorder : ast -> list ast :=
  ast_fold (fun n rs => n :: concat rs).

(** ** [ast.walk]

    [[
    def walk(node):
        todo = deque([node])
        while todo:
            node = todo.popleft()
            todo.extend(iter_child_nodes(node))
            yield node
    ]]
    One turn of the loop per unit of fuel; a subtree of [size n] nodes needs
    exactly [size n] turns. *)
Fixpoint walk_queue (fuel : nat) (todo : list ast) : list ast :=
  match fuel with
  | O => []
  | S fuel' =>
      match todo with
      | [] => []
      | node :: rest =>
          node :: walk_queue fuel' (rest ++ iter_child_nodes node)
      end
  end.

(** [ast.walk(node)], with the fuel the loop needs to empty its queue
    ([walk_queue_perm], [walk_queue_fuel]). *)
Definition walk (node : ast) : list ast := walk_queue (size node) [node].

(** Number of nodes of the subtrees waiting in a queue. *)
Definition total_size (l : list ast) : nat := list_sum (map size l).

(** The proper descendants in the order [walk] yields them. *)
Definition walk_below (n : ast) : list ast := tl (walk n).

(** [len([x for x in l if p(x)])]. *)
Definition count_if {A} (p : A -> bool) (l : list A) : nat :=
  length (filter p l).

(** ** [ast.NodeVisitor]

    [visit(node)] calls the method [visit_<Class>] when the visitor defines
    one and [generic_visit] otherwise. Every method of the four visitors of
    this program runs its own statements and ends with
    [self.generic_visit(node)]; [handler] is that first part, the identity
    on the classes without a method. *)
Section NodeVisitor.
Context {St : Type}.
Variable handler : ast -> St -> St.

(** [visit(node)]: the handler of the node's class, then the visit of
    every child node in order ([visit_eq]). *)
Definition visit : ast -> St -> St :=
  ast_fold (fun n ks s => fold_left (fun s k => k s) ks (handler n s)).

(** [generic_visit(node)]: visit every child node in order. *)
Definition generic_visit (n : ast) (s : St) : St :=
  fold_left (fun s c => visit c s) (iter_child_nodes n) s.

End NodeVisitor.

(* ====================================================================== *)
(** * Core data structures *)
(* ====================================================================== *)

(** [severity: str  # critical, warning, suggestion] *)
Inductive severity_t := critical | warning | suggestion.

(** [category: str  # logic, performance, security, architecture] *)
Inductive category_t := logic | performance | security | architecture.

Definition severity_str (s : severity_t) : string :=
  match s with
  | critical => "critical" | warning => "warning" | suggestion => "suggestion"
  end.

Definition category_str (c : category_t) : string :=
  match c with
  | logic => "logic" | performance => "performance"
  | security => "security" | architecture => "architecture"
  end.

Definition severity_eqb (a b : severity_t) : bool :=
  match a, b with
  | critical, critical | warning, warning | suggestion, suggestion => true
  | _, _ => false
  end.

Definition category_eqb (a b : category_t) : bool :=
  match a, b with
  | logic, logic | performance, performance
  | security, security | architecture, architecture => true
  | _, _ => false
  end.

Module CodeIssue.
Record t := mk {
    severity : severity_t;
    category : category_t;
    message : string;
    file_path : string;
    line_number : Z;
    code_snippet : string;
    fix_suggestion : string;
    confidence : Q
  }.
End CodeIssue.

Module FunctionMetrics.
Record t := mk {
    name : string;
    line_start : Z;
    line_end : Z;
    complexity : nat;
    parameter_count : nat;
    return_complexity : nat;
    has_docstring : bool;
    async_function : bool;
    nested_functions : nat;
    external_calls : list string
  }.
End FunctionMetrics.

Module ClassMetrics.
Record t := mk {
    name : string;
    line_start : Z;
    line_end : Z;
    method_count : nat;
    property_count : nat;
    inheritance_depth : nat;
    has_docstring : bool;
    design_pattern : option string
  }.
End ClassMetrics.

(** JSON-compatible Python values, for the dictionaries the tools return. *)
Inductive pyval :=
| PNone
| PBool (b : bool)
| PInt (z : Z)
| PFloat (q : Q)
| PStr (s : string)
| PList (l : list pyval)
| PDict (d : list (string * pyval)).

Definition pydict := list (string * pyval).

(** [d.get(k)] / [k in d]. *)
Fixpoint dict_get (k : string) (d : pydict) : option pyval :=
  match d with
  | [] => None
  | (k', v) :: r => if String.eqb k k' then Some v else dict_get k r
  end.

Definition dict_has (k : string) (d : pydict) : bool :=
  match dict_get k d with Some _ => true | None => false end.

Definition PNat (n : nat) : pyval := PInt (Z.of_nat n).

(** [dataclasses.asdict]. *)
Definition asdict_issue (i : CodeIssue.t) : pyval :=
  PDict [ ("severity", PStr (severity_str (CodeIssue.severity i)));
          ("category", PStr (category_str (CodeIssue.category i)));
          ("message", PStr (CodeIssue.message i));
          ("file_path", PStr (CodeIssue.file_path i));
          ("line_number", PInt (CodeIssue.line_number i));
          ("code_snippet", PStr (CodeIssue.code_snippet i));
          ("fix_suggestion", PStr (CodeIssue.fix_suggestion i));
          ("confidence", PFloat (CodeIssue.confidence i)) ].

Definition asdict_function (m : FunctionMetrics.t) : pyval :=
  PDict [ ("name", PStr (FunctionMetrics.name m));
          ("line_start", PInt (FunctionMetrics.line_start m));
          ("line_end", PInt (FunctionMetrics.line_end m));
          ("complexity", PNat (FunctionMetrics.complexity m));
          ("parameter_count", PNat (FunctionMetrics.parameter_count m));
          ("return_complexity", PNat (FunctionMetrics.return_complexity m));
          ("has_docstring", PBool (FunctionMetrics.has_docstring m));
          ("async_function", PBool (FunctionMetrics.async_function m));
          ("nested_functions", PNat (FunctionMetrics.nested_functions m));
          ("external_calls",
            PList (map PStr (FunctionMetrics.external_calls m))) ].

Definition asdict_class (m : ClassMetrics.t) : pyval :=
  PDict [ ("name", PStr (ClassMetrics.name m));
          ("line_start", PInt (ClassMetrics.line_start m));
          ("line_end", PInt (ClassMetrics.line_end m));
          ("method_count", PNat (ClassMetrics.method_count m));
          ("property_count", PNat (ClassMetrics.property_count m));
          ("inheritance_depth", PNat (ClassMetrics.inheritance_depth m));
          ("has_docstring", PBool (ClassMetrics.has_docstring m));
          ("design_pattern",
            match ClassMetrics.design_pattern m with
            | Some p => PStr p
            | None => PNone
            end) ].

(* ====================================================================== *)
(** * Node attributes and class tests *)
(* ====================================================================== *)

(** [isinstance(n, ast.C)]. *)
Definition is_FunctionDef (n : ast) : bool :=
  match n with FunctionDef _ _ _ _ _ _ _ => true | _ => false end.
Definition is_AsyncFunctionDef (n : ast) : bool :=
  match n with AsyncFunctionDef _ _ _ _ _ _ _ => true | _ => false end.
Definition is_ClassDef (n : ast) : bool :=
  match n with ClassDef _ _ _ _ _ _ _ => true | _ => false end.
Definition is_Return (n : ast) : bool :=
  match n with Return _ => true | _ => false end.
Definition is_Assign (n : ast) : bool :=
  match n with Assign _ _ _ => true | _ => false end.
Definition is_Try (n : ast) : bool :=
  match n with Try _ _ _ _ => true | _ => false end.
Definition is_For (n : ast) : bool :=
  match n with For _ _ _ _ _ => true | _ => false end.
Definition is_While (n : ast) : bool :=
  match n with While _ _ _ _ => true | _ => false end.
Definition is_Call (n : ast) : bool :=
  match n with Call _ _ _ _ => true | _ => false end.

(** [node.name], [node.lineno], [node.end_lineno], [node.body],
    [node.args] on the classes the analyzer reads them on (function and
    class definitions; [lineno] also on the other classes that carry one
    here). The analyzer never reads them elsewhere, where Python would raise
    [AttributeError]; the fallback value is never observed. From Python 3.8
    on every definition carries [end_lineno], so
    [getattr(node, 'end_lineno', node.lineno)] is [node.end_lineno] and
    [hasattr(node, 'end_lineno')] holds. *)
Definition node_name (n : ast) : string :=
  match n with
  | FunctionDef name _ _ _ _ _ _ | AsyncFunctionDef name _ _ _ _ _ _
  | ClassDef name _ _ _ _ _ _ => name
  | _ => ""
  end.

Definition node_lineno (n : ast) : Z :=
  match n with
  | FunctionDef _ _ _ _ _ l _ | AsyncFunctionDef _ _ _ _ _ l _
  | ClassDef _ _ _ _ _ l _ | Assign _ _ l | For _ _ _ _ l
  | AsyncFor _ _ _ _ l | While _ _ _ l | Call _ _ _ l
  | ExceptHandler _ _ _ l => l
  | _ => 0
  end.

Definition node_end_lineno (n : ast) : Z :=
  match n with
  | FunctionDef _ _ _ _ _ _ e | AsyncFunctionDef _ _ _ _ _ _ e
  | ClassDef _ _ _ _ _ _ e => e
  | _ => 0
  end.

Definition node_body (n : ast) : list ast :=
  match n with
  | FunctionDef _ _ body _ _ _ _ | AsyncFunctionDef _ _ body _ _ _ _
  | ClassDef _ _ _ body _ _ _ => body
  | _ => []
  end.

Definition no_arguments : arguments_ ast :=
  mk_arguments [] [] None [] [] None [].

Definition node_args (n : ast) : arguments_ ast :=
  match n with
  | FunctionDef _ a _ _ _ _ _ | AsyncFunctionDef _ a _ _ _ _ _ => a
  | _ => no_arguments
  end.

(** [ast.get_docstring(node) is not None]: the first statement of the body
    is an expression statement holding a string constant. *)
Definition has_docstring (n : ast) : bool :=
  match node_body n with
  | Expr (Constant (CStr _)) :: _ => true
  | _ => false
  end.

(** [self.lines[lineno-1] if lineno <= len(self.lines) else ""]. Line
    numbers of a parsed tree start at 1, so the index is in range whenever
    the test passes. *)
Definition snippet (lines : list string) (lineno : Z) : string :=
  if (lineno <=? Z.of_nat (length lines))%Z
  then PyStr.nth_line lines (Z.to_nat (lineno - 1))
  else "".

(** [x in lst] for strings. *)
Definition str_in (x : string) (l : list string) : bool :=
  existsb (String.eqb x) l.

(** [s.add(x)] on a set of strings kept as a duplicate-free list. *)
Definition set_add (x : string) (s : list string) : list string :=
  if str_in x s then s else s ++ [x].

(* ====================================================================== *)
(** * The analysis engine: accumulators *)
(* ====================================================================== *)

(** The three lists a [CodeIntelligenceEngine] owns. *)
Record engine := mk_engine {
  issues : list CodeIssue.t;
  function_metrics : list FunctionMetrics.t;
  class_metrics : list ClassMetrics.t
}.

(** [CodeIntelligenceEngine.__init__]. *)
Definition engine_init : engine := mk_engine [] [] [].

(** [self.analyzer.issues.append(i)] and its two siblings. *)
Definition append_issue (i : CodeIssue.t) (s : engine) : engine :=
  mk_engine (issues s ++ [i]) (function_metrics s) (class_metrics s).

Definition append_function_metrics (m : FunctionMetrics.t) (s : engine)
  : engine :=
  mk_engine (issues s) (function_metrics s ++ [m]) (class_metrics s).

Definition append_class_metrics (m : ClassMetrics.t) (s : engine) : engine :=
  mk_engine (issues s) (function_metrics s) (class_metrics s ++ [m]).

(** Appending all of [e] after what [s] already holds. *)
Definition engine_app (s e : engine) : engine :=
  mk_engine (issues s ++ issues e)
            (function_metrics s ++ function_metrics e)
            (class_metrics s ++ class_metrics e).

(* ====================================================================== *)
(** * BusinessLogicVisitor *)
(* ====================================================================== *)

Module BusinessLogicVisitor.
Section Visitor.
(** [self.lines] and [self.file_path]. *)
Variable lines : list string.
Variable file_path : string.

(** [_extract_function_operations]: the set of operation kinds seen in
    the subtree. *)
Definition _extract_function_operations (node : ast) : list string :=
  fold_left
    (fun operations child =>
       match child with
       | Return _ => set_add "return" operations
       | Assign _ _ _ => set_add "assignment" operations
       | Call (Attribute _ attr _) _ _ _ =>
           if str_in attr ["open"; "read"; "write"; "close"]
           then set_add "file_io" operations
           else if str_in attr ["execute"; "query"; "commit"]
           then set_add "database" operations
           else operations
       | _ => operations
       end)
    (walk node) [].

Definition naming_issue (node : ast) (issue : string) : CodeIssue.t :=
  CodeIssue.mk warning logic
    ("命名不一致: " ++ issue)
    file_path
    (node_lineno node)
    (snippet lines (node_lineno node))
    ("考虑重命名函数 '" ++ node_name node
       ++ "' 或调整函数实现以匹配命名意图")
    (7 # 10).

(** [_check_function_naming_consistency]. *)
Definition _check_function_naming_consistency (node : ast) (s : engine)
  : engine :=
  let func_name := PyStr.lower (node_name node) in
  let operations := _extract_function_operations node in
  let naming_issues :=
    (if PyStr.startswith func_name "get_"
        && negb (str_in "return" operations)
     then ["函数名暗示获取数据，但没有返回语句"] else [])
    ++ (if PyStr.startswith func_name "set_"
           && negb (str_in "assignment" operations)
        then ["函数名暗示设置数据，但没有赋值操作"] else [])
    ++ (if PyStr.startswith func_name "is_"
           || PyStr.startswith func_name "has_"
        then if negb (str_in "return" operations)
             then ["布尔函数应该有返回值"] else []
        else [])
    ++ (if PyStr.contains "save" func_name
           && negb (str_in "file_io" operations)
           && negb (str_in "database" operations)
        then ["函数名暗示保存操作，但没有发现文件或数据库操作"]
        else []) in
  fold_left (fun s issue => append_issue (naming_issue node issue) s)
            naming_issues s.

(** [_calculate_cyclomatic_complexity]. *)
Definition _calculate_cyclomatic_complexity (node : ast) : nat :=
  fold_left
    (fun complexity child =>
       match child with
       | If _ _ _ | While _ _ _ _ | For _ _ _ _ _ | AsyncFor _ _ _ _ _
       | With _ _ | AsyncWith _ _ => complexity + 1
       | Try _ handlers _ _ => complexity + length handlers
       | Boolop_ And | Boolop_ Or => complexity + 1
       | _ => complexity
       end)%nat
    (walk node) 1%nat.

(** [_count_return_statements]. *)
Definition _count_return_statements (node : ast) : nat :=
  length (filter is_Return (walk node)).

(** [_extract_external_calls]: [child.func.id] when the callee has an
    [id] (a [Name]), else [child.func.attr] when it has an [attr] (an
    [Attribute]). *)
Definition _extract_external_calls (node : ast) : list string :=
  fold_left
    (fun calls child =>
       match child with
       | Call (Name id _) _ _ _ => calls ++ [id]
       | Call (Attribute _ attr _) _ _ _ => calls ++ [attr]
       | _ => calls
       end)
    (walk node) [].

Definition complexity_issue (node : ast) (complexity : nat) : CodeIssue.t :=
  CodeIssue.mk warning architecture
    ("函数复杂度过高 (圈复杂度: " ++ PyStr.of_nat complexity ++ ")")
    file_path
    (node_lineno node)
    (snippet lines (node_lineno node))
    "考虑将此函数拆分为多个更小的函数，每个函数负责单一职责"
    (9 # 10).

Definition parameter_issue (node : ast) (param_count : nat) : CodeIssue.t :=
  CodeIssue.mk suggestion architecture
    ("函数参数过多 (" ++ PyStr.of_nat param_count ++ "个参数)")
    file_path
    (node_lineno node)
    (snippet lines (node_lineno node))
    "考虑使用数据类、字典或配置对象来减少参数数量"
    (8 # 10).

(** [_analyze_function_responsibility]. *)
Definition _analyze_function_responsibility (node : ast) (s : engine)
  : engine :=
  let complexity := _calculate_cyclomatic_complexity node in
  let param_count := length (a_args (node_args node)) in
  let func_metrics :=
    FunctionMetrics.mk
      (node_name node)
      (node_lineno node)
      (node_end_lineno node)
      complexity
      param_count
      (_count_return_statements node)
      (has_docstring node)
      (is_AsyncFunctionDef node)
      (length (filter is_FunctionDef (node_body node)))
      (_extract_external_calls node) in
  let s := append_function_metrics func_metrics s in
  let s := if (10 <? complexity)%nat
           then append_issue (complexity_issue node complexity) s else s in
  if (5 <? param_count)%nat
  then append_issue (parameter_issue node param_count) s else s.

(** [isinstance(n, ast.ExceptHandler) and n.type is None]. *)
Definition is_bare_except (n : ast) : bool :=
  match n with ExceptHandler None _ _ _ => true | _ => false end.

Definition bare_except_issue (except_node : ast) : CodeIssue.t :=
  CodeIssue.mk warning logic
    "使用了裸except子句，可能掩盖重要错误"
    file_path
    (node_lineno except_node)
    (snippet lines (node_lineno except_node))
    "指定具体的异常类型，如 'except ValueError:' 或 'except (TypeError, ValueError):'"
    (9 # 10).

(** [_check_error_handling_consistency]. *)
Definition _check_error_handling_consistency (node : ast) (s : engine)
  : engine :=
  let try_blocks := filter is_Try (walk node) in
  let bare_excepts := filter is_bare_except (walk node) in
  match bare_excepts with
  | [] => s
  | _ =>
      fold_left
        (fun s except_node => append_issue (bare_except_issue except_node) s)
        bare_excepts s
  end.

(** The statements of [visit_FunctionDef] before its closing
    [self.generic_visit(node)]. *)
Definition visit_FunctionDef_own (node : ast) (s : engine) : engine :=
  let s := _check_function_naming_consistency node s in
  let s := _analyze_function_responsibility node s in
  _check_error_handling_consistency node s.

(** Dispatch on the class of the node: the visitor defines
    [visit_FunctionDef] and nothing else. *)
Definition handler (node : ast) (s : engine) : engine :=
  match node with
  | FunctionDef _ _ _ _ _ _ _ => visit_FunctionDef_own node s
  | _ => s
  end.

(** [visit_FunctionDef]. *)
Definition visit_FunctionDef (node : ast) (s : engine) : engine :=
  generic_visit handler node (visit_FunctionDef_own node s).

End Visitor.
End BusinessLogicVisitor.

(** [CodeIntelligenceEngine._analyze_business_logic]. *)
Definition _analyze_business_logic
  (tree : ast) (lines : list string) (file_path : string) (s : engine)
  : engine :=
  visit (BusinessLogicVisitor.handler lines file_path) tree s.

(* ====================================================================== *)
(** * PerformanceVisitor *)
(* ====================================================================== *)

Module PerformanceVisitor.
Section Visitor.
Variable lines : list string.
Variable file_path : string.

(** [isinstance(n, (ast.For, ast.While))]. *)
Definition is_loop (n : ast) : bool := is_For n || is_While n.

(** [isinstance(child, ast.BinOp) and isinstance(child.op, ast.Add)]. *)
Definition is_add (n : ast) : bool :=
  match n with BinOp _ Add _ => true | _ => false end.

(** [_find_string_concatenations]. *)
Definition _find_string_concatenations (node : ast) : list ast :=
  filter is_add (walk node).

Definition nested_loop_issue (node : ast) : CodeIssue.t :=
  CodeIssue.mk warning performance
    "发现嵌套循环，可能导致O(n²)或更高复杂度"
    file_path
    (node_lineno node)
    (snippet lines (node_lineno node))
    "考虑优化算法，使用哈希表、预计算或其他数据结构来减少时间复杂度"
    (8 # 10).

Definition concat_issue (node : ast) : CodeIssue.t :=
  CodeIssue.mk warning performance
    "循环中进行字符串拼接，性能较差"
    file_path
    (node_lineno node)
    (snippet lines (node_lineno node))
    "使用 ''.join() 或 f-string 在循环外进行字符串操作"
    (9 # 10).

(** [[n for n in ast.walk(node) if isinstance(n, (ast.For, ast.While))
    and n != node]]. Nodes compare by identity, and [walk] yields [node]
    itself once, first ([walk_head]): the other nodes are [walk_below]. *)
Definition nested_loops (node : ast) : list ast :=
  filter is_loop (walk_below node).

(** The statements of [visit_For] before [self.generic_visit(node)]. *)
Definition visit_For_own (node : ast) (s : engine) : engine :=
  let s := match nested_loops node with
           | [] => s
           | _ => append_issue (nested_loop_issue node) s
           end in
  match _find_string_concatenations node with
  | [] => s
  | _ => append_issue (concat_issue node) s
  end.

(** The visitor defines [visit_For] and nothing else. *)
Definition handler (node : ast) (s : engine) : engine :=
  match node with
  | For _ _ _ _ _ => visit_For_own node s
  | _ => s
  end.

(** [visit_For]. *)
Definition visit_For (node : ast) (s : engine) : engine :=
  generic_visit handler node (visit_For_own node s).

End Visitor.
End PerformanceVisitor.

(** [CodeIntelligenceEngine._analyze_performance_patterns]. *)
Definition _analyze_performance_patterns
  (tree : ast) (lines : list string) (file_path : string) (s : engine)
  : engine :=
  visit (PerformanceVisitor.handler lines file_path) tree s.

(* ====================================================================== *)
(** * SecurityVisitor *)
(* ====================================================================== *)

Module SecurityVisitor.
Section Visitor.
Variable lines : list string.
Variable file_path : string.

(** [str(node.targets)]: the text Python prints for a list of nodes. It
    is the interpreter's, not the repository's: up to CPython 3.13 it is
    the default object text of each node ([<ast.Name object at 0x...>]),
    from 3.14 on it spells the fields out. *)
Variable str_targets : list ast -> string.

Definition keywords : list string := ["password"; "secret"; "key"; "token"].

(** [any(keyword in str(node.targets).lower() for keyword in [...])]. *)
Definition targets_mention_secret (targets : list ast) : bool :=
  existsb (fun keyword => PyStr.contains keyword
                            (PyStr.lower (str_targets targets)))
          keywords.

Definition hardcoded_secret_issue (node : ast) : CodeIssue.t :=
  CodeIssue.mk critical security
    "检测到硬编码的敏感信息"
    file_path
    (node_lineno node)
    (snippet lines (node_lineno node))
    "使用环境变量、配置文件或密钥管理服务来存储敏感信息"
    (8 # 10).

(** The statements of [visit_Assign] before [self.generic_visit(node)]. *)
Definition visit_Assign_own (node : ast) (s : engine) : engine :=
  match node with
  | Assign targets (Constant (CStr value)) _ =>
      if (8 <? PyStr.len value)%nat && targets_mention_secret targets
      then append_issue (hardcoded_secret_issue node) s
      else s
  | _ => s
  end.

Definition eval_issue (node : ast) : CodeIssue.t :=
  CodeIssue.mk critical security
    "使用eval()函数存在代码注入风险"
    file_path
    (node_lineno node)
    (snippet lines (node_lineno node))
    "使用ast.literal_eval()或其他安全的替代方案"
    (95 # 100).

Definition exec_issue (node : ast) : CodeIssue.t :=
  CodeIssue.mk critical security
    "使用exec()函数存在代码执行风险"
    file_path
    (node_lineno node)
    (snippet lines (node_lineno node))
    "重新设计代码逻辑，避免动态代码执行"
    (95 # 100).

(** The statements of [visit_Call] before [self.generic_visit(node)];
    only a [Name] has an [id]. *)
Definition visit_Call_own (node : ast) (s : engine) : engine :=
  match node with
  | Call (Name func_name _) _ _ _ =>
      if String.eqb func_name "eval"
      then append_issue (eval_issue node) s
      else if String.eqb func_name "exec"
      then append_issue (exec_issue node) s
      else s
  | _ => s
  end.

(** The visitor defines [visit_Assign] and [visit_Call]. *)
Definition handler (node : ast) (s : engine) : engine :=
  match node with
  | Assign _ _ _ => visit_Assign_own node s
  | Call _ _ _ _ => visit_Call_own node s
  | _ => s
  end.

(** [visit_Assign]. *)
Definition visit_Assign (node : ast) (s : engine) : engine :=
  generic_visit handler node (visit_Assign_own node s).

(** [visit_Call]. *)
Definition visit_Call (node : ast) (s : engine) : engine :=
  generic_visit handler node (visit_Call_own node s).

End Visitor.
End SecurityVisitor.

(** [CodeIntelligenceEngine._analyze_security_risks]. *)
Definition _analyze_security_risks
  (str_targets : list ast -> string)
  (tree : ast) (lines : list string) (file_path : string) (s : engine)
  : engine :=
  visit (SecurityVisitor.handler lines file_path str_targets) tree s.

(** ** The text of a list of nodes *)

(** [type(node).__name__]. *)
Definition class_name (n : ast) : string :=
  match n with
  | Module_ _ => "Module"
  | FunctionDef _ _ _ _ _ _ _ => "FunctionDef"
  | AsyncFunctionDef _ _ _ _ _ _ _ => "AsyncFunctionDef"
  | ClassDef _ _ _ _ _ _ _ => "ClassDef"
  | Return _ => "Return"
  | Delete _ => "Delete"
  | Assign _ _ _ => "Assign"
  | AugAssign _ _ _ => "AugAssign"
  | AnnAssign _ _ _ => "AnnAssign"
  | For _ _ _ _ _ => "For"
  | AsyncFor _ _ _ _ _ => "AsyncFor"
  | While _ _ _ _ => "While"
  | If _ _ _ => "If"
  | With _ _ => "With"
  | AsyncWith _ _ => "AsyncWith"
  | Raise _ _ => "Raise"
  | Match _ _ => "Match"
  | Try _ _ _ _ => "Try"
  | TryStar _ _ _ _ => "TryStar"
  | Assert _ _ => "Assert"
  | Import_ _ => "Import"
  | ImportFrom _ _ _ => "ImportFrom"
  | Global_ _ => "Global"
  | Nonlocal _ => "Nonlocal"
  | Expr _ => "Expr"
  | Pass => "Pass"
  | Break => "Break"
  | Continue => "Continue"
  | BoolOp _ _ => "BoolOp"
  | NamedExpr _ _ => "NamedExpr"
  | BinOp _ _ _ => "BinOp"
  | UnaryOp _ _ => "UnaryOp"
  | Lambda _ _ => "Lambda"
  | IfExp _ _ _ => "IfExp"
  | Dict _ _ => "Dict"
  | Set_ _ => "Set"
  | ListComp _ _ => "ListComp"
  | SetComp _ _ => "SetComp"
  | DictComp _ _ _ => "DictComp"
  | GeneratorExp _ _ => "GeneratorExp"
  | Await _ => "Await"
  | Yield _ => "Yield"
  | YieldFrom _ => "YieldFrom"
  | Compare _ _ _ => "Compare"
  | Call _ _ _ _ => "Call"
  | FormattedValue _ _ _ => "FormattedValue"
  | JoinedStr _ => "JoinedStr"
  | Constant _ => "Constant"
  | Attribute _ _ _ => "Attribute"
  | Subscript _ _ _ => "Subscript"
  | Starred _ _ => "Starred"
  | Name _ _ => "Name"
  | List_ _ _ => "List"
  | Tuple _ _ => "Tuple"
  | Slice _ _ _ => "Slice"
  | comprehension _ _ _ _ => "comprehension"
  | ExceptHandler _ _ _ _ => "ExceptHandler"
  | arguments _ => "arguments"
  | arg _ _ => "arg"
  | keyword _ _ => "keyword"
  | alias _ _ => "alias"
  | withitem _ _ => "withitem"
  | match_case _ _ _ => "match_case"
  | MatchValue _ => "MatchValue"
  | MatchSingleton _ => "MatchSingleton"
  | MatchSequence _ => "MatchSequence"
  | MatchMapping _ _ _ => "MatchMapping"
  | MatchClass _ _ _ _ => "MatchClass"
  | MatchStar _ => "MatchStar"
  | MatchAs _ _ => "MatchAs"
  | MatchOr _ => "MatchOr"
  | Boolop_ And => "And"
  | Boolop_ Or => "Or"
  | Operator_ Add => "Add"
  | Operator_ Sub => "Sub"
  | Operator_ Mult => "Mult"
  | Operator_ MatMult => "MatMult"
  | Operator_ Div => "Div"
  | Operator_ Mod => "Mod"
  | Operator_ Pow => "Pow"
  | Operator_ LShift => "LShift"
  | Operator_ RShift => "RShift"
  | Operator_ BitOr => "BitOr"
  | Operator_ BitXor => "BitXor"
  | Operator_ BitAnd => "BitAnd"
  | Operator_ FloorDiv => "FloorDiv"
  | Unaryop_ Invert => "Invert"
  | Unaryop_ Not => "Not"
  | Unaryop_ UAdd => "UAdd"
  | Unaryop_ USub => "USub"
  | Cmpop_ Eq => "Eq"
  | Cmpop_ NotEq => "NotEq"
  | Cmpop_ Lt => "Lt"
  | Cmpop_ LtE => "LtE"
  | Cmpop_ Gt => "Gt"
  | Cmpop_ GtE => "GtE"
  | Cmpop_ Is => "Is"
  | Cmpop_ IsNot => "IsNot"
  | Cmpop_ In_ => "In"
  | Cmpop_ NotIn => "NotIn"
  | Context_ Load => "Load"
  | Context_ Store => "Store"
  | Context_ Del => "Del"
  end.

(** [repr(node)] on CPython 3.10 to 3.13, where the node classes define no
    text of their own and a node prints as any object does:
    [<ast.Name object at 0x7f2a5c1d3a90>]. [address] gives the hexadecimal
    digits of the address of a node. *)
Definition object_repr (address : ast -> string) (n : ast) : string :=
  "<ast." ++ class_name n ++ " object at 0x" ++ address n ++ ">".

(** [str(nodes)] for a list of nodes on these interpreters: the texts of
    the elements between brackets, separated by a comma and a space. *)
Definition str_of_nodes (address : ast -> string) (nodes : list ast)
  : string :=
  "[" ++ String.concat ", " (map (object_repr address) nodes) ++ "]".

(* ====================================================================== *)
(** * ArchitectureVisitor *)
(* ====================================================================== *)

Module ArchitectureVisitor.
Section Visitor.
Variable lines : list string.
Variable file_path : string.

(** [ast.dump], a library function. *)
Variable dump : ast -> string.

(** [_detect_design_pattern]. *)
Definition _detect_design_pattern (class_node : ast) (methods : list ast)
  : option string :=
  let method_names := map node_name methods in
  if str_in "__new__" method_names
     && existsb (fun m => PyStr.contains "instance" (dump m)) methods
  then Some "Singleton"
  else if existsb (fun name => PyStr.startswith name "create_") method_names
  then Some "Factory"
  else if str_in "notify" method_names && str_in "subscribe" method_names
  then Some "Observer"
  else None.

Definition class_size_issue (node : ast) (methods : list ast)
  : CodeIssue.t :=
  CodeIssue.mk warning architecture
    ("类过于庞大 (" ++ PyStr.of_nat (length methods) ++ "个方法)")
    file_path
    (node_lineno node)
    (snippet lines (node_lineno node))
    "考虑将类拆分为多个更小的类，遵循单一职责原则"
    (8 # 10).

(** [len(node.bases)]. *)
Definition node_bases (n : ast) : list ast :=
  match n with ClassDef _ bases _ _ _ _ _ => bases | _ => [] end.

(** The statements of [visit_ClassDef] before [self.generic_visit(node)]. *)
Definition visit_ClassDef_own (node : ast) (s : engine) : engine :=
  let methods := filter is_FunctionDef (node_body node) in
  let properties := filter is_Assign (node_body node) in
  let class_metrics :=
    ClassMetrics.mk
      (node_name node)
      (node_lineno node)
      (node_end_lineno node)
      (length methods)
      (length properties)
      (length (node_bases node))
      (has_docstring node)
      (_detect_design_pattern node methods) in
  let s := append_class_metrics class_metrics s in
  if (15 <? length methods)%nat
  then append_issue (class_size_issue node methods) s
  else s.

(** The visitor defines [visit_ClassDef] and nothing else. *)
Definition handler (node : ast) (s : engine) : engine :=
  match node with
  | ClassDef _ _ _ _ _ _ _ => visit_ClassDef_own node s
  | _ => s
  end.

(** [visit_ClassDef]. *)
Definition visit_ClassDef (node : ast) (s : engine) : engine :=
  generic_visit handler node (visit_ClassDef_own node s).

End Visitor.
End ArchitectureVisitor.

(** [CodeIntelligenceEngine._analyze_architecture_decisions]. *)
Definition _analyze_architecture_decisions
  (dump : ast -> string)
  (tree : ast) (lines : list string) (file_path : string) (s : engine)
  : engine :=
  visit (ArchitectureVisitor.handler lines file_path dump) tree s.

(* ====================================================================== *)
(** * Quality score *)
(* ====================================================================== *)

(** Nearest integer, ties to the even one. *)
Definition round_half_even (q : Q) : Z :=
  let n := Qnum q in
  let d := Zpos (Qden q) in
  let fl := (n / d)%Z in
  match (2 * (n mod d) ?= d)%Z with
  | Datatypes.Lt => fl
  | Datatypes.Gt => (fl + 1)%Z
  | Datatypes.Eq => if Z.even fl then fl else (fl + 1)%Z
  end.

(** [round(x, 1)]: the nearest multiple of one tenth of the exact value,
    ties to the even one. *)
Definition round1 (x : Q) : Q :=
  Qmake (round_half_even (x * (10 # 1))) 10.

(** The penalty one issue adds to [total_penalty]. *)
Definition penalty (issue : CodeIssue.t) : Q :=
  match CodeIssue.severity issue with
  | critical => (20 # 1) * CodeIssue.confidence issue
  | warning => (10 # 1) * CodeIssue.confidence issue
  | suggestion => (5 # 1) * CodeIssue.confidence issue
  end.

(** The loop [for issue in self.issues: total_penalty += ...]. *)
Definition total_penalty (l : list CodeIssue.t) : Q :=
  fold_left (fun total issue => total + penalty issue) l (0 # 1).

(** [CodeIntelligenceEngine._calculate_quality_score]. The arithmetic of
    the program is binary floating point and is written here over exact
    rationals. The two agree where every product, sum and difference is
    exact in floating point: on the findings the analyzers emit (penalties
    7, 8, 9, 4, 16, 19) and on confidences that are binary fractions. On
    other decimals they can differ in the last rounding: one suggestion of
    confidence 0.07 gives 99.7 in the program and 99.6 here. *)
Definition _calculate_quality_score (s : engine) : Q :=
  match issues s with
  | [] => 100 # 1
  | _ =>
      let score := Qmax (0 # 1) ((100 # 1) - total_penalty (issues s)) in
      round1 score
  end.

(* ====================================================================== *)
(** * The outside world: paths, files, the parser *)
(* ====================================================================== *)

(** [os.path.isabs] and [os.path.join] (POSIX). *)
Definition isabs (p : string) : bool := PyStr.startswith p "/".

Definition path_join (a b : string) : string :=
  if PyStr.startswith b "/" then b
  else if String.eqb a "" || PyStr.endswith a "/" then a ++ b
  else a ++ "/" ++ b.

(** [open(path, 'r', encoding='utf-8').read()]: the text, or the exception
    it raised ([msg] is [str(e)]). *)
Inductive read_result :=
| ReadOk (text : string)
| ReadError (msg : string).

(** [ast.parse(source)]: the tree, a [SyntaxError] with its [msg] and
    [lineno], or another exception. *)
Inductive parse_result :=
| ParseOk (tree : ast)
| ParseSyntaxError (msg : string) (lineno : option Z)
| ParseError (msg : string).

(** [str(e.lineno)]. *)
Definition str_lineno (l : option Z) : string :=
  match l with Some z => PyStr.of_Z z | None => "None" end.

Definition project_path : string :=
  "/Users/yuanquan/code_project/GalaxyAI/MCP-Fresh".

(* ====================================================================== *)
(** * CodeIntelligenceEngine.analyze_file and its tool *)
(* ====================================================================== *)

Section Analyzer.
(** [os.path.exists]. *)
Variable path_exists : string -> bool.
Variable read_text : string -> read_result.
Variable parse : string -> parse_result.
Variable str_targets : list ast -> string.
Variable dump : ast -> string.

(** [len([i for i in self.issues if i.severity == sev])]. *)
Definition count_severity (sev : severity_t) (l : list CodeIssue.t) : nat :=
  length (filter (fun i => severity_eqb (CodeIssue.severity i) sev) l).

(** The four passes, in the order [analyze_file] runs them. *)
Definition run_analyzers
  (tree : ast) (lines : list string) (file_path : string) (s : engine)
  : engine :=
  let s := _analyze_business_logic tree lines file_path s in
  let s := _analyze_performance_patterns tree lines file_path s in
  let s := _analyze_security_risks str_targets tree lines file_path s in
  _analyze_architecture_decisions dump tree lines file_path s.

(** The dictionary [analyze_file] returns on success. The lists are built
    afresh with [asdict]: the result shares nothing with the engine. *)
Definition analysis_result (file_path : string) (s : engine) : pydict :=
  [ ("file_path", PStr file_path);
    ("analysis_summary",
      PDict [ ("total_issues", PNat (length (issues s)));
              ("critical_issues", PNat (count_severity critical (issues s)));
              ("warnings", PNat (count_severity warning (issues s)));
              ("suggestions",
                PNat (count_severity suggestion (issues s))) ]);
    ("issues", PList (map asdict_issue (issues s)));
    ("function_metrics", PList (map asdict_function (function_metrics s)));
    ("class_metrics", PList (map asdict_class (class_metrics s)));
    ("overall_quality_score", PFloat (_calculate_quality_score s)) ].

(** [CodeIntelligenceEngine.analyze_file]: the value returned and the
    engine as the call leaves it. The three [clear()] calls come after a
    successful parse; the error paths leave the engine untouched. *)
Definition analyze_file (self : engine) (file_path : string)
  : pydict * engine :=
  if negb (path_exists file_path)
  then ([("error", PStr ("文件不存在: " ++ file_path))], self)
  else
    match read_text file_path with
    | ReadError msg =>
        ([("error", PStr ("分析失败: " ++ msg));
          ("file_path", PStr file_path)], self)
    | ReadOk source_code =>
        match parse source_code with
        | ParseSyntaxError msg lineno =>
            ([("error", PStr ("语法错误: " ++ msg ++ " (第"
                                ++ str_lineno lineno ++ "行)"));
              ("file_path", PStr file_path)], self)
        | ParseError msg =>
            ([("error", PStr ("分析失败: " ++ msg));
              ("file_path", PStr file_path)], self)
        | ParseOk tree =>
            let lines := PyStr.split_lines source_code in
            let self := mk_engine [] [] [] in
            let self := run_analyzers tree lines file_path self in
            (analysis_result file_path self, self)
        end
    end.

(** The relative-path retry shared by the tools: a path that is not
    absolute is replaced by its join with the project root when that
    exists, and kept as given otherwise. *)
Definition resolve_path (file_path : string) : string :=
  if negb (isabs file_path)
  then let full_path := path_join project_path file_path in
       if path_exists full_path then full_path else file_path
  else file_path.

(** The tool [analyze_code_intelligence], on the global [analyzer]. *)
Definition analyze_code_intelligence (analyzer : engine) (file_path : string)
  : pydict * engine :=
  analyze_file analyzer (resolve_path file_path).

(* -------------------------------------------------------------------- *)
(** ** DevAcceleratorEngine.suggest_refactoring *)

Definition refactoring_suggestion (type message suggestion_ : string)
  : pydict :=
  [ ("type", PStr type); ("message", PStr message);
    ("suggestion", PStr suggestion_) ].

(** The body of the loop [for node in ast.walk(tree)]. *)
Definition suggest_for_node (suggestions : list pydict) (node : ast)
  : list pydict :=
  match node with
  | FunctionDef name a _ _ _ lineno end_lineno =>
      let suggestions :=
        if (50 <? end_lineno - lineno)%Z
        then suggestions ++
             [refactoring_suggestion "function_length"
                ("函数 '" ++ name ++ "' 过长，建议拆分")
                "将函数拆分为多个更小的函数"]
        else suggestions in
      if (5 <? length (a_args a))%nat
      then suggestions ++
           [refactoring_suggestion "parameter_count"
              ("函数 '" ++ name ++ "' 参数过多")
              "使用数据类或配置对象来减少参数数量"]
      else suggestions
  | ClassDef name _ _ body _ _ _ =>
      let methods := filter is_FunctionDef body in
      if (15 <? length methods)%nat
      then suggestions ++
           [refactoring_suggestion "class_size"
              ("类 '" ++ name ++ "' 过于庞大")
              "考虑将类拆分，遵循单一职责原则"]
      else suggestions
  | _ => suggestions
  end.

(** [DevAcceleratorEngine.suggest_refactoring]: a parse failure is
    swallowed and leaves the list empty. *)
Definition suggest_refactoring (code : string) : list pydict :=
  match parse code with
  | ParseOk tree => fold_left suggest_for_node (walk tree) []
  | _ => []
  end.

(** The tool [suggest_refactoring]. *)
Definition suggest_refactoring_tool (file_path : string) : list pydict :=
  let file_path := resolve_path file_path in
  if negb (path_exists file_path)
  then [refactoring_suggestion "error" ("文件不存在: " ++ file_path)
          "请检查文件路径"]
  else
    match read_text file_path with
    | ReadOk code => suggest_refactoring code
    | ReadError msg =>
        [refactoring_suggestion "error" ("读取文件失败: " ++ msg)
           "请检查文件权限"]
    end.

End Analyzer.

(* ====================================================================== *)
(** * ContextAwareEngine._calculate_tech_debt *)
(* ====================================================================== *)

Record debt_factors := mk_debt {
  code_duplication : nat;
  long_functions : nat;
  complex_classes : nat;
  missing_tests : nat;
  poor_documentation : nat
}.

Definition triple_quote : string :=
  let q := ascii_of_nat 34 in String q (String q (String q EmptyString)).

Section TechDebt.
(** [os.walk(top)]: one [(root, dirs, files)] triple per directory. *)
Variable os_walk : string -> list (string * list string * list string).
Variable read_text : string -> read_result.

(** The scan that fills [python_files]. *)
Definition python_files (project_root : string) : list string :=
  flat_map
    (fun '(root, dirs, files) =>
       map (path_join root)
           (filter (fun file => PyStr.endswith file ".py") files))
    (os_walk project_root).

(** [len([l for l in lines if 'def ' in l and len(content) > 2000])]. *)
Definition long_functions_in (content : string) : nat :=
  let lines := PyStr.split_lines content in
  length (filter (fun l => PyStr.contains "def " l
                           && (2000 <? PyStr.len content)%nat)
                 lines).

(** One turn of the loop [for file_path in python_files]; a file that
    cannot be read is skipped ([continue]). *)
Definition debt_of_file (d : debt_factors) (file_path : string)
  : debt_factors :=
  match read_text file_path with
  | ReadError _ => d
  | ReadOk content =>
      mk_debt
        (code_duplication d)
        (long_functions d + long_functions_in content)
        (complex_classes d)
        (missing_tests d
         + (if negb (PyStr.contains "test" (PyStr.lower file_path))
            then 1 else 0))
        (poor_documentation d
         + (if (PyStr.count content triple_quote <? 2)%nat then 1 else 0))
  end.

Definition scan_debt (project_root : string) : debt_factors :=
  fold_left debt_of_file (python_files project_root) (mk_debt 0 0 0 0 0).

(** [sum(debt_factors.values())]. *)
Definition total_debt (d : debt_factors) : nat :=
  code_duplication d + long_functions d + complex_classes d
  + missing_tests d + poor_documentation d.

(** [_get_debt_reduction_actions]. *)
Definition _get_debt_reduction_actions (d : debt_factors) : list string :=
  (if (3 <? long_functions d)%nat
   then ["重构长函数，将其拆分为更小的函数"] else [])
  ++ (if (5 <? missing_tests d)%nat then ["增加单元测试覆盖率"] else [])
  ++ (if (3 <? poor_documentation d)%nat
      then ["改善代码文档和注释"] else []).

(** [ContextAwareEngine._calculate_tech_debt]. *)
Definition _calculate_tech_debt (project_root : string) : pydict :=
  let d := scan_debt project_root in
  let total_debt_score := total_debt d in
  [ ("debt_factors",
      PDict [ ("code_duplication", PNat (code_duplication d));
              ("long_functions", PNat (long_functions d));
              ("complex_classes", PNat (complex_classes d));
              ("missing_tests", PNat (missing_tests d));
              ("poor_documentation", PNat (poor_documentation d)) ]);
    ("total_score", PNat total_debt_score);
    ("debt_level",
      PStr (if (total_debt_score <? 10)%nat then "Low"
            else if (total_debt_score <? 25)%nat then "Medium"
            else "High"));
    ("recommended_actions",
      PList (map PStr (_get_debt_reduction_actions d))) ].

End TechDebt.

(* ====================================================================== *)
(** * The minimal server: analyze_python *)
(* ====================================================================== *)

Module MinimalServer.

(** [c.isspace()] on the ASCII range. *)
Definition is_space (c : ascii) : bool :=
  let n := nat_of_ascii c in
  ((9 <=? n) && (n <=? 13) || (28 <=? n) && (n <=? 32))%nat.

Fixpoint lstrip (s : string) : string :=
  match s with
  | String c r => if is_space c then lstrip r else s
  | EmptyString => EmptyString
  end.

Fixpoint rstrip (s : string) : string :=
  match s with
  | EmptyString => EmptyString
  | String c r =>
      match rstrip r with
      | EmptyString => if is_space c then EmptyString else String c EmptyString
      | r' => String c r'
      end
  end.

(** [s.strip()]. *)
Definition strip (s : string) : string := rstrip (lstrip s).

Definition nonempty (s : string) : bool :=
  match s with EmptyString => false | _ => true end.

Section Tool.
Variable path_exists : string -> bool.
Variable read_text : string -> read_result.
Variable parse : string -> parse_result.
(** [os.getcwd()]. *)
Variable getcwd : string.
(** [os.listdir(path)], [None] when it raises. *)
Variable listdir : string -> option (list string).

Definition basic_stats (file_path content : string) : pydict :=
  let lines := PyStr.split_lines content in
  [ ("file_path", PStr file_path);
    ("total_lines", PNat (length lines));
    ("code_lines",
      PNat (length (filter (fun line =>
                              nonempty (strip line)
                              && negb (PyStr.startswith (strip line) "#"))
                           lines)));
    ("comment_lines",
      PNat (length (filter (fun line => PyStr.startswith (strip line) "#")
                           lines))) ].

(** The loop over [ast.walk(tree)] that fills [functions] and [classes]. *)
Definition collect (tree : ast) : list pyval * list pyval :=
  fold_left
    (fun '(functions, classes) node =>
       match node with
       | FunctionDef name a _ _ _ lineno _ =>
           (functions ++ [PDict [ ("name", PStr name); ("line", PInt lineno);
                                  ("args", PNat (length (a_args a))) ]],
            classes)
       | ClassDef name _ _ _ _ lineno _ =>
           (functions,
            classes ++ [PDict [ ("name", PStr name); ("line", PInt lineno) ]])
       | _ => (functions, classes)
       end)
    (walk tree) ([], []).

(** The tool [analyze_python]; [None] stands for an exception that leaves
    the function ([os.listdir] on the not-found path is outside every
    [try]). *)
Definition analyze_python (file_path : string) : option pydict :=
  let file_path := resolve_path path_exists file_path in
  if negb (path_exists file_path)
  then
    let current_dir := getcwd in
    let project_dir := project_path in
    match listdir project_dir with
    | None => None
    | Some names =>
        Some [ ("error", PStr ("文件不存在: " ++ file_path));
               ("current_directory", PStr current_dir);
               ("suggestion",
                 PStr ("请尝试使用完整路径或确保文件在 " ++ project_dir
                         ++ " 目录中"));
               ("available_files",
                 PList (map PStr
                          (firstn 10
                             (filter (fun f => PyStr.endswith f ".py")
                                     names)))) ]
    end
  else if negb (PyStr.endswith file_path ".py")
  then Some [("error", PStr "只支持Python文件")]
  else
    match read_text file_path with
    | ReadError msg => Some [("error", PStr msg)]
    | ReadOk content =>
        match parse content with
        | ParseOk tree =>
            let '(functions, classes) := collect tree in
            Some (basic_stats file_path content
                  ++ [ ("functions", PList functions);
                       ("classes", PList classes);
                       ("functions_count", PNat (length functions));
                       ("classes_count", PNat (length classes)) ])
        | ParseSyntaxError msg lineno =>
            Some (basic_stats file_path content
                  ++ [ ("syntax_error",
                         PStr ("第" ++ str_lineno lineno ++ "行: " ++ msg)) ])
        | ParseError msg => Some [("error", PStr msg)]
        end
    end.

End Tool.

End MinimalServer.


(* ====================================================================== *)
(** * More string methods *)
(* ====================================================================== *)

Module PyText.

Definition DQ : ascii := ascii_of_nat 34.

(** [s.split(sep)[0]] for a non-empty [sep]: the text before the first
    occurrence of [sep], all of [s] when there is none. *)
Fixpoint before (sep s : string) : string :=
  if String.prefix sep s then EmptyString
  else match s with
       | EmptyString => EmptyString
       | String c r => String c (before sep r)
       end.

(** The scan of [re.findall] for the pattern of [_parse_dependencies]: a
    double quote, a group of one or more characters other than a double
    quote, a double quote. [group] is [None] while the scan looks for an
    opening quote and [Some g] after one, [g] being the characters read
    since. A quote right after an opening quote cannot
    close an empty group: the match is retried from it, as an opening
    quote. A group left open at the end of the text gives no match. *)
Fixpoint quoted_from (group : option string) (s : string) : list string :=
  match s with
  | EmptyString => []
  | String c r =>
      match group with
      | None =>
          if Ascii.eqb c DQ then quoted_from (Some EmptyString) r
          else quoted_from None r
      | Some g =>
          if Ascii.eqb c DQ
          then match g with
               | EmptyString => quoted_from (Some EmptyString) r
               | _ => g :: quoted_from None r
               end
          else quoted_from (Some (g ++ String c EmptyString)%string) r
      end
  end.

(** [re.findall(pattern, s)] for that pattern: the groups of the matches,
    left to right. *)
Definition findall_quoted (s : string) : list string := quoted_from None s.

(** [f.readlines()] on text whose line ends are already line feeds: the
    lines with their line ends, no line for an empty rest. *)
Fixpoint readlines (s : string) : list string :=
  match s with
  | EmptyString => []
  | String c r =>
      if Ascii.eqb c PyStr.LF then String c EmptyString :: readlines r
      else match readlines r with
           | [] => [String c EmptyString]
           | p :: ps => String c p :: ps
           end
  end.

End PyText.

(** A call that returns a value or raises an exception ([msg] is
    [str(e)]). *)
Inductive outcome (A : Type) : Type :=
| Returned (a : A)
| Raised (msg : string).
Arguments Returned {A}.
Arguments Raised {A}.

(** [bool(v)] for the values of a dictionary. *)
Definition truthy (v : pyval) : bool :=
  match v with
  | PNone => false
  | PBool b => b
  | PInt z => negb (z =? 0)%Z
  | PFloat q => negb (Qeq_bool q (0 # 1))
  | PStr s => negb (String.eqb s "")
  | PList l => match l with [] => false | _ => true end
  | PDict d => match d with [] => false | _ => true end
  end.

(* ====================================================================== *)
(** * ContextAwareEngine: the rest *)
(* ====================================================================== *)

(** The lists [_identify_tech_stack] fills. *)
Record tech_stack_t := mk_tech_stack {
  primary_language : string;
  frameworks : list string;
  databases : list string;
  testing_frameworks : list string;
  dependencies : list string
}.

(** The dictionary [_identify_tech_stack] returns. *)
Definition tech_stack_dict (t : tech_stack_t) : pydict :=
  [ ("primary_language", PStr (primary_language t));
    ("frameworks", PList (map PStr (frameworks t)));
    ("databases", PList (map PStr (databases t)));
    ("testing_frameworks", PList (map PStr (testing_frameworks t)));
    ("dependencies", PList (map PStr (dependencies t))) ].

Section ProjectContext.
Variable path_exists : string -> bool.
Variable read_text : string -> read_result.
(** [os.listdir]. *)
Variable listdir : string -> outcome (list string).
(** [os.path.isdir]. *)
Variable isdir : string -> bool.
Variable os_walk : string -> list (string * list string * list string).

(** The name kept from one line of [requirements.txt]:
    [line.split('==')[0].split('>=')[0].split('<=')[0]]. *)
Definition requirement_name (line : string) : string :=
  PyText.before "<=" (PyText.before ">=" (PyText.before "==" line)).

(** [_parse_dependencies]: an exception while reading is swallowed and
    leaves the list empty; a file that is neither [.txt] nor [.toml] adds
    nothing. *)
Definition _parse_dependencies (file_path : string) : list string :=
  match read_text file_path with
  | ReadError _ => []
  | ReadOk content =>
      if PyStr.endswith file_path ".txt"
      then
        fold_left
          (fun dependencies line =>
             let line := MinimalServer.strip line in
             if MinimalServer.nonempty line
                && negb (PyStr.startswith line "#")
             then dependencies ++ [requirement_name line]
             else dependencies)
          (PyStr.split_lines content) []
      else if PyStr.endswith file_path ".toml"
      then
        let deps := PyText.findall_quoted content in
        map (PyText.before ">=")
            (filter (fun dep => negb (PyStr.contains "." dep)) deps)
      else []
  end.

(** [any(k in dep_lower for k in keywords)]. *)
Definition mentions_any (keywords : list string) (dep_lower : string) : bool :=
  existsb (fun k => PyStr.contains k dep_lower) keywords.

Definition framework_words : list string :=
  ["django"; "flask"; "fastapi"; "tornado"].
Definition database_words : list string :=
  ["sqlalchemy"; "django-orm"; "pymongo"].
Definition testing_words : list string := ["pytest"; "unittest"; "nose"].

(** The body of [for dep in dependencies]. *)
Definition classify (t : tech_stack_t) (dep : string) : tech_stack_t :=
  let dep_lower := PyStr.lower dep in
  if mentions_any framework_words dep_lower
  then mk_tech_stack (primary_language t) (frameworks t ++ [dep])
         (databases t) (testing_frameworks t) (dependencies t)
  else if mentions_any database_words dep_lower
  then mk_tech_stack (primary_language t) (frameworks t)
         (databases t ++ [dep]) (testing_frameworks t) (dependencies t)
  else if mentions_any testing_words dep_lower
  then mk_tech_stack (primary_language t) (frameworks t)
         (databases t) (testing_frameworks t ++ [dep]) (dependencies t)
  else t.

Definition req_files : list string :=
  ["requirements.txt"; "pyproject.toml"; "setup.py"; "Pipfile"].

(** The body of [for req_file in req_files]. *)
Definition scan_req_file (project_root : string) (t : tech_stack_t)
  (req_file : string) : tech_stack_t :=
  let req_path := path_join project_root req_file in
  if path_exists req_path
  then
    let dependencies_ := _parse_dependencies req_path in
    let t := mk_tech_stack (primary_language t) (frameworks t) (databases t)
               (testing_frameworks t) (dependencies t ++ dependencies_) in
    fold_left classify dependencies_ t
  else t.

Definition scan_tech_stack (project_root : string) : tech_stack_t :=
  fold_left (scan_req_file project_root) req_files
            (mk_tech_stack "Python" [] [] [] []).

(** [ContextAwareEngine._identify_tech_stack]. *)
Definition _identify_tech_stack (project_root : string) : pydict :=
  tech_stack_dict (scan_tech_stack project_root).

(** [any(d in dir_names for d in names)]. *)
Definition any_dir (names dir_names : list string) : bool :=
  existsb (fun d => str_in d dir_names) names.

(** The decision of [_detect_architecture_pattern] once the directories
    are listed. *)
Definition architecture_of (dirs : list string) : string :=
  let dir_names := map PyStr.lower dirs in
  if any_dir ["models"; "views"; "controllers"] dir_names
  then "MVC (Model-View-Controller)"
  else if any_dir ["services"; "api"; "gateway"] dir_names
  then "Microservices"
  else if any_dir ["domain"; "infrastructure"; "application"] dir_names
  then "Layered Architecture"
  else if str_in "src" dir_names
          || (5 <? length (filter (fun d => negb (PyStr.startswith d "."))
                                  dirs))%nat
  then "Package-based"
  else "Simple/Flat Structure".

(** [ContextAwareEngine._detect_architecture_pattern]; [os.listdir]
    raises when the project root cannot be listed. *)
Definition _detect_architecture_pattern (project_root : string)
  : outcome string :=
  match listdir project_root with
  | Raised msg => Raised msg
  | Returned names =>
      let dirs :=
        filter (fun d => isdir (path_join project_root d)
                         && negb (PyStr.startswith d "."))
               names in
      Returned (architecture_of dirs)
  end.

(** [ContextAwareEngine._analyze_dependency_health]. *)
Definition _analyze_dependency_health : pydict :=
  [ ("total_dependencies", PInt 0);
    ("outdated_dependencies", PList []);
    ("security_vulnerabilities", PList []);
    ("dependency_conflicts", PList []);
    ("health_score", PFloat (100 # 1)) ].

(** [d[key]], raising [KeyError] when the key is missing. *)
Definition dict_item (key : string) (d : pydict) : outcome pyval :=
  match dict_get key d with
  | Some v => Returned v
  | None => Raised ("'" ++ key ++ "'")
  end.

(** [v == s] for a string [s]. *)
Definition is_str (s : string) (v : pyval) : bool :=
  match v with PStr s' => String.eqb s' s | _ => false end.

(** [ContextAwareEngine._generate_project_recommendations]. *)
Definition _generate_project_recommendations (tech_stack tech_debt : pydict)
  : outcome (list string) :=
  match dict_item "testing_frameworks" tech_stack with
  | Raised msg => Raised msg
  | Returned testing =>
      let recommendations :=
        if negb (truthy testing)
        then ["建议添加测试框架(如pytest)以提高代码质量"] else [] in
      match dict_item "debt_level" tech_debt with
      | Raised msg => Raised msg
      | Returned level =>
          let recommendations :=
            if is_str "High" level
            then recommendations ++ ["技术债务较高，建议制定重构计划"]
            else recommendations in
          Returned
            (match dict_get "architecture_pattern" tech_stack with
             | Some v =>
                 if is_str "Simple/Flat Structure" v
                 then recommendations ++ ["考虑重构为更清晰的模块化架构"]
                 else recommendations
             | None => recommendations
             end)
      end
  end.

(** [ContextAwareEngine.analyze_project_context]: any exception becomes an
    error value. *)
Definition analyze_project_context (project_root : string) : pydict :=
  let tech_stack := _identify_tech_stack project_root in
  match _detect_architecture_pattern project_root with
  | Raised msg => [("error", PStr ("项目上下文分析失败: " ++ msg))]
  | Returned architecture_pattern =>
      let dependency_health := _analyze_dependency_health in
      let tech_debt := _calculate_tech_debt os_walk read_text project_root in
      match _generate_project_recommendations tech_stack tech_debt with
      | Raised msg => [("error", PStr ("项目上下文分析失败: " ++ msg))]
      | Returned recommendations =>
          [ ("project_root", PStr project_root);
            ("tech_stack", PDict tech_stack);
            ("architecture_pattern", PStr architecture_pattern);
            ("dependency_health", PDict dependency_health);
            ("tech_debt_assessment", PDict tech_debt);
            ("recommendations", PList (map PStr recommendations)) ]
      end
  end.

End ProjectContext.

(* ====================================================================== *)
(** * DevAcceleratorEngine.generate_commit_message and its tool *)
(* ====================================================================== *)

(** The type one change description is filed under. *)
Definition change_type (change : string) : string :=
  let low := PyStr.lower change in
  if PyStr.contains "test" low then "test"
  else if PyStr.contains "doc" low || PyStr.contains "readme" low then "docs"
  else if PyStr.contains "fix" low || PyStr.contains "bug" low then "fix"
  else if PyStr.contains "add" low || PyStr.contains "new" low then "feat"
  else "refactor".

(** [DevAcceleratorEngine.generate_commit_message]. *)
Definition generate_commit_message (file_changes : list string) : string :=
  match file_changes with
  | [] => "chore: minor updates"
  | _ =>
      let change_types :=
        fold_left (fun types change => set_add (change_type change) types)
                  file_changes [] in
      let n := PyStr.of_nat (length file_changes) in
      if str_in "feat" change_types
      then "feat: implement new functionality (" ++ n ++ " files)"
      else if str_in "fix" change_types
      then "fix: resolve issues (" ++ n ++ " files)"
      else if str_in "test" change_types
      then "test: add/update tests (" ++ n ++ " files)"
      else if str_in "docs" change_types
      then "docs: update documentation (" ++ n ++ " files)"
      else "refactor: improve code structure (" ++ n ++ " files)"
  end.

(** The tool [generate_commit_message]:
    [changes_description.split(',')], then the engine. *)
Definition generate_commit_message_tool (changes_description : string)
  : string :=
  generate_commit_message
    (PyStr.split_char (ascii_of_nat 44) changes_description).

(* ====================================================================== *)
(** * The minimal server: count_lines and list_python_files *)
(* ====================================================================== *)

Module MinimalTools.

Import MinimalServer.

(** One entry of [python_files]. *)
Record py_file := mk_py_file {
  pf_name : string;
  pf_path : string;
  pf_size : nat
}.

Definition py_file_dict (f : py_file) : pyval :=
  PDict [ ("name", PStr (pf_name f)); ("path", PStr (pf_path f));
          ("size", PNat (pf_size f)) ].

(** The place [x] takes in a list already sorted by decreasing size: before
    the first entry that is not larger. *)
Fixpoint insert_by_size (x : py_file) (l : list py_file) : list py_file :=
  match l with
  | [] => [x]
  | y :: r =>
      if (pf_size y <=? pf_size x)%nat then x :: y :: r
      else y :: insert_by_size x r
  end.

(** [python_files.sort(key=lambda x: x['size'], reverse=True)]: a stable
    sort, entries of equal size keep their order. *)
Definition sort_by_size (l : list py_file) : list py_file :=
  fold_right insert_by_size [] l.

Section Tools.
Variable path_exists : string -> bool.
Variable read_text : string -> read_result.
Variable listdir : string -> outcome (list string).
(** [os.path.isfile]. *)
Variable isfile : string -> bool.
(** [os.path.getsize]. *)
Variable getsize : string -> outcome nat.

(** [line.strip()] is not empty. *)
Definition has_text (line : string) : bool := nonempty (strip line).

(** [line.strip().startswith('#')]. *)
Definition is_comment (line : string) : bool :=
  PyStr.startswith (strip line) "#".

(** The tool [count_lines]. *)
Definition count_lines (file_path : string) : pydict :=
  if negb (path_exists file_path)
  then [("error", PStr ("文件不存在: " ++ file_path))]
  else
    match read_text file_path with
    | ReadError msg => [("error", PStr msg)]
    | ReadOk text =>
        let lines := PyText.readlines text in
        [ ("file_path", PStr file_path);
          ("total_lines", PNat (length lines));
          ("non_empty_lines", PNat (length (filter has_text lines)));
          ("code_lines",
            PNat (length (filter (fun line => has_text line
                                               && negb (is_comment line))
                                 lines)));
          ("comment_lines", PNat (length (filter is_comment lines))) ]
    end.

(** The loop [for item in os.listdir(directory)]; a failing
    [os.path.getsize] ends it with the exception. *)
Fixpoint collect_files (directory : string) (items : list string)
  (python_files : list py_file) : outcome (list py_file) :=
  match items with
  | [] => Returned python_files
  | item :: rest =>
      if PyStr.endswith item ".py" && isfile (path_join directory item)
      then
        let file_path := path_join directory item in
        match getsize file_path with
        | Raised msg => Raised msg
        | Returned file_size =>
            collect_files directory rest
              (python_files ++ [mk_py_file item file_path file_size])
        end
      else collect_files directory rest python_files
  end.

(** The tool [list_python_files]. *)
Definition list_python_files (directory : string) : pydict :=
  let directory :=
    if String.eqb directory "." then project_path else directory in
  match listdir directory with
  | Raised msg => [("error", PStr msg)]
  | Returned items =>
      match collect_files directory items [] with
      | Raised msg => [("error", PStr msg)]
      | Returned python_files =>
          let python_files := sort_by_size python_files in
          [ ("directory", PStr directory);
            ("python_files", PList (map py_file_dict python_files));
            ("count", PNat (length python_files));
            ("total_size", PNat (list_sum (map pf_size python_files))) ]
      end
  end.

End Tools.

End MinimalTools.

(* ====================================================================== *)
(** * Vocabulary of the properties *)
(* ====================================================================== *)

(** The definitions below belong to the statements of the properties, not
    to the program: what the specification tabulates or counts, and the
    sample inputs on which the program is run. *)

(** A step of an analysis that leaves what the engine holds in place and
    adds its own findings after it. *)
Definition appending (f : engine -> engine) : Prop :=
  forall s, f s = engine_app s (f engine_init).

(** What a run of handlers over a list of nodes adds. *)
Definition emitted (h : ast -> engine -> engine) (l : list ast) : engine :=
  fold_left (fun s c => h c s) l engine_init.

Module ScoreSpec.

(** The weight of a severity, as the specification tabulates it. *)
Definition weight (sev : severity_t) : Q :=
  match sev with
  | critical => 20 # 1
  | warning => 10 # 1
  | suggestion => 5 # 1
  end.

(** The sum over the issues of confidence times weight. *)
Definition weighted_sum (l : list CodeIssue.t) : Q :=
  fold_right
    (fun i acc =>
       (CodeIssue.confidence i * weight (CodeIssue.severity i) + acc)%Q)
    (0 # 1) l.

(** The confidence of an issue is a number between 0 and 1. *)
Definition valid_issue (i : CodeIssue.t) : Prop :=
  (0 <= CodeIssue.confidence i <= 1)%Q.

(** [score] is [x] rounded to one decimal: ten times [score] is the whole
    number nearest to ten times [x], the even one when two are equally
    near. *)
Definition rounded_to_one_decimal (x score : Q) : Prop :=
  exists k : Z,
    (score == k # 10
     /\ inject_Z k - (1 # 2) <= x * (10 # 1) <= inject_Z k + (1 # 2)
     /\ (x * (10 # 1) == inject_Z k - (1 # 2)
         \/ x * (10 # 1) == inject_Z k + (1 # 2) -> Z.even k = true))%Q.

(** A confidence between 0 and 1 that is a whole number of 1024ths. Binary
    floating point holds such a number, its products with the weights and
    the sums and differences of these exactly. *)
Definition binary_fraction (q : Q) : Prop :=
  exists j : Z, (0 <= j <= 1024)%Z /\ (q == j # 1024)%Q.

(** The severity and confidence of the findings the four analyzers emit.
    Their penalties are the whole numbers 7, 8, 9, 4, 16 and 19, and that is
    what floating point computes from the decimal confidences. *)
Definition emitted_kind (i : CodeIssue.t) : Prop :=
  In (CodeIssue.severity i, CodeIssue.confidence i)
     [ (warning, 7 # 10); (warning, 8 # 10); (warning, 9 # 10);
       (suggestion, 8 # 10); (critical, 8 # 10); (critical, 95 # 100) ].

(** The issues for which the exact arithmetic of [_calculate_quality_score]
    is the arithmetic of the program. *)
Definition exact_issue (i : CodeIssue.t) : Prop :=
  emitted_kind i \/ binary_fraction (CodeIssue.confidence i).

(** A step that adds findings of the emitted kinds only. *)
Definition keeps_emitted (f : engine -> engine) : Prop :=
  forall s, Forall emitted_kind (issues s) ->
            Forall emitted_kind (issues (f s)).

Definition sample_issue : CodeIssue.t :=
  CodeIssue.mk critical security "m" "a.py" 3 "x" "fix" (8 # 10).

Definition sample_warning : CodeIssue.t :=
  CodeIssue.mk warning logic "m" "a.py" 5 "y" "fix" (9 # 10).

(** A suggestion of confidence 1/8 and one of confidence 1/4. *)
Definition eighth : CodeIssue.t :=
  CodeIssue.mk suggestion logic "m" "a.py" 7 "z" "fix" (1 # 8).

Definition quarter : CodeIssue.t :=
  CodeIssue.mk suggestion logic "m" "a.py" 9 "w" "fix" (1 # 4).

End ScoreSpec.

Module ComplexitySpec.







(** [[
    def check(a, b, y):
        if a and b:
            for x in y:
                pass
        try:
            pass
        except:
            pass
    ]] *)
Definition branching_function : ast :=
  FunctionDef "check"
    (mk_arguments [] [arg "a" None; arg "b" None; arg "y" None]
       None [] [] None [])
    [ If (BoolOp And [Name "a" Load; Name "b" Load])
         [For (Name "x" Store) (Name "y" Load) [Pass] [] 3] [];
      Try [Pass] [ExceptHandler None None [Pass] 7] [] [] ]
    [] None 1 8.



End ComplexitySpec.

Module BusinessSpec.

(** The record [_analyze_function_responsibility] stores for a node. *)
Definition function_record (node : ast) : FunctionMetrics.t :=
  FunctionMetrics.mk
    (node_name node)
    (node_lineno node)
    (node_end_lineno node)
    (BusinessLogicVisitor._calculate_cyclomatic_complexity node)
    (length (a_args (node_args node)))
    (BusinessLogicVisitor._count_return_statements node)
    (has_docstring node)
    (is_AsyncFunctionDef node)
    (length (filter is_FunctionDef (node_body node)))
    (BusinessLogicVisitor._extract_external_calls node).

End BusinessSpec.

Module Sample.

(** Stand-ins for the library functions where their text plays no role. *)
Definition no_text : list ast -> string := fun _ => "".
Definition no_dump : ast -> string := fun _ => "".

(** A file system where every path exists, and one where none does. *)
Definition always_exists : string -> bool := fun _ => true.
Definition never_exists : string -> bool := fun _ => false.

(** [[
    async def fetch(url):
        pass
    def g():
        pass
    ]] *)
Definition async_source : string :=
  "async def fetch(url):" ++ String PyStr.LF
  ("    pass" ++ String PyStr.LF
  ("def g():" ++ String PyStr.LF
  ("    pass" ++ String PyStr.LF ""))).

Definition g_def : ast := FunctionDef "g" no_arguments [Pass] [] None 3 4.

Definition async_tree : ast :=
  Module_
    [ AsyncFunctionDef "fetch"
        (mk_arguments [] [arg "url" None] None [] [] None [])
        [Pass] [] None 1 2;
      g_def ].

End Sample.

Module BareExceptSpec.

Import BusinessLogicVisitor.

(** A bare handler found at [d] enclosing function definitions: its line
    and [d]. *)
Definition own_bare (d : nat) (n : ast) : list (Z * nat) :=
  if is_bare_except n then [(node_lineno n, d)] else [].

(** The number of function definitions around the children of [n], given
    [d] of them around [n]. *)
Definition below (n : ast) (d : nat) : nat :=
  if is_FunctionDef n then S d else d.

(** Every bare handler of a subtree with the number of (synchronous)
    function definitions that enclose it. *)
Definition bare_handlers_at : ast -> nat -> list (Z * nat) :=
  ast_fold (fun n ks d => own_bare d n ++ flat_map (fun k => k (below n d)) ks).

Definition bare_handlers (tree : ast) : list (Z * nat) :=
  bare_handlers_at tree 0.

(** The issue is the bare-except warning (warning, logic, confidence 0.9)
    and is attributed to [line]. *)
Definition is_bare_issue_at (line : Z) (i : CodeIssue.t) : bool :=
  severity_eqb (CodeIssue.severity i) warning
  && category_eqb (CodeIssue.category i) logic
  && Qeq_bool (CodeIssue.confidence i) (9 # 10)
  && (CodeIssue.line_number i =? line)%Z.

(** The node is a bare handler on [line]. *)
Definition is_bare_at (line : Z) (n : ast) : bool :=
  is_bare_except n && (node_lineno n =? line)%Z.

(** The number of enclosing definitions of a listed handler on [line]. *)
Definition depth_at (line : Z) (e : Z * nat) : nat :=
  if (fst e =? line)%Z then snd e else O.

(** The listed handler is on [line] and has exactly one enclosing
    definition. *)
Definition once_at (line : Z) (e : Z * nat) : bool :=
  (fst e =? line)%Z && (snd e =? 1)%nat.

(** Bare handlers on [line] in the subtree of [n]. *)
Definition handlers_in (line : Z) (n : ast) : nat :=
  count_if (is_bare_at line) (preorder n).

(** The same, counted once for every function definition of the subtree of
    [n] that contains the handler. *)
Definition reports_in (line : Z) (n : ast) : nat :=
  list_sum (map (fun f => if is_FunctionDef f then handlers_in line f else O)
                (preorder n)).

(** The enclosing-definition counts of the handlers on [line], added up. *)
Definition depth_sum (line : Z) (n : ast) (d : nat) : nat :=
  list_sum (map (depth_at line) (bare_handlers_at n d)).

(** The bare-except warnings attributed to [line] among [l]. *)
Definition bare_issues (line : Z) (l : list CodeIssue.t) : nat :=
  count_if (is_bare_issue_at line) l.

(** [[
    try:
        pass
    except:
        pass
    ]] at module level. *)
Definition module_level_try : ast :=
  Module_ [Try [Pass] [ExceptHandler None None [Pass] 3] [] []].

Definition four_lines : list string :=
  ["try:"; "    pass"; "except:"; "    pass"].

(** [[
    def load():
        try:
            pass
        except:
            pass
    ]] *)
Definition guarded_def : ast :=
  Module_
    [FunctionDef "load" no_arguments
       [Try [Pass] [ExceptHandler None None [Pass] 4] [] []] [] None 1 5].

Definition guarded_lines : list string :=
  ["def load():"; "    try:"; "        pass"; "    except:"; "        pass"].

(** [[
    def outer():
        def inner():
            try:
                pass
            except:
                pass
    ]] *)
Definition nested_def : ast :=
  Module_
    [FunctionDef "outer" no_arguments
       [FunctionDef "inner" no_arguments
          [Try [Pass] [ExceptHandler None None [Pass] 5] [] []] [] None 2 6]
       [] None 1 6].

Definition nested_lines : list string :=
  ["def outer():"; "    def inner():"; "        try:"; "            pass";
   "        except:"; "            pass"].

End BareExceptSpec.

Module SubstringSpec.

(** [sub] occurs in [s] as a run of consecutive characters. *)
Definition occurs_in (sub s : string) : Prop :=
  exists pre post, s = (pre ++ sub ++ post)%string.

End SubstringSpec.

Module SecretsSpec.

Import SecurityVisitor.

Section Conditions.
Variable str_targets : list ast -> string.

(** The assigned value is a string constant longer than 8 characters. *)
Definition long_string_constant (value : ast) : Prop :=
  exists v, value = Constant (CStr v) /\ (8 < PyStr.len v)%nat.

(** The text of the targets contains one of the four words, letter case
    ignored. *)
Definition names_a_secret (targets : list ast) : Prop :=
  exists keyword,
    In keyword ["password"; "secret"; "key"; "token"]
    /\ SubstringSpec.occurs_in keyword (PyStr.lower (str_targets targets)).

(** The issue is the hard-coded-secret finding: critical, security,
    confidence 0.8. *)
Definition is_secret_issue (i : CodeIssue.t) : bool :=
  severity_eqb (CodeIssue.severity i) critical
  && category_eqb (CodeIssue.category i) security
  && Qeq_bool (CodeIssue.confidence i) (8 # 10).

(** The node is an assignment that meets both conditions. *)
Definition is_secret_assignment (n : ast) : bool :=
  match n with
  | Assign targets (Constant (CStr v)) _ =>
      (8 <? PyStr.len v)%nat && targets_mention_secret str_targets targets
  | _ => false
  end.

End Conditions.

(** A text of the targets that shows the identifier of a name, in the form
    CPython 3.14 prints a node: [Name(id='api_key', ctx=Store())]. *)
Definition spelled_out (n : ast) : string :=
  match n with
  | Name id _ => "Name(id='" ++ id ++ "', ctx=Store())"
  | _ => "<node>"
  end.

Definition str_spelled_out (targets : list ast) : string :=
  "[" ++ String.concat ", " (map spelled_out targets) ++ "]".

(** A hexadecimal digit, in either letter case. *)
Definition is_hex_digit (c : ascii) : bool :=
  let n := nat_of_ascii c in
  ((48 <=? n) && (n <=? 57) || (97 <=? n) && (n <=? 102)
   || (65 <=? n) && (n <=? 70))%nat.

Fixpoint all_chars (p : ascii -> bool) (s : string) : bool :=
  match s with
  | EmptyString => true
  | String c r => p c && all_chars p r
  end.

(** The addresses are written in hexadecimal digits. *)
Definition hex_addresses (address : ast -> string) : Prop :=
  forall n, all_chars is_hex_digit (address n) = true.

(** The node classes the parser builds as the target of an assignment. *)
Definition is_target (n : ast) : bool :=
  match n with
  | Name _ _ | Attribute _ _ _ | Subscript _ _ _ | Starred _ _
  | List_ _ _ | Tuple _ _ => true
  | _ => false
  end.

(** Every assignment of the tree has targets of these classes. *)
Definition parsed_targets (tree : ast) : Prop :=
  Forall (fun n => match n with
                   | Assign targets _ _ => forallb is_target targets = true
                   | _ => True
                   end) (preorder tree).

(** The text of the targets on CPython 3.10 to 3.13, with a sample
    address. *)
Definition str_object_default : list ast -> string :=
  str_of_nodes (fun _ => "7f2a5c1d3a90").

(** [[
    import os
    API_KEY = 'sk-live-0123456789'
    ]] *)
Definition api_key_targets : list ast := [Name "API_KEY" Store].
Definition api_key_value : ast := Constant (CStr "sk-live-0123456789").

Definition api_key_module : ast :=
  Module_ [ Import_ [alias "os" None];
            Assign api_key_targets api_key_value 2 ].

Definition api_key_lines : list string :=
  ["import os"; "API_KEY = 'sk-live-0123456789'"].

(** Two string [s], [kw] differ at a position both have. *)
Fixpoint clash (kw s : string) : bool :=
  match kw, s with
  | String a kw', String b s' => if Ascii.eqb a b then clash kw' s' else true
  | _, _ => false
  end.

(** No occurrence of [kw] starts inside [l], whatever follows [l]. *)
Fixpoint starts_nowhere (kw l : string) : bool :=
  match l with
  | EmptyString => true
  | String _ r => clash kw l && starts_nowhere kw r
  end.

End SecretsSpec.

Module NestedLoopsSpec.

Import PerformanceVisitor.

(** A loop construct ([for] or [while]) occurs in one of the statements of
    [body], at any depth. *)
Definition loop_inside (body : list ast) : Prop :=
  exists stmt n, In stmt body /\ In n (preorder stmt) /\ is_loop n = true.

(** [[
    while running:
        for item in items:
            pass
    ]] *)
Definition inner_for : ast :=
  For (Name "item" Store) (Name "items" Load) [Pass] [] 2.

Definition while_over_for : ast :=
  Module_ [While (Name "running" Load) [inner_for] [] 1].

Definition while_lines : list string :=
  ["while running:"; "    for item in items:"; "        pass"].

(** [[
    for item in items:
        while running:
            pass
    ]] *)
Definition for_over_while : ast :=
  Module_
    [For (Name "item" Store) (Name "items" Load)
       [While (Name "running" Load) [Pass] [] 2] [] 1].

Definition for_lines : list string :=
  ["for item in items:"; "    while running:"; "        pass"].

End NestedLoopsSpec.

Module RefactoringSpec.

(** The number of lines a definition occupies, from its [def] line to its
    last line, both included. *)
Definition line_span (node : ast) : Z :=
  (node_end_lineno node - node_lineno node + 1)%Z.

(** No function or class definition below [f]. *)
Definition only_definition (f : ast) : Prop :=
  Forall (fun n => is_FunctionDef n = false /\ is_ClassDef n = false)
         (flat_map preorder (iter_child_nodes f)).

Definition function_length_suggestion (name : string) : pydict :=
  refactoring_suggestion "function_length"
    ("函数 '" ++ name ++ "' 过长，建议拆分")
    "将函数拆分为多个更小的函数".

(** A function without parameters whose [def] is on line 1 and whose last
    statement, a [pass], ends on line [last]. *)
Definition plain_function (last : Z) : ast :=
  FunctionDef "process" no_arguments [Pass] [] None 1 last.

(** A parser that answers with [tree]. *)
Definition parse_as (tree : ast) : string -> parse_result :=
  fun _ => ParseOk tree.

End RefactoringSpec.

Module LongFunctionsSpec.

(** Some line of the file contains [def ] (with the space). *)
Definition has_def_line (content : string) : Prop :=
  exists l, In l (PyStr.split_lines content)
            /\ SubstringSpec.occurs_in "def " l.

(** The number of lines of the file that contain [def ]. *)
Definition def_lines (content : string) : nat :=
  count_if (PyStr.contains "def ") (PyStr.split_lines content).

(** The [.py] files below a root: for every directory of the walk, in its
    order, the file names ending in [.py], each joined to the directory. *)
Definition py_files_below
  (os_walk : string -> list (string * list string * list string))
  (project_root : string) : list string :=
  flat_map
    (fun '(directory, _, files) =>
       flat_map (fun file => if PyStr.endswith file ".py"
                             then [path_join directory file] else [])
                files)
    (os_walk project_root).

(** What one file adds to the [long_functions] factor: the number of its
    lines containing [def ] when its text is longer than 2000 characters,
    nothing when the text is shorter or the file cannot be read. *)
Definition contribution (read_text : string -> read_result)
  (file_path : string) : nat :=
  match read_text file_path with
  | ReadOk content =>
      if (2000 <? PyStr.len content)%nat then def_lines content else O
  | ReadError _ => O
  end.

(** The file can be read, has a line containing [def ] and is longer than
    2000 characters. *)
Definition qualifies (read_text : string -> read_result)
  (file_path : string) : bool :=
  match read_text file_path with
  | ReadOk content =>
      existsb (PyStr.contains "def ") (PyStr.split_lines content)
      && (2000 <? PyStr.len content)%nat
  | ReadError _ => false
  end.

(** A line of 2000 characters. *)
Definition filler : string := string_of_list_ascii (repeat "#"%char 2000).

(** A text of one [def] line followed by a line of 2000 characters. *)
Definition long_text : string :=
  "def f():" ++ String PyStr.LF filler.

(** A text of two [def] lines followed by a line of 2000 characters. *)
Definition two_defs_text : string :=
  "def f(): pass" ++ String PyStr.LF
    ("def g(): pass" ++ String PyStr.LF filler).

(** A text of 1211 characters and 2411 bytes: 1200 Cyrillic letters after
    a [def] line. *)
Definition cyrillic_text : string :=
  "def f(): #" ++ String PyStr.LF
    (String.concat "" (repeat "я" 1200)).

(** A project of two directories:
    [[
    proj/app.py          two def lines, long
    proj/notes.txt       one def line, long, not a .py file
    proj/pkg/small.py    one def line, short
    proj/pkg/data.py     long, no def line
    proj/pkg/broken.py   cannot be read
    ]] *)
Definition sample_walk (top : string)
  : list (string * list string * list string) :=
  [ (top, ["pkg"], ["app.py"; "notes.txt"]);
    (path_join top "pkg", [], ["small.py"; "data.py"; "broken.py"]) ].

Definition sample_read (path : string) : read_result :=
  if String.eqb path "proj/app.py" then ReadOk two_defs_text
  else if String.eqb path "proj/notes.txt" then ReadOk long_text
  else if String.eqb path "proj/pkg/small.py" then ReadOk "def h(): pass"
  else if String.eqb path "proj/pkg/data.py" then ReadOk filler
  else ReadError "'utf-8' codec can't decode byte 0xff".

End LongFunctionsSpec.

Module TextSpec.

(** The text is empty or its last character is a line feed. *)
Fixpoint ends_line (s : string) : bool :=
  match s with
  | EmptyString => true
  | String c EmptyString => Ascii.eqb c PyStr.LF
  | String _ r => ends_line r
  end.

(** Number of occurrences of the character [c] in [s]. *)
Fixpoint count_char (c : ascii) (s : string) : nat :=
  match s with
  | EmptyString => O
  | String a r => ((if Ascii.eqb a c then 1 else 0) + count_char c r)%nat
  end.

End TextSpec.

Module CommitSpec.

(** Some description of the list is filed under the type [ty]. *)
Definition has_type (ty : string) (changes : list string) : bool :=
  existsb (fun change => String.eqb (change_type change) ty) changes.

(** The five subjects a message can open with; [chore] is not one. *)
Definition subjects : list string :=
  [ "feat: implement new functionality"; "fix: resolve issues";
    "test: add/update tests"; "docs: update documentation";
    "refactor: improve code structure" ].

(** The message made of a subject and a number of files. *)
Definition message_of (subject : string) (n : nat) : string :=
  subject ++ " (" ++ PyStr.of_nat n ++ " files)".

(** The separator of the tool: a comma. *)
Definition comma : ascii := ascii_of_nat 44.

End CommitSpec.

Module DependenciesSpec.

(** A file system that holds one file, [path], with the text [content]. *)
Definition only_file (path content : string) : string -> read_result :=
  fun p => if String.eqb p path then ReadOk content
           else ReadError "No such file or directory".

(** [os.path.exists] on that file system. *)
Definition exists_only (path : string) : string -> bool :=
  fun p => String.eqb p path.

(** Two pinned requirements and a comment. *)
Definition requirements : string :=
  "django>=3.2" ++ String PyStr.LF
    ("# testing" ++ String PyStr.LF "pytest==7.0").

(** The framework, database and testing tests of [_identify_tech_stack]. *)
Definition is_framework (dep : string) : bool :=
  mentions_any framework_words (PyStr.lower dep).
Definition is_database (dep : string) : bool :=
  mentions_any database_words (PyStr.lower dep).
Definition is_testing (dep : string) : bool :=
  mentions_any testing_words (PyStr.lower dep).

(** The three lists are the dependencies sorted into classes. *)
Definition classified (t : tech_stack_t) : Prop :=
  frameworks t = filter is_framework (dependencies t)
  /\ databases t
     = filter (fun d => negb (is_framework d) && is_database d)
              (dependencies t)
  /\ testing_frameworks t
     = filter (fun d => negb (is_framework d) && negb (is_database d)
                        && is_testing d) (dependencies t)
  /\ primary_language t = "Python".

(** The two files whose text [_parse_dependencies] reads names from. *)
Definition parsed_files : list string :=
  ["requirements.txt"; "pyproject.toml"].

(** The third recommendation of [_generate_project_recommendations]. *)
Definition modularization_advice : string :=
  "考虑重构为更清晰的模块化架构".

End DependenciesSpec.

Module ProjectSpec.

(** A project directory [/srv/testbed] holding one module. *)
Definition testbed_walk
  : string -> list (string * list string * list string) :=
  fun top => [ (top, ["pkg"], ["app.py"]);
               ((top ++ "/pkg")%string, [], ["core.py"]) ].


(** A directory listing without entries. *)
Definition empty_listing : string -> outcome (list string) :=
  fun _ => Returned [].

End ProjectSpec.

Module MinimalSpec.

Import MinimalTools.

(** [a] comes before [b] in a list sorted by decreasing size. *)
Definition not_smaller (a b : py_file) : Prop :=
  (pf_size b <= pf_size a)%nat.

(** The entries of a listing that [list_python_files] keeps. *)
Definition is_python_file (isfile : string -> bool) (directory item : string)
  : bool :=
  PyStr.endswith item ".py" && isfile (path_join directory item).

(** The directory the tool lists. *)
Definition listed_directory (directory : string) : string :=
  if String.eqb directory "." then project_path else directory.

(** The size of the entry [item] of [directory] can be read. *)
Definition size_known (getsize : string -> outcome nat)
  (directory item : string) : Prop :=
  exists size, getsize (path_join directory item) = Returned size.

(** The entry of a function definition in the answer of
    [analyze_python]. *)
Definition function_entry (n : ast) : pyval :=
  PDict [ ("name", PStr (node_name n)); ("line", PInt (node_lineno n));
          ("args", PNat (length (a_args (node_args n)))) ].

(** The entry of a class definition. *)
Definition class_entry (n : ast) : pyval :=
  PDict [ ("name", PStr (node_name n)); ("line", PInt (node_lineno n)) ].

(** A file of two lines, the second one without a line end. *)
Definition two_lines : string :=
  "import os" ++ String PyStr.LF "print(os.getcwd())".

(** Sizes of three files. *)
Definition sizes (path : string) : outcome nat :=
  if PyStr.endswith path "a.py" then Returned 10%nat
  else if PyStr.endswith path "b.py" then Returned 30%nat
  else Returned 20%nat.

(** The same sizes when [b.py] has been removed since the listing. *)
Definition sizes_without_b (path : string) : outcome nat :=
  if PyStr.endswith path "b.py"
  then Raised "[Errno 2] No such file or directory: '/srv/b.py'"
  else sizes path.

End MinimalSpec.

Module NamingSpec.

(** Some node of the subtree of [node], [node] included, passes the test
    [p]. *)
Definition has_node (p : ast -> bool) (node : ast) : bool :=
  existsb p (preorder node).

(** A call of a method (an attribute) whose name is one of [names]. *)
Definition is_method_call (names : list string) (n : ast) : bool :=
  match n with
  | Call (Attribute _ attr _) _ _ _ => str_in attr names
  | _ => false
  end.

(** The method names that stand for file and for database operations. *)
Definition file_methods : list string := ["open"; "read"; "write"; "close"].
Definition database_methods : list string := ["execute"; "query"; "commit"].

(** The operation kind a node stands for, if any. *)
Definition operation_of (n : ast) : option string :=
  match n with
  | Return _ => Some "return"
  | Assign _ _ _ => Some "assignment"
  | Call (Attribute _ attr _) _ _ _ =>
      if str_in attr file_methods then Some "file_io"
      else if str_in attr database_methods then Some "database"
      else None
  | _ => None
  end.

(** The node stands for the operation [kind]. *)
Definition records (kind : string) (n : ast) : bool :=
  match operation_of n with
  | Some kind' => String.eqb kind kind'
  | None => false
  end.

(** The findings of the naming check, stated on the subtree of the
    definition. *)
Definition naming_findings (node : ast) : list string :=
  let name := PyStr.lower (node_name node) in
  (if PyStr.startswith name "get_" && negb (has_node is_Return node)
   then ["函数名暗示获取数据，但没有返回语句"] else [])
  ++ (if PyStr.startswith name "set_" && negb (has_node is_Assign node)
      then ["函数名暗示设置数据，但没有赋值操作"] else [])
  ++ (if (PyStr.startswith name "is_" || PyStr.startswith name "has_")
         && negb (has_node is_Return node)
      then ["布尔函数应该有返回值"] else [])
  ++ (if PyStr.contains "save" name
         && negb (has_node (is_method_call file_methods) node)
         && negb (has_node (is_method_call database_methods) node)
      then ["函数名暗示保存操作，但没有发现文件或数据库操作"] else []).

(** [[
    def set_total(self, x):
        self.total += x
    ]] *)
Definition set_total : ast :=
  FunctionDef "set_total"
    (mk_arguments [] [arg "self" None; arg "x" None] None [] [] None [])
    [AugAssign (Attribute (Name "self" Load) "total" Store) Add
       (Name "x" Load)]
    [] None 1 2.

End NamingSpec.

Module CensusSpec.

(** The issue has this severity, category and confidence. *)
Definition issue_kind (sev : severity_t) (cat : category_t) (conf : Q)
  (i : CodeIssue.t) : bool :=
  severity_eqb (CodeIssue.severity i) sev
  && category_eqb (CodeIssue.category i) cat
  && Qeq_bool (CodeIssue.confidence i) conf.

(** The issue has this severity. *)
Definition has_severity (sev : severity_t) (i : CodeIssue.t) : bool :=
  severity_eqb (CodeIssue.severity i) sev.

(** A function definition with more than 5 positional parameters. *)
Definition has_many_parameters (n : ast) : bool :=
  is_FunctionDef n && (5 <? length (a_args (node_args n)))%nat.

(** A function definition whose cyclomatic complexity exceeds 10. *)
Definition is_complex_function (n : ast) : bool :=
  is_FunctionDef n
  && (10 <? BusinessLogicVisitor._calculate_cyclomatic_complexity n)%nat.

(** A call of the plain name [eval] or [exec]. *)
Definition is_dynamic_call (n : ast) : bool :=
  match n with
  | Call (Name id _) _ _ _ => String.eqb id "eval" || String.eqb id "exec"
  | _ => false
  end.

(** A [for] loop with a binary [+] somewhere in its subtree. *)
Definition concatenates (n : ast) : bool :=
  is_For n && NamingSpec.has_node PerformanceVisitor.is_add n.

(** A [for] loop with a [for] or [while] loop strictly below it. *)
Definition has_inner_loop (n : ast) : bool :=
  is_For n
  && existsb PerformanceVisitor.is_loop
             (flat_map preorder (iter_child_nodes n)).

(** The name a call node adds to [external_calls]: the identifier of a
    plain name, the attribute of a method, nothing for any other callee. *)
Definition callee (n : ast) : list string :=
  match n with
  | Call (Name id _) _ _ _ => [id]
  | Call (Attribute _ attr _) _ _ _ => [attr]
  | _ => []
  end.

(** The number of function definitions among the statements of a class
    body. *)
Definition direct_methods (n : ast) : nat :=
  length (filter is_FunctionDef (node_body n)).

(** A class definition with more than 15 methods. *)
Definition is_large_class (n : ast) : bool :=
  is_ClassDef n && (15 <? direct_methods n)%nat.

(** The record the architecture pass stores for a class definition. *)
Definition class_record (dump : ast -> string) (node : ast)
  : ClassMetrics.t :=
  ClassMetrics.mk
    (node_name node)
    (node_lineno node)
    (node_end_lineno node)
    (direct_methods node)
    (length (filter is_Assign (node_body node)))
    (length (ArchitectureVisitor.node_bases node))
    (has_docstring node)
    (ArchitectureVisitor._detect_design_pattern dump node
       (filter is_FunctionDef (node_body node))).

(** [[
    for x in xs:
        total += x
    ]] *)
Definition augmented_loop : ast :=
  For (Name "x" Store) (Name "xs" Load)
    [AugAssign (Name "total" Store) Add (Name "x" Load)] [] 1.

(** [[
    for x in xs:
        n = n + 1
    ]] *)
Definition counting_loop : ast :=
  For (Name "x" Store) (Name "xs" Load)
    [Assign [Name "n" Store]
       (BinOp (Name "n" Load) Add (Constant (CInt 1))) 2] [] 1.

End CensusSpec.

Module SuggestionSpec.

(** The suggestion is of the type [ty]. *)
Definition suggestion_type (ty : string) (d : pydict) : bool :=
  match dict_get "type" d with
  | Some (PStr t) => String.eqb t ty
  | _ => false
  end.

(** A function definition whose last line lies more than 50 lines after
    its [def] line. *)
Definition is_long_function (n : ast) : bool :=
  is_FunctionDef n && (50 <? node_end_lineno n - node_lineno n)%Z.

(** A function of seven parameters in a module of its own. *)
Definition wide_function : ast :=
  FunctionDef "connect"
    (mk_arguments []
       [arg "host" None; arg "port" None; arg "user" None;
        arg "password" None; arg "database" None; arg "timeout" None;
        arg "retries" None]
       None [] [] None [])
    [Pass] [] None 1 2.

(** The module that holds it. *)
Definition wide_module : ast := Module_ [wide_function].

End SuggestionSpec.

(* ====================================================================== *)
(** * Properties of the tree functions *)
(* ====================================================================== *)

Section FoldFacts.
Context {R : Type}.
Variable f : ast -> list R -> R.

Lemma omap_opt_nodes (g : ast -> R) (o : option ast) :
  omap g o = map g (opt_nodes o).
Proof. destruct o; reflexivity. Qed.

Lemma omaps_opts_nodes (g : ast -> R) (l : list (option ast)) :
  omaps g l = map g (opts_nodes l).
Proof.
  unfold omaps, opts_nodes.
  induction l as [|o l IH]; simpl; [reflexivity|].
  rewrite map_app, IH, omap_opt_nodes. reflexivity.
Qed.

(** [ast_fold] unfolds along [iter_child_nodes]. *)
Lemma ast_fold_eq (n : ast) :
  ast_fold f n = f n (map (ast_fold f) (iter_child_nodes n)).
Proof.
  destruct n; try destruct args; try destruct a; simpl;
    unfold arguments_children; simpl;
    rewrite ?map_app, ?map_map, ?omap_opt_nodes, ?omaps_opts_nodes;
    simpl; reflexivity.
Qed.

End FoldFacts.

Lemma size_eq (n : ast) :
  size n = S (list_sum (map size (iter_child_nodes n))).
Proof. unfold size at 1. rewrite ast_fold_eq. reflexivity. Qed.

Lemma list_sum_In (l : list ast) (c : ast) :
  In c l -> (size c <= list_sum (map size l))%nat.
Proof.
  induction l as [|x l IH]; simpl; [tauto|].
  intros [->|H]; [lia|]. specialize (IH H). lia.
Qed.

Lemma size_child (n c : ast) :
  In c (iter_child_nodes n) -> (size c < size n)%nat.
Proof.
  intros H. rewrite (size_eq n). apply list_sum_In in H. lia.
Qed.

Lemma size_pos (n : ast) : (1 <= size n)%nat.
Proof. rewrite size_eq. lia. Qed.

(** Induction over the tree along [iter_child_nodes]. *)
Lemma ast_children_ind (P : ast -> Prop) :
  (forall n, Forall P (iter_child_nodes n) -> P n) -> forall n, P n.
Proof.
  intros step n.
  induction n as [n IH] using (induction_ltof1 ast size).
  apply step. apply Forall_forall. intros c Hc.
  apply IH. unfold ltof. now apply size_child.
Qed.

Lemma preorder_eq (n : ast) :
  preorder n = n :: flat_map preorder (iter_child_nodes n).
Proof.
  unfold preorder at 1. rewrite ast_fold_eq. fold preorder.
  now rewrite flat_map_concat_map.
Qed.

Lemma preorder_length (n : ast) : length (preorder n) = size n.
Proof.
  induction n as [n IH] using ast_children_ind.
  rewrite preorder_eq, size_eq. simpl. f_equal.
  induction IH as [|c cs Hc _ IHcs]; simpl; [reflexivity|].
  now rewrite length_app, Hc, IHcs.
Qed.

Lemma total_size_app (l1 l2 : list ast) :
  total_size (l1 ++ l2) = (total_size l1 + total_size l2)%nat.
Proof. unfold total_size. now rewrite map_app, list_sum_app. Qed.

(** With enough fuel the queue is emptied: the loop yields every node of
    every queued subtree exactly once. *)
Lemma walk_queue_perm (fuel : nat) :
  forall todo, (total_size todo <= fuel)%nat ->
    Permutation (walk_queue fuel todo) (flat_map preorder todo).
Proof.
  induction fuel as [|fuel IH]; intros [|n rest] Hle; simpl; auto.
  - unfold total_size in Hle. simpl in Hle. pose proof (size_pos n). lia.
  - rewrite preorder_eq. simpl. apply perm_skip.
    rewrite IH.
    + rewrite flat_map_app. apply Permutation_app_comm.
    + rewrite total_size_app. unfold total_size in *. simpl in Hle.
      rewrite (size_eq n) in Hle. lia.
Qed.

(** More fuel than needed changes nothing. *)
Lemma walk_queue_fuel (fuel : nat) :
  forall todo extra, (total_size todo <= fuel)%nat ->
    walk_queue (fuel + extra) todo = walk_queue fuel todo.
Proof.
  induction fuel as [|fuel IH]; intros [|n rest] extra Hle; simpl; auto.
  - destruct extra; reflexivity.
  - unfold total_size in Hle. simpl in Hle. pose proof (size_pos n). lia.
  - f_equal. apply IH.
    rewrite total_size_app. unfold total_size in *. simpl in Hle.
    rewrite (size_eq n) in Hle. lia.
Qed.

Lemma walk_perm (n : ast) : Permutation (walk n) (preorder n).
Proof.
  unfold walk. rewrite walk_queue_perm.
  - simpl. now rewrite app_nil_r.
  - unfold total_size. simpl. lia.
Qed.

(** [walk] yields the node itself first, then its proper descendants. *)
Lemma walk_head (n : ast) :
  walk n = n :: walk_queue (Nat.pred (size n)) (iter_child_nodes n).
Proof.
  unfold walk. rewrite (size_eq n). reflexivity.
Qed.

Lemma walk_below_perm (n : ast) :
  Permutation (walk_below n) (flat_map preorder (iter_child_nodes n)).
Proof.
  unfold walk_below. rewrite walk_head. simpl.
  apply walk_queue_perm. rewrite size_eq. simpl. unfold total_size. lia.
Qed.

(** Counting and filtering do not depend on the order of the walk. *)
Lemma Permutation_filter {A} (p : A -> bool) (l1 l2 : list A) :
  Permutation l1 l2 -> Permutation (filter p l1) (filter p l2).
Proof.
  induction 1; simpl; auto.
  - destruct (p x); auto.
  - destruct (p x), (p y); auto. apply perm_swap.
  - eauto using Permutation_trans.
Qed.

Lemma Permutation_list_sum (l1 l2 : list nat) :
  Permutation l1 l2 -> list_sum l1 = list_sum l2.
Proof. induction 1; simpl; lia. Qed.

Lemma count_if_app {A} (p : A -> bool) (l1 l2 : list A) :
  count_if p (l1 ++ l2) = (count_if p l1 + count_if p l2)%nat.
Proof. unfold count_if. now rewrite filter_app, length_app. Qed.

Lemma count_if_perm {A} (p : A -> bool) (l1 l2 : list A) :
  Permutation l1 l2 -> count_if p l1 = count_if p l2.
Proof.
  intros H. unfold count_if.
  apply Permutation_length, Permutation_filter, H.
Qed.

(** Counting over mapped, filtered and concatenated lists. *)
Lemma flat_map_map {A B C} (g : A -> B) (f : B -> list C) (l : list A) :
  flat_map f (map g l) = flat_map (fun x => f (g x)) l.
Proof. induction l as [|x l IH]; simpl; [reflexivity|]. now rewrite IH. Qed.

(** Sums over concatenations. *)
Lemma sum_flat_map {A B} (f : B -> nat) (g : A -> list B) (l : list A) :
  list_sum (map f (flat_map g l))
  = list_sum (map (fun x => list_sum (map f (g x))) l).
Proof.
  induction l as [|x l IH]; simpl; [reflexivity|].
  now rewrite map_app, list_sum_app, IH.
Qed.

Lemma count_if_sum {A} (p : A -> bool) (l : list A) :
  count_if p l = list_sum (map (fun x => Nat.b2n (p x)) l).
Proof.
  unfold count_if. induction l as [|x l IH]; simpl; [reflexivity|].
  destruct (p x); simpl; lia.
Qed.

Lemma count_if_flat_map {A B} (p : B -> bool) (g : A -> list B) (l : list A) :
  count_if p (flat_map g l) = list_sum (map (fun x => count_if p (g x)) l).
Proof.
  rewrite count_if_sum, sum_flat_map. f_equal.
  apply map_ext. intros x. now rewrite count_if_sum.
Qed.

Lemma count_if_map {A B} (p : B -> bool) (g : A -> B) (l : list A) :
  count_if p (map g l) = count_if (fun x => p (g x)) l.
Proof.
  unfold count_if. induction l as [|x l IH]; simpl; [reflexivity|].
  destruct (p (g x)); simpl; now rewrite IH.
Qed.

Lemma count_if_filter {A} (p q : A -> bool) (l : list A) :
  count_if p (filter q l) = count_if (fun x => q x && p x) l.
Proof.
  unfold count_if. induction l as [|x l IH]; simpl; [reflexivity|].
  destruct (q x); simpl; [destruct (p x); simpl; now rewrite IH|exact IH].
Qed.

Section NodeVisitorFacts.
Context {St : Type}.
Variable handler : ast -> St -> St.

Lemma visit_eq (n : ast) (s : St) :
  visit handler n s = generic_visit handler n (handler n s).
Proof.
  unfold visit at 1. rewrite ast_fold_eq. fold (visit handler).
  unfold generic_visit. generalize (handler n s).
  induction (iter_child_nodes n) as [|c cs IH]; simpl; auto.
Qed.

(** The visitor runs the handlers over the tree in depth-first order. *)
Lemma visit_preorder (n : ast) :
  forall s,
    visit handler n s = fold_left (fun s c => handler c s) (preorder n) s.
Proof.
  induction n as [n IH] using ast_children_ind. intros s.
  rewrite visit_eq, preorder_eq. simpl. unfold generic_visit.
  generalize (handler n s).
  induction IH as [|c cs Hc _ IHcs]; simpl; intros s'; [reflexivity|].
  now rewrite fold_left_app, Hc, IHcs.
Qed.

End NodeVisitorFacts.

(* ====================================================================== *)
(** * Properties of the quality score *)
(* ====================================================================== *)

Module Score.

Import ScoreSpec.
Local Open Scope Q_scope.

Lemma penalty_weight (i : CodeIssue.t) :
  penalty i == CodeIssue.confidence i * weight (CodeIssue.severity i).
Proof.
  unfold penalty, weight. destruct (CodeIssue.severity i); ring.
Qed.

Lemma fold_penalty (l : list CodeIssue.t) :
  forall a, fold_left (fun total issue => total + penalty issue) l a
            == a + weighted_sum l.
Proof.
  induction l as [|i l IH]; intros a; simpl.
  - ring.
  - rewrite IH, penalty_weight. ring.
Qed.

Lemma total_penalty_weighted_sum (l : list CodeIssue.t) :
  total_penalty l == weighted_sum l.
Proof. unfold total_penalty. rewrite fold_penalty. ring. Qed.

Lemma weighted_sum_nonneg (l : list CodeIssue.t) :
  Forall valid_issue l -> 0 <= weighted_sum l.
Proof.
  induction 1 as [|i l [Hi _] _ IH]; simpl.
  - apply Qle_refl.
  - assert (0 <= weight (CodeIssue.severity i))
      by (destruct (CodeIssue.severity i); discriminate).
    assert (0 <= CodeIssue.confidence i * weight (CodeIssue.severity i))
      by (apply Qmult_le_0_compat; assumption).
    replace 0 with (0 + 0) by reflexivity.
    apply Qplus_le_compat; assumption.
Qed.

(** Rounding sees the number, not the fraction that writes it. *)
Lemma round_half_even_compat (x y : Q) :
  x == y -> round_half_even x = round_half_even y.
Proof.
  destruct x as [n d], y as [n' d']. unfold Qeq, round_half_even.
  cbn [Qnum Qden]. intros E.
  pose proof (Z.div_mod n (Zpos d) ltac:(lia)) as Hn.
  pose proof (Z.mod_pos_bound n (Zpos d) ltac:(lia)) as Hr.
  pose proof (Z.div_mod n' (Zpos d') ltac:(lia)) as Hn'.
  pose proof (Z.mod_pos_bound n' (Zpos d') ltac:(lia)) as Hr'.
  set (q := (n / Zpos d)%Z) in *. set (r := (n mod Zpos d)%Z) in *.
  set (q' := (n' / Zpos d')%Z) in *. set (r' := (n' mod Zpos d')%Z) in *.
  clearbody q r q' r'.
  assert (Hd : (Zpos d * Zpos d' * (q - q') = r' * Zpos d - r * Zpos d')%Z)
    by (rewrite Hn, Hn' in E; lia).
  assert (Hb1 : (r' * Zpos d < Zpos d * Zpos d')%Z) by nia.
  assert (Hb2 : (r * Zpos d' < Zpos d * Zpos d')%Z) by nia.
  assert (Hb3 : (0 <= r' * Zpos d)%Z) by nia.
  assert (Hb4 : (0 <= r * Zpos d')%Z) by nia.
  assert (Hq : q' = q) by nia. subst q'.
  assert (Hrr : (r' * Zpos d = r * Zpos d')%Z) by lia.
  assert (Hc : (2 * r ?= Zpos d)%Z = (2 * r' ?= Zpos d')%Z).
  { destruct (Z.compare_spec (2 * r') (Zpos d')) as [H|H|H].
    - apply Z.compare_eq_iff. nia.
    - apply Z.compare_lt_iff. nia.
    - apply Z.compare_gt_iff. nia. }
  rewrite Hc. reflexivity.
Qed.

Lemma round1_compat (x y : Q) : x == y -> round1 x = round1 y.
Proof.
  intros E. unfold round1. f_equal.
  apply round_half_even_compat. now rewrite E.
Qed.

(** Rounding to one decimal stays within integer bounds. *)
Lemma round1_range (x : Q) (lo hi : Z) :
  inject_Z lo <= x <= inject_Z hi ->
  inject_Z lo <= round1 x <= inject_Z hi.
Proof.
  destruct x as [n d]. unfold round1, round_half_even, Qle, inject_Z.
  cbn [Qnum Qden Qmult]. intros [Hlo Hhi].
  pose proof (Z.div_mod (n * 10) (Zpos (d * 1)) ltac:(lia)) as Hn.
  pose proof (Z.mod_pos_bound (n * 10) (Zpos (d * 1)) ltac:(lia)) as Hr.
  set (q := (n * 10 / Zpos (d * 1))%Z) in *.
  set (r := ((n * 10) mod Zpos (d * 1))%Z) in *.
  replace (Zpos (d * 1)) with (Zpos d) in * by lia.
  destruct (Z.compare_spec (2 * r) (Zpos d)) as [H|H|H];
    [destruct (Z.even q)| |]; nia.
Qed.

Lemma score_nonempty (s : engine) :
  issues s <> [] ->
  _calculate_quality_score s
  = round1 (Qmax 0 (100 - total_penalty (issues s))).
Proof.
  unfold _calculate_quality_score. destruct (issues s); [congruence|].
  reflexivity.
Qed.

(** The score stays between 0 and 100 when the confidences are valid. *)
Lemma score_in_range (s : engine) :
  Forall valid_issue (issues s) -> 0 <= _calculate_quality_score s <= 100.
Proof.
  intros Hv. destruct (issues s) as [|i l] eqn:El.
  - unfold _calculate_quality_score. rewrite El. split; discriminate.
  - rewrite score_nonempty by congruence. rewrite El in *.
    apply (round1_range _ 0 100). split.
    + apply Q.le_max_l.
    + apply Q.max_lub; [discriminate|].
      pose proof (weighted_sum_nonneg _ Hv) as Hw.
      rewrite <- total_penalty_weighted_sum in Hw.
      apply (Qplus_le_l _ _ (total_penalty (i :: l))). ring_simplify.
      rewrite <- (Qplus_0_l 100) at 1.
      apply Qplus_le_compat; [assumption | apply Qle_refl].
Qed.

(** [round_half_even] picks the nearest whole number, the even one at a
    tie. *)
Lemma round_half_even_nearest (q : Q) :
  inject_Z (round_half_even q) - (1 # 2) <= q
    <= inject_Z (round_half_even q) + (1 # 2)
  /\ (q == inject_Z (round_half_even q) - (1 # 2)
      \/ q == inject_Z (round_half_even q) + (1 # 2) ->
      Z.even (round_half_even q) = true).
Proof.
  destruct q as [n d].
  unfold round_half_even, Qle, Qeq, Qminus, Qplus, Qopp, inject_Z.
  cbn [Qnum Qden].
  pose proof (Z.div_mod n (Zpos d) ltac:(lia)) as Hn.
  pose proof (Z.mod_pos_bound n (Zpos d) ltac:(lia)) as Hr.
  set (q := (n / Zpos d)%Z) in *. set (r := (n mod Zpos d)%Z) in *.
  clearbody q r.
  destruct (Z.compare_spec (2 * r) (Zpos d)) as [H|H|H].
  - destruct (Z.even q) eqn:Ee.
    + split; [split; nia|]. intros _. exact Ee.
    + split; [split; nia|]. intros _.
      replace (q + 1)%Z with (Z.succ q) by lia.
      rewrite Z.even_succ, <- Z.negb_even, Ee. reflexivity.
  - split; [split; nia|]. intros [E|E]; exfalso; nia.
  - split; [split; nia|]. intros [E|E]; exfalso; nia.
Qed.

Lemma round1_rounds (x : Q) : rounded_to_one_decimal x (round1 x).
Proof.
  exists (round_half_even (x * (10 # 1))).
  split; [reflexivity|]. apply round_half_even_nearest.
Qed.

Lemma rounded_compat (x y score : Q) :
  x == y -> rounded_to_one_decimal x score -> rounded_to_one_decimal y score.
Proof.
  intros E (k & Hs & Hb & Ht). exists k. rewrite <- E. now repeat split.
Qed.

Lemma binary_fraction_valid (q : Q) : binary_fraction q -> 0 <= q <= 1.
Proof.
  intros (j & Hj & E). rewrite E. unfold Qle. cbn. lia.
Qed.

Lemma exact_issue_valid (i : CodeIssue.t) : exact_issue i -> valid_issue i.
Proof.
  intros [H|H].
  - unfold emitted_kind in H. unfold valid_issue.
    destruct i as [sev cat m p l c f q]. cbn in *.
    repeat (destruct H as [H|H];
            [injection H as <- <-; split; discriminate|]).
    contradiction.
  - now apply binary_fraction_valid.
Qed.

(** C1. On the issues whose arithmetic is exact, the quality score is
    [max(0, 100 - sum of confidence * weight)] rounded to one decimal, with
    weights 20, 10 and 5 for critical, warning and suggestion: ten times
    the score is the whole number nearest to ten times that value (the even
    one at a tie); the score lies between 0 and 100; and it is exactly 100
    for the empty list. *)
Theorem quality_score_spec (s : engine) :
  Forall exact_issue (issues s) ->
  rounded_to_one_decimal (Qmax 0 (100 - weighted_sum (issues s)))
    (_calculate_quality_score s)
  /\ 0 <= _calculate_quality_score s <= 100
  /\ (issues s = [] -> _calculate_quality_score s = 100 # 1).
Proof.
  intros He.
  assert (Hv : Forall valid_issue (issues s)).
  { eapply Forall_impl; [|exact He]. apply exact_issue_valid. }
  split; [|split].
  - destruct (issues s) as [|i l] eqn:El.
    + unfold _calculate_quality_score. rewrite El.
      exists 1000%Z. split; [reflexivity|]. split; [split; discriminate|].
      reflexivity.
    + rewrite score_nonempty by congruence. rewrite El.
      eapply rounded_compat; [|apply round1_rounds].
      now rewrite total_penalty_weighted_sum.
  - now apply score_in_range.
  - intros El. unfold _calculate_quality_score. now rewrite El.
Qed.

(** One critical finding of confidence 0.8 and one warning of confidence
    0.9 cost 16 + 9 points. *)
Example score_of_two_findings :
  _calculate_quality_score (mk_engine [sample_issue; sample_warning] [] [])
  == 75.
Proof. vm_compute. reflexivity. Qed.

(** A warning of confidence 0.9 and a suggestion of confidence 1/8 cost
    9.625 points; 90.375 is rounded to 90.4. *)
Lemma quality_score_spec_witness :
  rounded_to_one_decimal
    (Qmax 0 (100 - weighted_sum [sample_warning; eighth]))
    (_calculate_quality_score (mk_engine [sample_warning; eighth] [] []))
  /\ 0 <= _calculate_quality_score (mk_engine [sample_warning; eighth] [] [])
     <= 100.
Proof.
  assert (He : Forall exact_issue [sample_warning; eighth]).
  { constructor; [|constructor; [|constructor]].
    - left. unfold emitted_kind. cbn. tauto.
    - right. exists 128%Z. split; [lia | reflexivity]. }
  pose proof (quality_score_spec (mk_engine [sample_warning; eighth] [] []) He)
    as (H1 & H2 & _).
  split; [exact H1 | exact H2].
Defined.

(** The rounding goes up to the nearest tenth. *)
Example score_rounded_up :
  _calculate_quality_score (mk_engine [sample_warning; eighth] [] [])
  = 904 # 10.
Proof. vm_compute. reflexivity. Qed.

(** 98.75 lies half way between 98.7 and 98.8; the even one is taken. *)
Example score_tie_to_even :
  _calculate_quality_score (mk_engine [quarter] [] []) = 988 # 10
  /\ 100 - weighted_sum [quarter] == 9875 # 100.
Proof. split; vm_compute; reflexivity. Qed.

End Score.

(* ====================================================================== *)
(** * The visitors only append *)
(* ====================================================================== *)

Lemma engine_app_init_r (s : engine) : engine_app s engine_init = s.
Proof. destruct s. unfold engine_app. simpl. now rewrite !app_nil_r. Qed.

Lemma engine_app_init_l (s : engine) : engine_app engine_init s = s.
Proof. destruct s. reflexivity. Qed.

Lemma engine_app_assoc (a b c : engine) :
  engine_app a (engine_app b c) = engine_app (engine_app a b) c.
Proof. unfold engine_app. simpl. now rewrite !app_assoc. Qed.

Lemma appending_id : appending (fun s => s).
Proof. intros s. now rewrite engine_app_init_r. Qed.

Lemma appending_issue (i : CodeIssue.t) : appending (append_issue i).
Proof.
  intros s. unfold append_issue, engine_app. simpl.
  now rewrite !app_nil_r.
Qed.

Lemma appending_function_metrics (m : FunctionMetrics.t) :
  appending (append_function_metrics m).
Proof.
  intros s. unfold append_function_metrics, engine_app. simpl.
  now rewrite !app_nil_r.
Qed.

Lemma appending_class_metrics (m : ClassMetrics.t) :
  appending (append_class_metrics m).
Proof.
  intros s. unfold append_class_metrics, engine_app. simpl.
  now rewrite !app_nil_r.
Qed.

Lemma appending_comp (f g : engine -> engine) :
  appending f -> appending g -> appending (fun s => g (f s)).
Proof.
  intros Hf Hg s.
  rewrite (Hg (f s)), (Hf s), (Hg (f engine_init)).
  now rewrite engine_app_assoc.
Qed.

Lemma appending_if (b : bool) (f g : engine -> engine) :
  appending f -> appending g -> appending (fun s => if b then f s else g s).
Proof. destruct b; auto. Qed.

Lemma appending_fold {A} (step : A -> engine -> engine) (l : list A) :
  (forall x, appending (step x)) ->
  appending (fun s => fold_left (fun s x => step x s) l s).
Proof.
  intros Hstep. induction l as [|x l IH]; simpl.
  - apply appending_id.
  - apply (appending_comp (step x) _ (Hstep x) IH).
Qed.

Create HintDb appending.

#[local] Hint Resolve appending_id appending_issue appending_function_metrics
  appending_class_metrics : appending.

Lemma appending_visit (h : ast -> engine -> engine) :
  (forall n, appending (h n)) -> forall n, appending (visit h n).
Proof.
  intros Hh n s. rewrite !visit_preorder.
  apply (appending_fold h (preorder n) Hh).
Qed.

Lemma emitted_cons (h : ast -> engine -> engine) (c : ast) (l : list ast) :
  (forall n, appending (h n)) ->
  emitted h (c :: l) = engine_app (h c engine_init) (emitted h l).
Proof.
  intros Hh. unfold emitted. simpl.
  apply (appending_fold h l Hh).
Qed.

Lemma issues_emitted (h : ast -> engine -> engine) (l : list ast) :
  (forall n, appending (h n)) ->
  issues (emitted h l) = flat_map (fun c => issues (h c engine_init)) l.
Proof.
  intros Hh. induction l as [|c l IH]; [reflexivity|].
  rewrite emitted_cons by assumption. simpl. now rewrite IH.
Qed.

Lemma function_metrics_emitted (h : ast -> engine -> engine) (l : list ast) :
  (forall n, appending (h n)) ->
  function_metrics (emitted h l)
  = flat_map (fun c => function_metrics (h c engine_init)) l.
Proof.
  intros Hh. induction l as [|c l IH]; [reflexivity|].
  rewrite emitted_cons by assumption. simpl. now rewrite IH.
Qed.

(** The issues a visitor leaves: those already there, then the findings of
    its handlers node by node, depth first. *)
Lemma issues_visit (h : ast -> engine -> engine) (n : ast) (s : engine) :
  (forall n, appending (h n)) ->
  issues (visit h n s)
  = issues s ++ flat_map (fun c => issues (h c engine_init)) (preorder n).
Proof.
  intros Hh. rewrite (appending_visit h Hh n s). simpl. f_equal.
  rewrite visit_preorder. apply (issues_emitted h _ Hh).
Qed.

Lemma function_metrics_visit
  (h : ast -> engine -> engine) (n : ast) (s : engine) :
  (forall n, appending (h n)) ->
  function_metrics (visit h n s)
  = function_metrics s
    ++ flat_map (fun c => function_metrics (h c engine_init)) (preorder n).
Proof.
  intros Hh. rewrite (appending_visit h Hh n s). simpl. f_equal.
  rewrite visit_preorder. apply (function_metrics_emitted h _ Hh).
Qed.

(** Appending one issue per element of a list. *)
Lemma fold_append_issue {A} (g : A -> CodeIssue.t) (l : list A) (s : engine) :
  fold_left (fun s x => append_issue (g x) s) l s
  = mk_engine (issues s ++ map g l) (function_metrics s) (class_metrics s).
Proof.
  revert s. induction l as [|x l IH]; intros s; simpl.
  - destruct s. simpl. now rewrite app_nil_r.
  - rewrite IH. simpl. now rewrite <- app_assoc.
Qed.

Section HandlersAppend.
Variable lines : list string.
Variable file_path : string.

Lemma appending_naming (node : ast) :
  appending
    (BusinessLogicVisitor._check_function_naming_consistency
       lines file_path node).
Proof.
  unfold BusinessLogicVisitor._check_function_naming_consistency.
  apply (appending_fold
           (fun issue => append_issue
              (BusinessLogicVisitor.naming_issue lines file_path node issue))).
  auto with appending.
Qed.

Lemma appending_responsibility (node : ast) :
  appending
    (BusinessLogicVisitor._analyze_function_responsibility
       lines file_path node).
Proof.
  intros s.
  unfold BusinessLogicVisitor._analyze_function_responsibility. cbv zeta.
  destruct (10 <? _)%nat, (5 <? _)%nat;
    unfold append_issue, append_function_metrics, engine_app; simpl;
    rewrite ?app_nil_r, <- ?app_assoc; reflexivity.
Qed.

Lemma appending_error_handling (node : ast) :
  appending
    (BusinessLogicVisitor._check_error_handling_consistency
       lines file_path node).
Proof.
  intros s.
  unfold BusinessLogicVisitor._check_error_handling_consistency. cbv zeta.
  destruct (filter BusinessLogicVisitor.is_bare_except (walk node)) as [|b l].
  - now rewrite engine_app_init_r.
  - rewrite !fold_append_issue. unfold engine_app. simpl.
    now rewrite !app_nil_r.
Qed.

Lemma appending_business (node : ast) :
  appending (BusinessLogicVisitor.handler lines file_path node).
Proof.
  unfold BusinessLogicVisitor.handler.
  destruct node; try apply appending_id.
  unfold BusinessLogicVisitor.visit_FunctionDef_own.
  apply appending_comp; [apply appending_comp|].
  - apply appending_naming.
  - apply appending_responsibility.
  - apply appending_error_handling.
Qed.

(** Case analysis on every test a handler makes, then list algebra. *)
Ltac appending_cases :=
  let s := fresh "s" in
  intros s; destruct s;
  repeat match goal with
         | |- context [match ?x with _ => _ end] => destruct x
         end;
  unfold append_issue, append_function_metrics, append_class_metrics,
    engine_app;
  cbn [issues function_metrics class_metrics engine_init];
  rewrite ?app_nil_r, <- ?app_assoc; reflexivity.

Lemma appending_performance (node : ast) :
  appending (PerformanceVisitor.handler lines file_path node).
Proof.
  destruct node; try apply appending_id.
  cbv beta iota delta
    [PerformanceVisitor.handler PerformanceVisitor.visit_For_own].
  appending_cases.
Qed.

Lemma appending_security (str_targets : list ast -> string) (node : ast) :
  appending (SecurityVisitor.handler lines file_path str_targets node).
Proof.
  destruct node; try apply appending_id;
    cbv beta iota delta
      [SecurityVisitor.handler SecurityVisitor.visit_Assign_own
       SecurityVisitor.visit_Call_own];
    appending_cases.
Qed.

Lemma appending_architecture (dump : ast -> string) (node : ast) :
  appending (ArchitectureVisitor.handler lines file_path dump node).
Proof.
  destruct node; try apply appending_id.
  cbv beta iota zeta delta
    [ArchitectureVisitor.handler ArchitectureVisitor.visit_ClassDef_own].
  appending_cases.
Qed.

End HandlersAppend.

(* ====================================================================== *)
(** * Cyclomatic complexity *)
(* ====================================================================== *)

Module Complexity.

Import ComplexitySpec.






(** One [if], one [and], one [for] and one handler clause: 1 + 4. *)
Example branching_function_complexity :
  BusinessLogicVisitor._calculate_cyclomatic_complexity branching_function
  = 5%nat.
Proof. vm_compute. reflexivity. Qed.


End Complexity.

(* ====================================================================== *)
(** * What the business-logic pass records *)
(* ====================================================================== *)

Module Business.

Import BusinessSpec.

Section Emit.
Variable lines : list string.
Variable file_path : string.

Lemma metrics_naming (node : ast) (s : engine) :
  function_metrics
    (BusinessLogicVisitor._check_function_naming_consistency
       lines file_path node s)
  = function_metrics s.
Proof.
  unfold BusinessLogicVisitor._check_function_naming_consistency. cbv zeta.
  now rewrite fold_append_issue.
Qed.

Lemma metrics_responsibility (node : ast) (s : engine) :
  function_metrics
    (BusinessLogicVisitor._analyze_function_responsibility
       lines file_path node s)
  = function_metrics s ++ [function_record node].
Proof.
  unfold BusinessLogicVisitor._analyze_function_responsibility. cbv zeta.
  destruct (10 <? _)%nat, (5 <? _)%nat; reflexivity.
Qed.

Lemma metrics_error_handling (node : ast) (s : engine) :
  function_metrics
    (BusinessLogicVisitor._check_error_handling_consistency
       lines file_path node s)
  = function_metrics s.
Proof.
  unfold BusinessLogicVisitor._check_error_handling_consistency. cbv zeta.
  destruct (filter _ _); [reflexivity|]. now rewrite fold_append_issue.
Qed.

(** Only a (synchronous) [FunctionDef] node makes the visitor store a
    record. *)
Lemma metrics_handler (node : ast) :
  function_metrics
    (BusinessLogicVisitor.handler lines file_path node engine_init)
  = if is_FunctionDef node then [function_record node] else [].
Proof.
  destruct node; try reflexivity.
  cbv beta iota delta
    [BusinessLogicVisitor.handler BusinessLogicVisitor.visit_FunctionDef_own
     is_FunctionDef].
  cbv zeta.
  rewrite metrics_error_handling, metrics_responsibility, metrics_naming.
  reflexivity.
Qed.

Lemma flat_map_if {A B} (p : A -> bool) (g : A -> B) (l : list A) :
  flat_map (fun x => if p x then [g x] else []) l = map g (filter p l).
Proof.
  induction l as [|x l IH]; simpl; [reflexivity|].
  destruct (p x); simpl; now rewrite IH.
Qed.

Lemma flat_map_nil {A B} (g : A -> list B) (l : list A) :
  (forall x, g x = []) -> flat_map g l = [].
Proof.
  intros H. induction l as [|x l IH]; simpl; [reflexivity|].
  now rewrite H, IH.
Qed.

(** The business-logic pass stores one record per [FunctionDef] node of
    the tree, in depth-first order. *)
Lemma metrics_business (tree : ast) (s : engine) :
  function_metrics (_analyze_business_logic tree lines file_path s)
  = function_metrics s
    ++ map function_record (filter is_FunctionDef (preorder tree)).
Proof.
  unfold _analyze_business_logic.
  rewrite function_metrics_visit by apply appending_business.
  f_equal. rewrite <- flat_map_if.
  apply flat_map_ext. intros c. apply metrics_handler.
Qed.

(** The other three passes store no function record. *)
Lemma metrics_performance (tree : ast) (s : engine) :
  function_metrics (_analyze_performance_patterns tree lines file_path s)
  = function_metrics s.
Proof.
  unfold _analyze_performance_patterns.
  rewrite function_metrics_visit by apply appending_performance.
  rewrite flat_map_nil; [apply app_nil_r|].
  intros c. destruct c; try reflexivity.
  cbv beta iota delta
    [PerformanceVisitor.handler PerformanceVisitor.visit_For_own].
  repeat match goal with
         | |- context [match ?x with _ => _ end] => destruct x
         end; reflexivity.
Qed.

Lemma metrics_security (str_targets : list ast -> string)
  (tree : ast) (s : engine) :
  function_metrics (_analyze_security_risks str_targets tree lines file_path s)
  = function_metrics s.
Proof.
  unfold _analyze_security_risks.
  rewrite function_metrics_visit by apply appending_security.
  rewrite flat_map_nil; [apply app_nil_r|].
  intros c. destruct c; try reflexivity;
  cbv beta iota delta
    [SecurityVisitor.handler SecurityVisitor.visit_Assign_own
     SecurityVisitor.visit_Call_own];
  repeat match goal with
         | |- context [match ?x with _ => _ end] => destruct x
         end; reflexivity.
Qed.

Lemma metrics_architecture (dump : ast -> string) (tree : ast) (s : engine) :
  function_metrics (_analyze_architecture_decisions dump tree lines file_path s)
  = function_metrics s.
Proof.
  unfold _analyze_architecture_decisions.
  rewrite function_metrics_visit by apply appending_architecture.
  rewrite flat_map_nil; [apply app_nil_r|].
  intros c. destruct c; try reflexivity.
  cbv beta iota zeta delta
    [ArchitectureVisitor.handler ArchitectureVisitor.visit_ClassDef_own].
  destruct (_ <? _)%nat; reflexivity.
Qed.

Lemma metrics_run (str_targets : list ast -> string) (dump : ast -> string)
  (tree : ast) (s : engine) :
  function_metrics (run_analyzers str_targets dump tree lines file_path s)
  = function_metrics s
    ++ map function_record (filter is_FunctionDef (preorder tree)).
Proof.
  unfold run_analyzers. cbv zeta.
  rewrite metrics_architecture, metrics_security, metrics_performance.
  apply metrics_business.
Qed.

End Emit.

Lemma function_record_sync (l : list ast) :
  Forall (fun m => FunctionMetrics.async_function m = false)
         (map function_record (filter is_FunctionDef l)).
Proof.
  apply Forall_forall. intros m Hm.
  apply in_map_iff in Hm. destruct Hm as (n & <- & Hn).
  apply filter_In in Hn. destruct Hn as [_ Hn].
  destruct n; simpl in Hn; try discriminate. reflexivity.
Qed.

End Business.

(* ====================================================================== *)
(** * Async function definitions *)
(* ====================================================================== *)

Module Async.

Lemma dict_get_function_metrics (file_path : string) (s : engine) :
  dict_get "function_metrics" (analysis_result file_path s)
  = Some (PList (map asdict_function (function_metrics s))).
Proof. reflexivity. Qed.

(** C10. The business-logic visitor has no method for async function
    definitions: at such a node it checks nothing and stores nothing, the
    records of a file analysis are exactly those of the (synchronous)
    [FunctionDef] nodes of the tree, and every record of every analysis
    result has its async flag equal to [False]. *)
Theorem async_functions_not_recorded
  (path_exists : string -> bool) (read_text : string -> read_result)
  (parse : string -> parse_result)
  (str_targets : list ast -> string) (dump : ast -> string) :
  (forall lines file_path name a body decos ret l e s,
      BusinessLogicVisitor.handler lines file_path
        (AsyncFunctionDef name a body decos ret l e) s = s)
  /\ (forall tree lines file_path,
         function_metrics
           (run_analyzers str_targets dump tree lines file_path engine_init)
         = map BusinessSpec.function_record
               (filter is_FunctionDef (preorder tree)))
  /\ (forall self file_path ms,
         dict_get "function_metrics"
           (fst (analyze_file path_exists read_text parse str_targets dump
                   self file_path))
         = Some (PList ms) ->
         Forall (fun m => exists d, m = PDict d
                   /\ dict_get "async_function" d = Some (PBool false)) ms).
Proof.
  split; [reflexivity|]. split.
  - intros tree lines file_path. now rewrite Business.metrics_run.
  - intros self file_path ms. unfold analyze_file.
    destruct (path_exists file_path); simpl; [|discriminate].
    destruct (read_text file_path) as [source|msg]; simpl; [|discriminate].
    destruct (parse source) as [tree|msg lineno|msg]; simpl;
      try discriminate.
    intros H. injection H as <-.
    rewrite Business.metrics_run. simpl.
    apply Forall_map.
    eapply Forall_impl; [|apply Business.function_record_sync].
    intros m Hm. eexists. split; [reflexivity|].
    simpl. now rewrite Hm.
Qed.

(** The analysis of [Sample.async_source] records [g] alone, as
    synchronous. *)
Lemma async_functions_not_recorded_witness :
  Forall (fun m => exists d, m = PDict d
            /\ dict_get "async_function" d = Some (PBool false))
         [asdict_function (BusinessSpec.function_record Sample.g_def)].
Proof.
  apply (proj2 (proj2 (async_functions_not_recorded
                         Sample.always_exists
                         (fun _ => ReadOk Sample.async_source)
                         (fun _ => ParseOk Sample.async_tree)
                         Sample.no_text Sample.no_dump))
           engine_init "fetch.py").
  vm_compute. reflexivity.
Defined.

End Async.

(* ====================================================================== *)
(** * Bare exception handlers *)
(* ====================================================================== *)

Module BareExcept.

Import BusinessLogicVisitor.
Import BareExceptSpec.

Lemma bare_handlers_at_eq (n : ast) (d : nat) :
  bare_handlers_at n d
  = own_bare d n
    ++ flat_map (fun c => bare_handlers_at c (below n d)) (iter_child_nodes n).
Proof.
  unfold bare_handlers_at at 1. rewrite ast_fold_eq.
  fold bare_handlers_at. now rewrite flat_map_map.
Qed.

Section Counting.
Variable line : Z.

Lemma handlers_in_eq (n : ast) :
  handlers_in line n
  = (Nat.b2n (is_bare_at line n)
     + list_sum (map (handlers_in line) (iter_child_nodes n)))%nat.
Proof.
  unfold handlers_in at 1. rewrite preorder_eq.
  change (n :: ?l) with ([n] ++ l). rewrite count_if_app, count_if_flat_map.
  f_equal. unfold count_if. simpl. now destruct (is_bare_at line n).
Qed.

Lemma reports_in_eq (n : ast) :
  reports_in line n
  = ((if is_FunctionDef n then handlers_in line n else O)
     + list_sum (map (reports_in line) (iter_child_nodes n)))%nat.
Proof.
  unfold reports_in at 1. rewrite preorder_eq. simpl.
  now rewrite sum_flat_map.
Qed.

Lemma depth_sum_eq (n : ast) (d : nat) :
  depth_sum line n d
  = ((if is_bare_at line n then d else O)
     + list_sum (map (fun c => depth_sum line c (below n d))
                     (iter_child_nodes n)))%nat.
Proof.
  unfold depth_sum at 1. rewrite bare_handlers_at_eq.
  rewrite map_app, list_sum_app, sum_flat_map. f_equal.
  unfold own_bare, is_bare_at, depth_at.
  destruct (is_bare_except n); simpl; [|reflexivity].
  destruct (node_lineno n =? line)%Z; simpl; lia.
Qed.

(** A handler under [d] outer definitions is counted [d] times plus once
    per definition of the subtree that contains it. *)
Lemma depth_sum_reports (n : ast) :
  forall d,
    depth_sum line n d = (d * handlers_in line n + reports_in line n)%nat.
Proof.
  induction n as [n IH] using ast_children_ind. intros d.
  rewrite depth_sum_eq, (handlers_in_eq n), (reports_in_eq n).
  rewrite (handlers_in_eq n).
  assert (Hsum : forall d',
    list_sum (map (fun c => depth_sum line c d') (iter_child_nodes n))
    = (d' * list_sum (map (handlers_in line) (iter_child_nodes n))
       + list_sum (map (reports_in line) (iter_child_nodes n)))%nat).
  { intros d'. induction IH as [|c cs Hc _ IHcs]; simpl; [lia|].
    rewrite Hc, IHcs. lia. }
  rewrite Hsum. unfold below.
  destruct (is_FunctionDef n) eqn:Hf.
  - assert (Hb : is_bare_at line n = false)
      by (destruct n; try discriminate; reflexivity).
    rewrite Hb. simpl. lia.
  - destruct (is_bare_at line n); simpl; lia.
Qed.

End Counting.

Section Pass.
Variable lines : list string.
Variable file_path : string.
Variable line : Z.

Lemma bare_issues_app (l1 l2 : list CodeIssue.t) :
  bare_issues line (l1 ++ l2) = (bare_issues line l1 + bare_issues line l2)%nat.
Proof. apply count_if_app. Qed.

Lemma bare_issues_map_handlers (l : list ast) :
  bare_issues line (map (bare_except_issue lines file_path) l)
  = count_if (fun h => (node_lineno h =? line)%Z) l.
Proof.
  unfold bare_issues. rewrite count_if_map.
  unfold count_if. f_equal.
Qed.

Lemma count_bare_filter (l : list ast) :
  count_if (fun h => (node_lineno h =? line)%Z) (filter is_bare_except l)
  = count_if (is_bare_at line) l.
Proof. now rewrite count_if_filter. Qed.

(** The findings of the visitor at one node, counted. *)
Lemma bare_issues_handler (node : ast) :
  bare_issues line (issues (handler lines file_path node engine_init))
  = if is_FunctionDef node then handlers_in line node else O.
Proof.
  destruct node; try reflexivity.
  cbv beta iota delta [handler visit_FunctionDef_own is_FunctionDef].
  cbv zeta.
  set (node := FunctionDef _ _ _ _ _ _ _).
  rewrite (appending_error_handling lines file_path node),
          (appending_responsibility lines file_path node).
  cbn [issues engine_app]. rewrite !bare_issues_app.
  assert (H1 : bare_issues line
                 (issues (_check_function_naming_consistency
                            lines file_path node engine_init)) = O).
  { unfold _check_function_naming_consistency. cbv zeta.
    rewrite fold_append_issue. cbn [issues engine_init app].
    unfold bare_issues. rewrite count_if_map.
    unfold count_if. induction (_ ++ _); simpl; auto. }
  assert (H2 : bare_issues line
                 (issues (_analyze_function_responsibility
                            lines file_path node engine_init)) = O).
  { unfold _analyze_function_responsibility. cbv zeta.
    destruct (10 <? _)%nat, (5 <? _)%nat; reflexivity. }
  rewrite H1, H2. simpl.
  unfold _check_error_handling_consistency. cbv zeta.
  unfold handlers_in.
  rewrite <- (count_if_perm _ _ _ (walk_perm node)).
  rewrite <- count_bare_filter, <- bare_issues_map_handlers.
  destruct (filter is_bare_except (walk node)) as [|b l]; [reflexivity|].
  rewrite fold_append_issue. reflexivity.
Qed.

(** The business-logic pass reports a bare handler once for every function
    definition that encloses it. *)
Lemma bare_issues_business (tree : ast) (s : engine) :
  bare_issues line (issues (_analyze_business_logic tree lines file_path s))
  = (bare_issues line (issues s)
     + list_sum (map (depth_at line) (bare_handlers tree)))%nat.
Proof.
  unfold _analyze_business_logic.
  rewrite issues_visit by apply appending_business.
  rewrite bare_issues_app. unfold bare_issues at 2.
  rewrite count_if_flat_map. f_equal.
  change (list_sum (map (depth_at line) (bare_handlers tree)))
    with (depth_sum line tree 0).
  rewrite depth_sum_reports. simpl.
  unfold reports_in. f_equal. apply map_ext. intros c.
  apply bare_issues_handler.
Qed.

(** No other pass emits a warning of category logic. *)
Lemma bare_issues_other (h : ast -> engine -> engine) (tree : ast)
  (s : engine) :
  (forall n, appending (h n)) ->
  (forall n, Forall (fun i => CodeIssue.category i <> logic)
                    (issues (h n engine_init))) ->
  bare_issues line (issues (visit h tree s)) = bare_issues line (issues s).
Proof.
  intros Ha Hc. rewrite issues_visit by assumption.
  rewrite bare_issues_app.
  assert (Hz : bare_issues line
                 (flat_map (fun c => issues (h c engine_init))
                           (preorder tree)) = O).
  { induction (preorder tree) as [|c l IH]; [reflexivity|].
    simpl. rewrite bare_issues_app, IH.
    specialize (Hc c). unfold bare_issues, count_if.
    induction Hc as [|i l' Hi _ IH']; [reflexivity|].
    simpl. unfold is_bare_issue_at at 1.
    destruct (CodeIssue.category i); try congruence;
      rewrite ?andb_false_r; simpl; exact IH'. }
  rewrite Hz. lia.
Qed.

End Pass.


Section Passes.
Variable str_targets : list ast -> string.
Variable dump : ast -> string.
Variable lines : list string.
Variable file_path : string.

Lemma performance_not_logic (n : ast) :
  Forall (fun i => CodeIssue.category i <> logic)
         (issues (PerformanceVisitor.handler lines file_path n engine_init)).
Proof.
  destruct n; try constructor.
  cbv beta iota delta
    [PerformanceVisitor.handler PerformanceVisitor.visit_For_own].
  repeat match goal with
         | |- context [match ?x with _ => _ end] => destruct x
         end; repeat constructor; discriminate.
Qed.

Lemma security_not_logic (n : ast) :
  Forall (fun i => CodeIssue.category i <> logic)
         (issues (SecurityVisitor.handler lines file_path str_targets n
                    engine_init)).
Proof.
  destruct n; try constructor;
  cbv beta iota delta
    [SecurityVisitor.handler SecurityVisitor.visit_Assign_own
     SecurityVisitor.visit_Call_own];
  repeat match goal with
         | |- context [match ?x with _ => _ end] => destruct x
         end; repeat constructor; discriminate.
Qed.

Lemma architecture_not_logic (n : ast) :
  Forall (fun i => CodeIssue.category i <> logic)
         (issues (ArchitectureVisitor.handler lines file_path dump n
                    engine_init)).
Proof.
  destruct n; try constructor.
  cbv beta iota zeta delta
    [ArchitectureVisitor.handler ArchitectureVisitor.visit_ClassDef_own].
  destruct (_ <? _)%nat; repeat constructor; discriminate.
Qed.

(** Over a whole file analysis, the bare-except warnings attributed to a
    line are as many as the function definitions around the bare handlers
    of that line. *)
Lemma bare_except_reported_per_definition (tree : ast) (line : Z) :
  count_if (is_bare_issue_at line)
    (issues (run_analyzers str_targets dump tree lines file_path engine_init))
  = list_sum (map (depth_at line) (bare_handlers tree)).
Proof.
  unfold run_analyzers. cbv zeta.
  unfold _analyze_architecture_decisions, _analyze_security_risks,
    _analyze_performance_patterns.
  pose proof (bare_issues_other line) as H. unfold bare_issues in H.
  rewrite H by (auto using appending_architecture, architecture_not_logic).
  rewrite H by (auto using appending_security, security_not_logic).
  rewrite H by (auto using appending_performance, performance_not_logic).
  pose proof (bare_issues_business lines file_path line tree engine_init)
    as Hb.
  unfold bare_issues in Hb. rewrite Hb. reflexivity.
Qed.

(** C4, as amended. In a file where no bare handler is enclosed by more than
    one function definition, the bare-except warnings (warning, logic,
    confidence 0.9) attributed to a line are exactly as many as the bare
    handlers of that line that lie inside a function definition: one issue
    for each of them, none for a handler outside every function
    definition. *)
Theorem bare_except_reported_once (tree : ast) (line : Z) :
  Forall (fun e => (snd e <= 1)%nat) (bare_handlers tree) ->
  count_if (is_bare_issue_at line)
    (issues (run_analyzers str_targets dump tree lines file_path engine_init))
  = count_if (once_at line) (bare_handlers tree).
Proof.
  intros H. rewrite bare_except_reported_per_definition.
  rewrite count_if_sum.
  induction H as [|[l d] es Hd _ IH]; simpl; [reflexivity|].
  rewrite IH. f_equal. unfold depth_at, once_at. simpl in *.
  destruct (l =? line)%Z; simpl; [|reflexivity].
  destruct d as [|[|d]]; simpl; try reflexivity. lia.
Qed.

End Passes.

(** A bare handler inside one function definition is reported once. *)
Lemma bare_except_reported_once_witness :
  count_if (is_bare_issue_at 4)
    (issues (run_analyzers Sample.no_text Sample.no_dump guarded_def
               guarded_lines "load.py" engine_init))
  = 1%nat.
Proof.
  rewrite (bare_except_reported_once Sample.no_text Sample.no_dump
             guarded_lines "load.py" guarded_def 4).
  - reflexivity.
  - vm_compute. repeat constructor.
Defined.

(** C4 as stated fails: a bare handler at module level, outside any
    function, is one occurrence and gives rise to no issue at all. *)
Lemma bare_except_outside_function_unreported :
  count_if (is_bare_at 3) (preorder module_level_try) = 1%nat
  /\ issues (run_analyzers Sample.no_text Sample.no_dump module_level_try
               four_lines "m.py" engine_init) = [].
Proof. split; vm_compute; reflexivity. Qed.

(** A bare handler inside a function nested in another one is reported
    twice: once by the walk of each enclosing definition. *)
Lemma bare_except_nested_reported_twice :
  count_if (is_bare_at 5) (preorder nested_def) = 1%nat
  /\ count_if (is_bare_issue_at 5)
       (issues (run_analyzers Sample.no_text Sample.no_dump nested_def
                  nested_lines "n.py" engine_init)) = 2%nat.
Proof. split; vm_compute; reflexivity. Qed.

End BareExcept.

(* ====================================================================== *)
(** * Substring search *)
(* ====================================================================== *)

Module Substring.

Import SubstringSpec.

Lemma append_empty_r (s : string) : (s ++ "")%string = s.
Proof. induction s as [|c s IH]; simpl; [reflexivity | now rewrite IH]. Qed.

Lemma prefix_spec (p s : string) :
  String.prefix p s = true <-> exists post, s = (p ++ post)%string.
Proof.
  revert s. induction p as [|a p IH]; intros s.
  - split; [intros _; now exists s | now destruct s].
  - destruct s as [|b s]; simpl.
    + split; [discriminate | intros [post H]; discriminate].
    + destruct (ascii_dec a b) as [->|Hab].
      * rewrite IH. split; intros [post H]; exists post.
        -- now rewrite H.
        -- now injection H.
      * split; [discriminate|]. intros [post H]. injection H as H1 H2.
        congruence.
Qed.

(** [PyStr.contains] decides [occurs_in]. *)
Lemma contains_spec (sub s : string) :
  PyStr.contains sub s = true <-> occurs_in sub s.
Proof.
  unfold occurs_in. induction s as [|c r IH]; cbn [PyStr.contains].
  - destruct (String.prefix sub "") eqn:Hp.
    + split; [intros _|reflexivity].
      apply prefix_spec in Hp. destruct Hp as [post Hp].
      now exists "", post.
    + split; [discriminate|]. intros (pre & post & H).
      destruct pre; [|discriminate]. simpl in H.
      assert (Hq : String.prefix sub "" = true)
        by (apply prefix_spec; now exists post).
      congruence.
  - destruct (String.prefix sub (String c r)) eqn:Hp.
    + split; [intros _|reflexivity].
      apply prefix_spec in Hp. destruct Hp as [post Hp].
      now exists "", post.
    + rewrite IH. split.
      * intros (pre & post & H). exists (String c pre), post.
        simpl. now rewrite H.
      * intros (pre & post & H). destruct pre as [|c' pre].
        -- simpl in H.
           assert (Hq : String.prefix sub (String c r) = true)
             by (apply prefix_spec; now exists post).
           congruence.
        -- simpl in H. injection H as _ H. now exists pre, post.
Qed.

End Substring.

(* ====================================================================== *)
(** * Hard-coded secrets *)
(* ====================================================================== *)

Module Secrets.

Import SecurityVisitor.
Import SecretsSpec.

Section Claim.
Variable lines : list string.
Variable file_path : string.
Variable str_targets : list ast -> string.

Lemma targets_mention_secret_spec (targets : list ast) :
  targets_mention_secret str_targets targets = true
  <-> names_a_secret str_targets targets.
Proof.
  unfold targets_mention_secret, names_a_secret, keywords.
  rewrite existsb_exists.
  split; intros (k & Hk & H); exists k; (split; [exact Hk|]);
    now apply Substring.contains_spec.
Qed.

Lemma is_secret_assignment_spec (targets : list ast) (value : ast)
  (lineno : Z) :
  is_secret_assignment str_targets (Assign targets value lineno) = true
  <-> long_string_constant value /\ names_a_secret str_targets targets.
Proof.
  unfold long_string_constant. rewrite <- targets_mention_secret_spec.
  split.
  - destruct value; simpl; try discriminate.
    destruct value; simpl; try discriminate.
    intros H. apply andb_true_iff in H. destruct H as [Hl Hm].
    apply Nat.ltb_lt in Hl. split; [now exists s | exact Hm].
  - intros [(v & -> & Hl) Hm]. simpl.
    apply andb_true_iff. split; [now apply Nat.ltb_lt | exact Hm].
Qed.

Lemma secret_issues_handler (n : ast) :
  count_if is_secret_issue
    (issues (handler lines file_path str_targets n engine_init))
  = Nat.b2n (is_secret_assignment str_targets n).
Proof.
  destruct n; try reflexivity.
  - cbv beta iota delta [handler visit_Assign_own is_secret_assignment].
    destruct n; try reflexivity. destruct value; try reflexivity.
    destruct (_ && _); reflexivity.
  - cbv beta iota delta [handler visit_Call_own is_secret_assignment].
    destruct n; try reflexivity.
    destruct (String.eqb id "eval"); [reflexivity|].
    destruct (String.eqb id "exec"); reflexivity.
Qed.

(** Whatever text the interpreter gives for the targets: at an assignment
    statement whose value is a string constant longer than 8 characters and
    whose targets' text contains one of [password], [secret], [key], [token]
    (case ignored), [visit_Assign] appends one issue: critical, security,
    confidence 0.8, attributed to the assignment's line. At an assignment
    that fails either condition it appends nothing. Over a tree, the
    security pass emits exactly one such issue per qualifying assignment. *)
Theorem hardcoded_secret_flagged
  (targets : list ast) (value : ast) (lineno : Z) (s : engine) :
  let node := Assign targets value lineno in
  (long_string_constant value /\ names_a_secret str_targets targets ->
   visit_Assign_own lines file_path str_targets node s
   = append_issue (hardcoded_secret_issue lines file_path node) s
   /\ CodeIssue.severity (hardcoded_secret_issue lines file_path node)
      = critical
   /\ CodeIssue.category (hardcoded_secret_issue lines file_path node)
      = security
   /\ CodeIssue.confidence (hardcoded_secret_issue lines file_path node)
      = 8 # 10
   /\ CodeIssue.line_number (hardcoded_secret_issue lines file_path node)
      = lineno)
  /\ (~ (long_string_constant value /\ names_a_secret str_targets targets) ->
      visit_Assign_own lines file_path str_targets node s = s)
  /\ (forall tree,
         count_if is_secret_issue
           (issues (_analyze_security_risks str_targets tree lines file_path
                      engine_init))
         = count_if (is_secret_assignment str_targets) (preorder tree)).
Proof.
  intros node. split; [|split].
  - intros H. apply (is_secret_assignment_spec targets value lineno) in H.
    repeat split. unfold node in *. simpl in H.
    destruct value; try discriminate. destruct value; try discriminate.
    simpl. now rewrite H.
  - intros H.
    destruct (is_secret_assignment str_targets node) eqn:Hq.
    + exfalso. apply H. now apply (is_secret_assignment_spec _ _ lineno).
    + unfold node in *. simpl in Hq |- *.
      destruct value; try reflexivity. destruct value; try reflexivity.
      now rewrite Hq.
  - intros tree. unfold _analyze_security_risks.
    rewrite issues_visit by apply appending_security. simpl.
    rewrite count_if_flat_map, count_if_sum.
    f_equal. apply map_ext. apply secret_issues_handler.
Qed.

End Claim.

(** With a text that shows the identifier, the assignment is flagged. *)
Example spelled_out_name_flagged :
  visit_Assign_own [] "conf.py" str_spelled_out
    (Assign api_key_targets api_key_value 7) engine_init
  = append_issue
      (hardcoded_secret_issue [] "conf.py"
         (Assign api_key_targets api_key_value 7)) engine_init.
Proof.
  apply (proj1 (hardcoded_secret_flagged [] "conf.py" str_spelled_out
                  api_key_targets api_key_value 7 engine_init)).
  split.
  - exists "sk-live-0123456789". split; [reflexivity|]. simpl. lia.
  - apply targets_mention_secret_spec. vm_compute. reflexivity.
Qed.

(** The length is counted in characters: a value of 8 Cyrillic letters and
    digits (14 bytes) is not longer than 8. *)
Example eight_characters_not_flagged :
  visit_Assign_own [] "conf.py" str_spelled_out
    (Assign api_key_targets (Constant (CStr "пароль12")) 7) engine_init
  = engine_init.
Proof. vm_compute. reflexivity. Qed.

(** With the default object text, the same assignment is not flagged: the
    text never shows the identifier. *)
Example default_text_hides_the_name :
  visit_Assign_own [] "conf.py" str_object_default
    (Assign api_key_targets api_key_value 7) engine_init
  = engine_init.
Proof. vm_compute. reflexivity. Qed.

End Secrets.

(* ====================================================================== *)
(** * Nested loops *)
(* ====================================================================== *)

Module NestedLoops.

Import PerformanceVisitor.
Import NestedLoopsSpec.

Lemma nested_loops_nonempty (node n : ast) :
  In n (flat_map preorder (iter_child_nodes node)) -> is_loop n = true ->
  nested_loops node <> [].
Proof.
  intros Hin Hl Hnil.
  assert (H : In n (nested_loops node)).
  { unfold nested_loops. apply filter_In. split; [|exact Hl].
    eapply Permutation_in; [|exact Hin].
    apply Permutation_sym, walk_below_perm. }
  rewrite Hnil in H. exact H.
Qed.

(** A [for] loop whose body contains another loop is flagged: [visit_For]
    appends the nested-loop warning (warning, performance, confidence 0.8)
    at the line of the outer loop. *)
Lemma for_loop_flagged
  (lines : list string) (file_path : string)
  (target iter : ast) (body orelse : list ast) (lineno : Z) (s : engine) :
  let node := For target iter body orelse lineno in
  loop_inside body ->
  exists rest,
    issues (visit_For_own lines file_path node s)
    = issues s ++ nested_loop_issue lines file_path node :: rest
    /\ CodeIssue.severity (nested_loop_issue lines file_path node) = warning
    /\ CodeIssue.category (nested_loop_issue lines file_path node)
       = performance
    /\ CodeIssue.confidence (nested_loop_issue lines file_path node) = 8 # 10
    /\ CodeIssue.line_number (nested_loop_issue lines file_path node)
       = lineno.
Proof.
  intros node (stmt & n & Hs & Hn & Hl).
  assert (Hne : nested_loops node <> []).
  { apply (nested_loops_nonempty node n); [|exact Hl].
    apply in_flat_map. exists stmt. split; [|exact Hn].
    simpl. right. right. apply in_or_app. now left. }
  unfold visit_For_own.
  destruct (nested_loops node) as [|x xs]; [congruence|].
  destruct (_find_string_concatenations node).
  - exists []. repeat split.
  - exists [concat_issue lines file_path node]. repeat split.
    simpl. now rewrite <- app_assoc.
Qed.

(** C7 on the failing input. The body of the [while] loop contains a [for]
    loop, and the performance pass emits nothing: the visitor has no
    [visit_While], so an outer [while] loop is never examined. *)
Theorem while_over_for_not_flagged :
  loop_inside [inner_for]
  /\ issues (_analyze_performance_patterns while_over_for while_lines
               "poll.py" engine_init) = [].
Proof.
  split.
  - exists inner_for, inner_for. repeat split.
    + now left.
    + rewrite preorder_eq. now left.
  - vm_compute. reflexivity.
Qed.

(** The mirrored nesting is flagged: [visit_For] counts a [while] among the
    nested loops. *)
Example for_over_while_flagged :
  map CodeIssue.line_number
      (issues (_analyze_performance_patterns for_over_while for_lines
                 "poll.py" engine_init)) = [1%Z].
Proof. vm_compute. reflexivity. Qed.

End NestedLoops.

(* ====================================================================== *)
(** * Repeated analysis *)
(* ====================================================================== *)

Module Determinism.

Section Runs.
Variable path_exists : string -> bool.
Variable read_text : string -> read_result.
Variable parse : string -> parse_result.
Variable str_targets : list ast -> string.
Variable dump : ast -> string.

(** The value returned does not depend on what the engine held before. *)
Lemma result_ignores_engine (self self' : engine) (file_path : string) :
  fst (analyze_file path_exists read_text parse str_targets dump
         self file_path)
  = fst (analyze_file path_exists read_text parse str_targets dump
           self' file_path).
Proof.
  unfold analyze_file.
  destruct (path_exists file_path); simpl; [|reflexivity].
  destruct (read_text file_path) as [source|msg]; [|reflexivity].
  destruct (parse source); reflexivity.
Qed.

(** C8. Two runs of [analyze_file] in sequence on the same file, the second
    on the engine as the first left it, return identical values, whatever
    the engine held before the first run; more generally the value returned
    never depends on the state of the engine. *)
Theorem analyze_file_twice (self : engine) (file_path : string) :
  let first :=
    analyze_file path_exists read_text parse str_targets dump
      self file_path in
  let second :=
    analyze_file path_exists read_text parse str_targets dump
      (snd first) file_path in
  fst second = fst first
  /\ (forall other : engine,
         fst (analyze_file path_exists read_text parse str_targets dump
                other file_path)
         = fst first).
Proof.
  split; [|intros other]; apply result_ignores_engine.
Qed.

(** After a successful run the engine holds the findings of that run and
    nothing else. *)
Lemma engine_after_success
  (self : engine) (file_path source : string) (tree : ast) :
  path_exists file_path = true ->
  read_text file_path = ReadOk source ->
  parse source = ParseOk tree ->
  snd (analyze_file path_exists read_text parse str_targets dump
         self file_path)
  = run_analyzers str_targets dump tree (PyStr.split_lines source) file_path
      engine_init.
Proof.
  intros He Hr Hp. unfold analyze_file. now rewrite He, Hr, Hp.
Qed.

End Runs.

End Determinism.

(* ====================================================================== *)
(** * A path that does not exist *)
(* ====================================================================== *)

Module NotFound.

Section Tool.
Variable path_exists : string -> bool.
Variable read_text : string -> read_result.
Variable parse : string -> parse_result.
Variable str_targets : list ast -> string.
Variable dump : ast -> string.

(** When the resolved path does not exist, it is the path as queried. *)
Lemma resolve_path_missing (file_path : string) :
  path_exists (resolve_path path_exists file_path) = false ->
  resolve_path path_exists file_path = file_path.
Proof.
  unfold resolve_path. destruct (negb (isabs file_path)); [|reflexivity].
  destruct (path_exists (path_join project_path file_path)) eqn:E;
    [congruence | reflexivity].
Qed.

(** C5, as amended. For a path that does not exist (after the retry against
    the project root), the analysis returns a value and does not raise: a
    dictionary whose only entry is [error], the message holding the path
    exactly as queried; the engine is left as it was. The dictionary has no
    entry for the working directory, for a suggestion or for sibling
    files. *)
Theorem analyze_missing_file (analyzer : engine) (file_path : string) :
  path_exists (resolve_path path_exists file_path) = false ->
  analyze_code_intelligence path_exists read_text parse str_targets dump
    analyzer file_path
  = ([("error", PStr ("文件不存在: " ++ file_path))], analyzer)
  /\ SubstringSpec.occurs_in file_path ("文件不存在: " ++ file_path)
  /\ analyze_file path_exists read_text parse str_targets dump
       analyzer (resolve_path path_exists file_path)
     = ([("error", PStr ("文件不存在: " ++ file_path))], analyzer).
Proof.
  intros H. pose proof (resolve_path_missing file_path H) as E.
  assert (A : analyze_file path_exists read_text parse str_targets dump
                analyzer (resolve_path path_exists file_path)
              = ([("error", PStr ("文件不存在: " ++ file_path))], analyzer)).
  { unfold analyze_file. rewrite H. simpl. now rewrite E. }
  split; [exact A|]. split; [|exact A].
  exists "文件不存在: ", "". now rewrite Substring.append_empty_r.
Qed.

End Tool.

(** The error for [missing.py] when nothing exists. *)
Lemma analyze_missing_file_witness :
  analyze_code_intelligence Sample.never_exists (fun _ => ReadError "")
    (fun _ => ParseError "") Sample.no_text Sample.no_dump
    engine_init "missing.py"
  = ([("error", PStr "文件不存在: missing.py")], engine_init).
Proof.
  apply (analyze_missing_file Sample.never_exists (fun _ => ReadError "")
           (fun _ => ParseError "") Sample.no_text Sample.no_dump
           engine_init "missing.py").
  reflexivity.
Defined.

(** C5 as stated fails: the error value of the analysis names neither the
    working directory nor any sibling file. *)
Lemma missing_file_error_has_no_context :
  let result :=
    fst (analyze_code_intelligence Sample.never_exists (fun _ => ReadError "")
           (fun _ => ParseError "") Sample.no_text Sample.no_dump
           engine_init "missing.py") in
  dict_has "error" result = true
  /\ dict_has "current_directory" result = false
  /\ dict_has "available_files" result = false
  /\ dict_has "suggestion" result = false
  /\ length result = 1%nat.
Proof. vm_compute. repeat split. Qed.

End NotFound.

(* ====================================================================== *)
(** * Refactoring suggestions *)
(* ====================================================================== *)

Module Refactoring.

Import RefactoringSpec.

Lemma suggest_for_node_app (acc : list pydict) (n : ast) :
  suggest_for_node acc n = acc ++ suggest_for_node [] n.
Proof.
  destruct n; try (simpl; now rewrite app_nil_r).
  - cbv beta iota delta [suggest_for_node]. cbv zeta.
    destruct (50 <? _)%Z, (5 <? _)%nat; simpl;
      rewrite <- ?app_assoc, ?app_nil_r; reflexivity.
  - cbv beta iota delta [suggest_for_node]. cbv zeta.
    destruct (15 <? _)%nat; simpl; rewrite ?app_nil_r; reflexivity.
Qed.

Lemma suggest_fold (l : list ast) :
  forall acc,
    fold_left suggest_for_node l acc
    = acc ++ flat_map (suggest_for_node []) l.
Proof.
  induction l as [|n l IH]; intros acc; simpl.
  - now rewrite app_nil_r.
  - rewrite IH, (suggest_for_node_app acc n). now rewrite <- app_assoc.
Qed.

Lemma Permutation_flat_map_list {A B} (g : A -> list B) (l1 l2 : list A) :
  Permutation l1 l2 -> Permutation (flat_map g l1) (flat_map g l2).
Proof.
  induction 1; simpl; auto.
  - now apply Permutation_app_head.
  - rewrite !app_assoc. apply Permutation_app_tail, Permutation_app_comm.
  - eauto using Permutation_trans.
Qed.

Lemma no_suggestion_below (l : list ast) :
  Forall (fun n => is_FunctionDef n = false /\ is_ClassDef n = false) l ->
  flat_map (suggest_for_node []) l = [].
Proof.
  induction 1 as [|n l [Hf Hc] _ IH]; simpl; [reflexivity|].
  rewrite IH, app_nil_r.
  destruct n; simpl in *; try reflexivity; discriminate.
Qed.

(** For a module made of one definition, the suggestions are those of that
    definition, up to order. *)
Lemma suggestions_of_single_definition
  (parse : string -> parse_result) (code : string) (f : ast) :
  parse code = ParseOk (Module_ [f]) -> only_definition f ->
  Permutation (suggest_refactoring parse code) (suggest_for_node [] f).
Proof.
  intros Hp Ho. unfold suggest_refactoring. rewrite Hp, suggest_fold.
  rewrite app_nil_l.
  rewrite (Permutation_flat_map_list _ _ _ (walk_perm (Module_ [f]))).
  rewrite preorder_eq.
  cbn [iter_child_nodes flat_map suggest_for_node app].
  rewrite app_nil_r, (preorder_eq f). cbn [flat_map].
  rewrite (no_suggestion_below _ Ho). now rewrite app_nil_r.
Qed.

(** C6, as amended. The test is [end_lineno - lineno > 50]: a function
    whose last line is at least 51 lines after its [def] line (52 lines or
    more, [def] line included) and that has no parameter yields the
    [function_length] suggestion and no other; one that occupies 51 lines or
    fewer yields none. *)
Theorem function_length_boundary
  (parse : string -> parse_result) (code : string)
  (name : string) (a : arguments_ ast) (body decos : list ast)
  (ret : option ast) (lineno end_lineno : Z) :
  let f := FunctionDef name a body decos ret lineno end_lineno in
  parse code = ParseOk (Module_ [f]) ->
  a_args a = [] ->
  only_definition f ->
  ((52 <= line_span f)%Z ->
   suggest_refactoring parse code = [function_length_suggestion name])
  /\ ((line_span f <= 51)%Z -> suggest_refactoring parse code = []).
Proof.
  intros f Hp Ha Ho.
  pose proof (suggestions_of_single_definition parse code f Hp Ho) as HP.
  unfold f, line_span in *. simpl in *. rewrite Ha in HP. simpl in HP.
  split; intros Hs.
  - assert (E : (50 <? end_lineno - lineno)%Z = true)
      by (apply Z.ltb_lt; lia).
    rewrite E in HP. simpl in HP.
    apply Permutation_sym, Permutation_length_1_inv in HP. exact HP.
  - assert (E : (50 <? end_lineno - lineno)%Z = false)
      by (apply Z.ltb_ge; lia).
    rewrite E in HP. simpl in HP.
    apply Permutation_sym, Permutation_nil in HP. exact HP.
Qed.

(** A function on lines 1 to 52 gets the [function_length] suggestion. *)
Lemma function_length_boundary_witness :
  suggest_refactoring (parse_as (Module_ [plain_function 52])) "def process"
  = [function_length_suggestion "process"].
Proof.
  apply (proj1 (function_length_boundary
                  (parse_as (Module_ [plain_function 52])) "def process"
                  "process" no_arguments [Pass] [] None 1 52
                  eq_refl eq_refl
                  ltac:(vm_compute; repeat constructor))).
  vm_compute. discriminate.
Defined.

(** C6 as stated fails: a function that spans exactly 51 lines (lines 1 to
    51) and has no parameter gets no [function_length] suggestion. *)
Lemma fifty_one_lines_not_flagged :
  line_span (plain_function 51) = 51%Z
  /\ length (a_args (node_args (plain_function 51))) = 0%nat
  /\ suggest_refactoring (parse_as (Module_ [plain_function 51]))
       "def process" = [].
Proof. vm_compute. repeat split. Qed.

End Refactoring.

(* ====================================================================== *)
(** * Technical debt: long functions *)
(* ====================================================================== *)

Module LongFunctions.

Import LongFunctionsSpec.

Lemma long_functions_in_count (content : string) :
  long_functions_in content
  = if (2000 <? PyStr.len content)%nat then def_lines content else O.
Proof.
  unfold long_functions_in, def_lines, count_if.
  destruct (2000 <? PyStr.len content)%nat.
  - f_equal. apply filter_ext. intros l. apply andb_true_r.
  - induction (PyStr.split_lines content) as [|l ls IH]; [reflexivity|].
    simpl. rewrite andb_false_r. exact IH.
Qed.

Lemma count_if_pos {A} (p : A -> bool) (l : list A) :
  (1 <= count_if p l)%nat <-> exists x, In x l /\ p x = true.
Proof.
  unfold count_if. split.
  - destruct (filter p l) as [|x xs] eqn:E; simpl; [lia|]. intros _.
    assert (H : In x (filter p l)) by (rewrite E; now left).
    apply filter_In in H. now exists x.
  - intros (x & Hin & Hp).
    assert (H : In x (filter p l)) by (apply filter_In; now split).
    destruct (filter p l); [contradiction | simpl; lia].
Qed.

(** The lines counted are the lines in which [def ] occurs. *)
Lemma def_lines_pos (content : string) :
  (1 <= def_lines content)%nat <-> has_def_line content.
Proof.
  unfold def_lines, has_def_line. rewrite count_if_pos.
  split; intros (l & Hin & H); exists l; (split; [exact Hin|]);
    now apply Substring.contains_spec.
Qed.

Section Scan.
Variable os_walk : string -> list (string * list string * list string).
Variable read_text : string -> read_result.

Lemma long_functions_fold (l : list string) :
  forall d,
    long_functions (fold_left (debt_of_file read_text) l d)
    = (long_functions d + list_sum (map (contribution read_text) l))%nat.
Proof.
  induction l as [|p l IH]; intros d; simpl; [lia|].
  rewrite IH. unfold debt_of_file, contribution.
  destruct (read_text p); simpl; [|lia].
  rewrite long_functions_in_count. lia.
Qed.

(** The scan keeps the [.py] files of the walk, and only them. *)
Lemma python_files_below (project_root : string) :
  python_files os_walk project_root = py_files_below os_walk project_root.
Proof.
  unfold python_files, py_files_below.
  apply flat_map_ext. intros [[directory dirs] files].
  induction files as [|file files IH]; [reflexivity|].
  cbn [filter flat_map]. destruct (PyStr.endswith file ".py"); simpl;
    now rewrite IH.
Qed.

(** Every scanned path is a [.py] file name joined to its directory. *)
Lemma python_files_are_py (project_root file_path : string) :
  In file_path (python_files os_walk project_root) ->
  exists root dirs files file,
    In (root, dirs, files) (os_walk project_root)
    /\ In file files /\ PyStr.endswith file ".py" = true
    /\ file_path = path_join root file.
Proof.
  unfold python_files. intros H. apply in_flat_map in H.
  destruct H as ([[root dirs] files] & Hw & H).
  apply in_map_iff in H. destruct H as (file & <- & Hf).
  apply filter_In in Hf. destruct Hf as [Hin Hpy].
  now exists root, dirs, files, file.
Qed.

(** C9. The [long_functions] factor of a project is the sum, over the
    [.py] files of the walk, of what each file adds: the number of its lines
    containing [def ] when its text is longer than 2000 characters. A file
    with such a line and more than 2000 characters adds that number, which
    is at least one; a file that fails either condition, or cannot be read,
    adds nothing. *)
Theorem long_functions_factor (project_root : string) :
  long_functions (scan_debt os_walk read_text project_root)
  = list_sum (map (contribution read_text)
                  (py_files_below os_walk project_root))
  /\ (forall file_path content,
         read_text file_path = ReadOk content ->
         has_def_line content -> (2000 < PyStr.len content)%nat ->
         contribution read_text file_path = def_lines content
         /\ (1 <= def_lines content)%nat)
  /\ (forall file_path,
         (forall content,
             read_text file_path = ReadOk content ->
             ~ (has_def_line content /\ (2000 < PyStr.len content)%nat)) ->
         contribution read_text file_path = O).
Proof.
  split; [|split].
  - unfold scan_debt. rewrite long_functions_fold, python_files_below.
    reflexivity.
  - intros file_path content Hr Hd Hlen. unfold contribution. rewrite Hr.
    apply Nat.ltb_lt in Hlen. rewrite Hlen.
    split; [reflexivity | now apply def_lines_pos].
  - intros file_path H. unfold contribution.
    destruct (read_text file_path) as [content|msg]; [|reflexivity].
    specialize (H content eq_refl).
    destruct (2000 <? PyStr.len content)%nat eqn:Hlen; [|reflexivity].
    destruct (def_lines content) as [|k] eqn:Hc; [reflexivity|].
    exfalso. apply H. split; [|now apply Nat.ltb_lt].
    apply def_lines_pos. lia.
Qed.

End Scan.

(** One file of the sample project meets both conditions, and the factor
    is 2: the file has two lines containing [def ], and each of them
    counts. *)
Lemma two_def_lines_add_two :
  count_if (qualifies sample_read) (py_files_below sample_walk "proj") = 1%nat
  /\ long_functions (scan_debt sample_walk sample_read "proj") = 2%nat
  /\ long_functions (scan_debt sample_walk sample_read "proj")
     <> count_if (qualifies sample_read) (py_files_below sample_walk "proj").
Proof. repeat split; vm_compute; congruence. Qed.

(** The factor of the sample project: [app.py] adds its two lines, the
    short file, the file without a [def] line and the unreadable file add
    nothing, and [notes.txt] is not scanned. *)
Lemma long_functions_factor_witness :
  long_functions (scan_debt sample_walk sample_read "proj") = 2%nat.
Proof.
  rewrite (proj1 (long_functions_factor sample_walk sample_read "proj")).
  vm_compute. reflexivity.
Defined.

(** The length is counted in characters, not in bytes. *)
Example characters_not_bytes :
  PyStr.len cyrillic_text = 1211%nat
  /\ String.length cyrillic_text = 2411%nat
  /\ long_functions_in cyrillic_text = 0%nat.
Proof. repeat split; vm_compute; reflexivity. Qed.

End LongFunctions.

(* ====================================================================== *)
(** * The not-found answer of the minimal server *)
(* ====================================================================== *)

Module MinimalServerFacts.

Import MinimalServer.

Section Tool.
Variable path_exists : string -> bool.
Variable read_text : string -> read_result.
Variable parse : string -> parse_result.
Variable getcwd : string.
Variable listdir : string -> option (list string).

(** It is this tool, not the analysis engine, whose not-found error carries
    the working directory and up to 10 sibling [.py] file names. *)
Lemma analyze_python_missing_file (file_path : string) (names : list string) :
  path_exists (resolve_path path_exists file_path) = false ->
  listdir project_path = Some names ->
  exists result files,
    analyze_python path_exists read_text parse getcwd listdir file_path
    = Some result
    /\ dict_get "error" result = Some (PStr ("文件不存在: " ++ file_path))
    /\ dict_get "current_directory" result = Some (PStr getcwd)
    /\ dict_get "available_files" result = Some (PList (map PStr files))
    /\ (length files <= 10)%nat
    /\ Forall (fun f => In f names /\ PyStr.endswith f ".py" = true) files.
Proof.
  intros H Hl. unfold analyze_python. cbv zeta. rewrite H, Hl.
  cbn [negb].
  rewrite (NotFound.resolve_path_missing path_exists file_path H).
  eexists.
  exists (firstn 10 (filter (fun f => PyStr.endswith f ".py") names)).
  split; [reflexivity|].
  split; [reflexivity|]. split; [reflexivity|]. split; [reflexivity|].
  split.
  - apply firstn_le_length.
  - apply Forall_forall. intros f Hf.
    apply (proj1 (filter_In (fun f => PyStr.endswith f ".py") f names)).
    rewrite <- (firstn_skipn 10 (filter _ names)).
    apply in_or_app. now left.
Qed.

End Tool.

End MinimalServerFacts.

(* ====================================================================== *)
(** * The score of an analysis *)
(* ====================================================================== *)

Module AnalysisScore.

Import ScoreSpec.

Lemma keeps_emitted_append (i : CodeIssue.t) :
  emitted_kind i -> keeps_emitted (append_issue i).
Proof.
  intros Hi s Hs. simpl. apply Forall_app. split; [exact Hs|].
  now constructor.
Qed.

(** The severity and the confidence of a finding written out in the
    program are one of the six pairs. *)
Ltac decimal := unfold emitted_kind; cbn; tauto.

Ltac keeps_emitted_cases :=
  let s := fresh "s" in
  let Hs := fresh "Hs" in
  intros s Hs;
  repeat match goal with
         | |- context [match ?x with _ => _ end] => destruct x
         end;
  try exact Hs;
  repeat (apply keeps_emitted_append; [decimal|]);
  simpl; try exact Hs.

Section Passes.
Variable str_targets : list ast -> string.
Variable dump : ast -> string.
Variable lines : list string.
Variable file_path : string.

Lemma business_keeps_emitted (n : ast) :
  keeps_emitted (BusinessLogicVisitor.handler lines file_path n).
Proof.
  destruct n; try (intros s Hs; exact Hs).
  intros s Hs.
  cbv beta iota delta
    [BusinessLogicVisitor.handler BusinessLogicVisitor.visit_FunctionDef_own].
  cbv zeta.
  set (node := FunctionDef _ _ _ _ _ _ _).
  assert (H1 : Forall emitted_kind
                 (issues (BusinessLogicVisitor._check_function_naming_consistency
                            lines file_path node s))).
  { unfold BusinessLogicVisitor._check_function_naming_consistency.
    cbv zeta. rewrite fold_append_issue. cbn [issues].
    apply Forall_app. split; [exact Hs|].
    apply Forall_forall. intros x Hx. apply in_map_iff in Hx.
    destruct Hx as (h & <- & _). decimal. }
  assert (H2 : Forall emitted_kind
                 (issues (BusinessLogicVisitor._analyze_function_responsibility
                            lines file_path node
                            (BusinessLogicVisitor._check_function_naming_consistency
                               lines file_path node s)))).
  { unfold BusinessLogicVisitor._analyze_function_responsibility. cbv zeta.
    destruct (10 <? _)%nat, (5 <? _)%nat;
      repeat (apply keeps_emitted_append; [decimal|]); exact H1. }
  unfold BusinessLogicVisitor._check_error_handling_consistency. cbv zeta.
  destruct (filter _ _) as [|b l]; [exact H2|].
  rewrite fold_append_issue. cbn [issues].
  apply Forall_app. split; [exact H2|].
  apply Forall_forall. intros x Hx. apply in_map_iff in Hx.
  destruct Hx as (h & <- & _). decimal.
Qed.

Lemma performance_keeps_emitted (n : ast) :
  keeps_emitted (PerformanceVisitor.handler lines file_path n).
Proof.
  destruct n; try (intros s Hs; exact Hs).
  cbv beta iota delta
    [PerformanceVisitor.handler PerformanceVisitor.visit_For_own].
  keeps_emitted_cases.
Qed.

Lemma security_keeps_emitted (n : ast) :
  keeps_emitted (SecurityVisitor.handler lines file_path str_targets n).
Proof.
  destruct n; try (intros s Hs; exact Hs);
    cbv beta iota delta
      [SecurityVisitor.handler SecurityVisitor.visit_Assign_own
       SecurityVisitor.visit_Call_own];
    keeps_emitted_cases.
Qed.

Lemma architecture_keeps_emitted (n : ast) :
  keeps_emitted (ArchitectureVisitor.handler lines file_path dump n).
Proof.
  destruct n; try (intros s Hs; exact Hs).
  cbv beta iota zeta delta
    [ArchitectureVisitor.handler ArchitectureVisitor.visit_ClassDef_own].
  keeps_emitted_cases.
Qed.

Lemma visit_keeps_emitted (h : ast -> engine -> engine) (tree : ast) :
  (forall n, keeps_emitted (h n)) -> keeps_emitted (visit h tree).
Proof.
  intros Hh s Hs. rewrite visit_preorder. revert s Hs.
  induction (preorder tree) as [|c l IH]; intros s Hs; simpl; [exact Hs|].
  apply IH, Hh, Hs.
Qed.

(** Every issue an analysis accumulates is of one of the emitted kinds. *)
Lemma analysis_issues_emitted (tree : ast) :
  Forall emitted_kind
    (issues (run_analyzers str_targets dump tree lines file_path engine_init)).
Proof.
  unfold run_analyzers. cbv zeta.
  apply visit_keeps_emitted; [apply architecture_keeps_emitted|].
  apply visit_keeps_emitted; [apply security_keeps_emitted|].
  apply visit_keeps_emitted; [apply performance_keeps_emitted|].
  apply visit_keeps_emitted; [apply business_keeps_emitted|].
  constructor.
Qed.

(** Hence its arithmetic is exact and its confidences are valid. *)
Lemma analysis_issues_exact (tree : ast) :
  Forall exact_issue
    (issues (run_analyzers str_targets dump tree lines file_path engine_init)).
Proof.
  eapply Forall_impl; [|apply analysis_issues_emitted]. intros i H. now left.
Qed.

Lemma analysis_issues_valid (tree : ast) :
  Forall valid_issue
    (issues (run_analyzers str_targets dump tree lines file_path engine_init)).
Proof.
  eapply Forall_impl; [|apply analysis_issues_exact].
  apply Score.exact_issue_valid.
Qed.

(** The quality score of every analysis lies between 0 and 100. *)
Lemma analysis_score_in_range (tree : ast) :
  (0 <= _calculate_quality_score
          (run_analyzers str_targets dump tree lines file_path engine_init)
   <= 100)%Q.
Proof.
  apply Score.score_in_range, analysis_issues_valid.
Qed.

End Passes.

End AnalysisScore.

(* ====================================================================== *)
(** * Strings: append, prefixes, splitting *)
(* ====================================================================== *)

Module Text.

Import SubstringSpec.
Import TextSpec.

Lemma append_assoc (a b c : string) :
  ((a ++ b) ++ c)%string = (a ++ b ++ c)%string.
Proof. induction a as [|x a IH]; simpl; [reflexivity | now rewrite IH]. Qed.

Lemma length_append (a b : string) :
  String.length (a ++ b) = (String.length a + String.length b)%nat.
Proof. induction a as [|x a IH]; simpl; [reflexivity | now rewrite IH]. Qed.

Lemma lower_append (a b : string) :
  PyStr.lower (a ++ b) = (PyStr.lower a ++ PyStr.lower b)%string.
Proof. induction a as [|x a IH]; simpl; [reflexivity | now rewrite IH]. Qed.

Lemma occurs_in_append (sub a b : string) :
  occurs_in sub a -> occurs_in sub (a ++ b).
Proof.
  intros (pre & post & ->). exists pre, (post ++ b)%string.
  now rewrite !append_assoc.
Qed.

Lemma contains_append (sub a b : string) :
  PyStr.contains sub a = true -> PyStr.contains sub (a ++ b) = true.
Proof.
  rewrite !Substring.contains_spec. apply occurs_in_append.
Qed.

(** [before] yields a prefix of the text. *)
Lemma before_prefix (sep s : string) :
  exists post, s = (PyText.before sep s ++ post)%string.
Proof.
  induction s as [|c r IH]; cbn [PyText.before].
  - destruct (String.prefix sep ""); now exists "".
  - destruct (String.prefix sep (String c r)).
    + now exists (String c r).
    + destruct IH as [post IH]. exists post. simpl. now rewrite <- IH.
Qed.

(** What occurs before the separator occurs in the text. *)
Lemma contains_before (sub sep s : string) :
  PyStr.contains sub s = false ->
  PyStr.contains sub (PyText.before sep s) = false.
Proof.
  intros H. destruct (PyStr.contains sub (PyText.before sep s)) eqn:E;
    [|reflexivity].
  destruct (before_prefix sep s) as [post Hs].
  apply (contains_append _ _ post) in E. rewrite <- Hs in E. congruence.
Qed.

(** The text before the first separator holds no separator. *)
Lemma before_no_sep (sep s : string) :
  sep <> "" -> PyStr.contains sep (PyText.before sep s) = false.
Proof.
  intros Hne.
  assert (H0 : String.prefix sep "" = false)
    by (destruct sep; [congruence | reflexivity]).
  induction s as [|c r IH]; cbn [PyText.before].
  - rewrite H0. cbn [PyStr.contains]. now rewrite H0.
  - destruct (String.prefix sep (String c r)) eqn:Hp.
    + cbn [PyStr.contains]. now rewrite H0.
    + cbn [PyStr.contains]. rewrite IH.
      destruct (String.prefix sep (String c (PyText.before sep r))) eqn:Hq;
        [|reflexivity].
      apply Substring.prefix_spec in Hq. destruct Hq as [post Hq].
      destruct (before_prefix sep r) as [post' Hr].
      assert (Hp' : String.prefix sep (String c r) = true).
      { apply Substring.prefix_spec. exists (post ++ post')%string.
        rewrite <- append_assoc, <- Hq. simpl. now rewrite <- Hr. }
      congruence.
Qed.

(** [split] always yields a piece, and one more than there are
    separators. *)
Lemma split_char_length (sep : ascii) (s : string) :
  length (PyStr.split_char sep s) = S (count_char sep s).
Proof.
  induction s as [|c r IH]; simpl; [reflexivity|].
  destruct (Ascii.eqb c sep); simpl; [now rewrite IH|].
  destruct (PyStr.split_char sep r); simpl in *; [discriminate | exact IH].
Qed.

Lemma readlines_nonempty (c : ascii) (r : string) :
  PyText.readlines (String c r) <> [].
Proof.
  simpl. destruct (Ascii.eqb c PyStr.LF); [discriminate|].
  destruct (PyText.readlines r); discriminate.
Qed.

(** [split] on line feeds counts one line more than [readlines] when the
    text is empty or ends with a line feed, and as many otherwise. *)
Lemma split_lines_readlines (s : string) :
  length (PyStr.split_lines s)
  = (length (PyText.readlines s) + (if ends_line s then 1 else 0))%nat.
Proof.
  unfold PyStr.split_lines.
  induction s as [|c r IH]; [reflexivity|].
  cbn [PyStr.split_char PyText.readlines ends_line].
  destruct r as [|c' r'].
  - simpl. destruct (Ascii.eqb c PyStr.LF); reflexivity.
  - destruct (Ascii.eqb c PyStr.LF).
    + cbn [length]. rewrite IH. reflexivity.
    + pose proof (readlines_nonempty c' r') as Hn.
      pose proof (split_char_length PyStr.LF (String c' r')) as Hs.
      destruct (PyStr.split_char PyStr.LF (String c' r')) as [|p ps];
        [discriminate|].
      destruct (PyText.readlines (String c' r')) as [|q qs];
        [congruence|].
      cbn [length] in *. exact IH.
Qed.

Lemma substring_append (a b : string) (k m : nat) :
  String.substring (String.length a + k) m (a ++ b) = String.substring k m b.
Proof. induction a as [|x a IH]; simpl; [reflexivity | exact IH]. Qed.

(** Whether a text ends with [p] depends on its last characters only. *)
Lemma endswith_append (a b p : string) :
  (String.length p <= String.length b)%nat ->
  PyStr.endswith (a ++ b) p = PyStr.endswith b p.
Proof.
  intros H. unfold PyStr.endswith. rewrite length_append.
  assert (E1 : (String.length p <=? String.length a + String.length b)%nat
               = true) by (apply Nat.leb_le; lia).
  assert (E2 : (String.length p <=? String.length b)%nat = true)
    by (apply Nat.leb_le; lia).
  rewrite E1, E2.
  replace (String.length a + String.length b - String.length p)%nat
    with (String.length a + (String.length b - String.length p))%nat by lia.
  now rewrite substring_append.
Qed.

(** A relative name joined to a directory is the directory's text followed
    by more text. *)
Lemma path_join_relative (a b : string) :
  PyStr.startswith b "/" = false ->
  exists sep, path_join a b = (a ++ sep ++ b)%string
              /\ (sep = "" \/ sep = "/").
Proof.
  intros H. unfold path_join. rewrite H.
  destruct (_ || _).
  - exists "". split; [reflexivity | now left].
  - exists "/". split; [reflexivity | now right].
Qed.

Lemma existsb_perm {A} (p : A -> bool) (l1 l2 : list A) :
  Permutation l1 l2 -> existsb p l1 = existsb p l2.
Proof.
  induction 1; simpl; try congruence.
  - destruct (p x), (p y); reflexivity.
Qed.

(** Membership after [add]. *)
Lemma str_in_set_add (k x : string) (s : list string) :
  str_in k (set_add x s) = String.eqb k x || str_in k s.
Proof.
  unfold set_add. destruct (str_in x s) eqn:E.
  - destruct (String.eqb_spec k x) as [->|_]; [now rewrite E | reflexivity].
  - unfold str_in. rewrite existsb_app. simpl.
    rewrite orb_false_r. apply orb_comm.
Qed.

End Text.

(* ====================================================================== *)
(** * Hard-coded secrets under the default text of a node *)
(* ====================================================================== *)

Module ObjectText.

Import SecurityVisitor.
Import SecretsSpec.

Lemma prefix_clash (kw l x : string) :
  clash kw l = true -> String.prefix kw (l ++ x) = false.
Proof.
  revert l. induction kw as [|a kw IH]; intros [|b l]; simpl; try discriminate.
  destruct (Ascii.eqb_spec a b) as [->|Hne].
  - intros H. destruct (ascii_dec b b); [now apply IH | reflexivity].
  - intros _. destruct (ascii_dec a b); [contradiction | reflexivity].
Qed.

Lemma contains_skip (kw l x : string) :
  starts_nowhere kw l = true ->
  PyStr.contains kw (l ++ x) = PyStr.contains kw x.
Proof.
  induction l as [|c l IH]; [reflexivity|].
  intros H. cbn [starts_nowhere] in H. apply andb_true_iff in H.
  destruct H as [Hc Hl].
  change ((String c l ++ x)%string) with (String c (l ++ x)).
  cbn [PyStr.contains].
  change (String c (l ++ x)) with ((String c l ++ x)%string).
  rewrite (prefix_clash _ _ _ Hc). now apply IH.
Qed.

Lemma lower_hex_no_initial (c k : ascii) :
  In k ["p"; "s"; "k"; "t"]%char ->
  is_hex_digit c = true -> Ascii.eqb k (PyStr.lower_ascii c) = false.
Proof.
  intros Hk Hc.
  destruct c as [[] [] [] [] [] [] [] []]; try discriminate Hc;
    (destruct Hk as [<-|[<-|[<-|[<-|[]]]]]; reflexivity).
Qed.

Lemma contains_skip_hex (k : ascii) (kw h x : string) :
  In k ["p"; "s"; "k"; "t"]%char ->
  all_chars is_hex_digit h = true ->
  PyStr.contains (String k kw) (PyStr.lower h ++ x)
  = PyStr.contains (String k kw) x.
Proof.
  intros Hk. induction h as [|c h IH]; [reflexivity|].
  intros H. cbn [all_chars] in H. apply andb_true_iff in H.
  destruct H as [Hc Hh].
  cbn [PyStr.lower].
  change ((String (PyStr.lower_ascii c) (PyStr.lower h) ++ x)%string)
    with (String (PyStr.lower_ascii c) (PyStr.lower h ++ x)).
  cbn [PyStr.contains String.prefix].
  pose proof (lower_hex_no_initial c k Hk Hc) as Hne.
  destruct (ascii_dec k (PyStr.lower_ascii c)) as [E|_].
  - rewrite E, Ascii.eqb_refl in Hne. discriminate.
  - now apply IH.
Qed.

Lemma skip_object_repr (kw' L A x : string) (k : ascii) :
  In k ["p"; "s"; "k"; "t"]%char ->
  starts_nowhere (String k kw') (PyStr.lower L) = true ->
  starts_nowhere (String k kw') ">" = true ->
  all_chars is_hex_digit A = true ->
  PyStr.contains (String k kw') (PyStr.lower ((L ++ A ++ ">") ++ x))
  = PyStr.contains (String k kw') (PyStr.lower x).
Proof.
  intros Hk HL Hgt HA.
  rewrite !Text.append_assoc, !Text.lower_append.
  rewrite (contains_skip _ _ _ HL).
  rewrite (contains_skip_hex _ _ _ _ Hk HA).
  change (PyStr.lower ">") with ">".
  apply (contains_skip _ _ _ Hgt).
Qed.

Section DefaultText.
Variable address : ast -> string.
Hypothesis Hhex : hex_addresses address.

Lemma keyword_initial (kw : string) :
  In kw keywords ->
  exists k kw', kw = String k kw' /\ In k ["p"; "s"; "k"; "t"]%char.
Proof.
  unfold keywords. intros [<-|[<-|[<-|[<-|[]]]]]; eexists; eexists;
    (split; [reflexivity|]); simpl; tauto.
Qed.

(** No keyword starts in the text of a target, whatever follows it. *)
Lemma target_text_skipped (kw : string) (t : ast) (x : string) :
  In kw keywords -> is_target t = true ->
  PyStr.contains kw (PyStr.lower (object_repr address t ++ x))
  = PyStr.contains kw (PyStr.lower x).
Proof.
  intros Hkw Ht. pose proof (Hhex t) as HA.
  unfold keywords in Hkw.
  destruct t; try discriminate Ht; clear Ht;
    match goal with
    | |- context [object_repr address ?n] =>
        change (object_repr address n)
          with (("<ast." ++ class_name n ++ " object at 0x")
                ++ address n ++ ">")%string;
        set (A := address n) in *; clearbody A
    end;
    cbn [class_name];
    destruct Hkw as [<-|[<-|[<-|[<-|[]]]]];
    (apply skip_object_repr;
     [simpl; tauto | reflexivity | reflexivity | exact HA]).
Qed.

Lemma targets_text_clean (kw : string) (targets : list ast) :
  In kw keywords -> forallb is_target targets = true ->
  PyStr.contains kw
    (PyStr.lower (String.concat ", " (map (object_repr address) targets)
                  ++ "]")) = false.
Proof.
  intros Hkw. induction targets as [|t ts IH]; intros Ht.
  - unfold keywords in Hkw.
    destruct Hkw as [<-|[<-|[<-|[<-|[]]]]]; reflexivity.
  - cbn [forallb] in Ht. apply andb_true_iff in Ht. destruct Ht as [Ht Hts].
    destruct ts as [|t' ts].
    + cbn [map String.concat]. rewrite target_text_skipped by assumption.
      unfold keywords in Hkw.
      destruct Hkw as [<-|[<-|[<-|[<-|[]]]]]; reflexivity.
    + specialize (IH Hts).
      change (String.concat ", " (map (object_repr address) (t :: t' :: ts)))
        with (object_repr address t
              ++ ", " ++ String.concat ", "
                          (map (object_repr address) (t' :: ts)))%string.
      rewrite !Text.append_assoc.
      rewrite target_text_skipped by assumption.
      rewrite Text.lower_append.
      change (PyStr.lower ", ") with ", ".
      rewrite contains_skip; [exact IH|].
      unfold keywords in Hkw.
      destruct Hkw as [<-|[<-|[<-|[<-|[]]]]]; reflexivity.
Qed.

(** On CPython 3.10 to 3.13 the text of the targets of an assignment never
    contains one of the four words. *)
Lemma default_text_names_no_secret (targets : list ast) :
  forallb is_target targets = true ->
  targets_mention_secret (str_of_nodes address) targets = false.
Proof.
  intros Ht. unfold targets_mention_secret.
  apply not_true_is_false. intros H. apply existsb_exists in H.
  destruct H as (kw & Hkw & Hc).
  unfold str_of_nodes in Hc.
  change (("[" ++ String.concat ", " (map (object_repr address) targets)
           ++ "]")%string)
    with (String "["%char (String.concat ", " (map (object_repr address) targets)
           ++ "]")%string) in Hc.
  cbn [PyStr.lower] in Hc.
  change (String (PyStr.lower_ascii "[") ?x) with ("[" ++ x)%string in Hc.
  rewrite contains_skip in Hc.
  - rewrite targets_text_clean in Hc by assumption. discriminate.
  - unfold keywords in Hkw.
    destruct Hkw as [<-|[<-|[<-|[<-|[]]]]]; reflexivity.
Qed.

Variable lines : list string.
Variable file_path : string.

(** Hence no such assignment is flagged, whatever its value. *)
Lemma default_text_flags_nothing (targets : list ast) (value : ast)
  (lineno : Z) (s : engine) :
  forallb is_target targets = true ->
  visit_Assign_own lines file_path (str_of_nodes address)
    (Assign targets value lineno) s = s.
Proof.
  intros Ht. cbn [visit_Assign_own].
  destruct value; try reflexivity. destruct value; try reflexivity.
  rewrite default_text_names_no_secret by assumption.
  now rewrite andb_false_r.
Qed.

(** The security pass reports no hard-coded secret in any parsed tree. *)
Lemma default_text_reports_no_secret (tree : ast) :
  parsed_targets tree ->
  count_if is_secret_issue
    (issues (_analyze_security_risks (str_of_nodes address) tree lines
               file_path engine_init)) = 0%nat.
Proof.
  intros Hp.
  rewrite (proj2 (proj2 (Secrets.hardcoded_secret_flagged lines file_path
                           (str_of_nodes address) [] Pass 0 engine_init))).
  unfold parsed_targets in Hp. unfold count_if.
  induction Hp as [|n l Hn _ IH]; [reflexivity|].
  cbn [filter]. destruct n; try exact IH.
  cbn [is_secret_assignment]. destruct n; try exact IH.
  destruct value; try exact IH.
  rewrite default_text_names_no_secret by exact Hn.
  rewrite andb_false_r. exact IH.
Qed.

End DefaultText.

(** C3. On CPython 3.10 to 3.13 the assignment
    [API_KEY = 'sk-live-0123456789'] is not reported: its value is a string
    constant longer than 8 characters and the name of its target contains
    [key], yet the security pass emits no issue for the file, because the
    text of the targets it searches is the default text of the node
    objects. *)
Theorem named_secret_not_flagged :
  long_string_constant api_key_value
  /\ SubstringSpec.occurs_in "key" (PyStr.lower "API_KEY")
  /\ issues (_analyze_security_risks str_object_default api_key_module
               api_key_lines "conf.py" engine_init) = [].
Proof.
  split; [|split].
  - exists "sk-live-0123456789". split; [reflexivity|]. simpl. lia.
  - exists "api_", "". reflexivity.
  - vm_compute. reflexivity.
Qed.

End ObjectText.


(* ====================================================================== *)
(** * The naming check *)
(* ====================================================================== *)

Module Naming.

Import BusinessLogicVisitor.
Import NamingSpec.

Lemma operations_fold (kind : string) (l : list ast) :
  forall ops,
    str_in kind
      (fold_left
         (fun operations child =>
            match child with
            | Return _ => set_add "return" operations
            | Assign _ _ _ => set_add "assignment" operations
            | Call (Attribute _ attr _) _ _ _ =>
                if str_in attr ["open"; "read"; "write"; "close"]
                then set_add "file_io" operations
                else if str_in attr ["execute"; "query"; "commit"]
                then set_add "database" operations
                else operations
            | _ => operations
            end) l ops)
    = str_in kind ops || existsb (records kind) l.
Proof.
  induction l as [|c l IH]; intros ops; cbn [fold_left existsb].
  - now rewrite orb_false_r.
  - rewrite IH, orb_assoc. f_equal.
    unfold records, operation_of, file_methods, database_methods.
    destruct c; try (now rewrite orb_false_r);
      try (rewrite Text.str_in_set_add; apply orb_comm).
    destruct c; try (now rewrite orb_false_r).
    destruct (str_in attr ["open"; "read"; "write"; "close"]);
      [rewrite Text.str_in_set_add; apply orb_comm|].
    destruct (str_in attr ["execute"; "query"; "commit"]);
      [rewrite Text.str_in_set_add; apply orb_comm|].
    now rewrite orb_false_r.
Qed.

(** A kind is in the set of operations when some node of the subtree
    stands for it. *)
Lemma operations_mem (kind : string) (node : ast) :
  str_in kind (_extract_function_operations node)
  = has_node (records kind) node.
Proof.
  unfold _extract_function_operations, has_node.
  rewrite operations_fold. simpl.
  apply Text.existsb_perm, walk_perm.
Qed.

Lemma has_node_ext (p q : ast -> bool) (node : ast) :
  (forall n, p n = q n) -> has_node p node = has_node q node.
Proof.
  intros H. unfold has_node.
  induction (preorder node) as [|c l IH]; simpl; [reflexivity|].
  now rewrite H, IH.
Qed.

Lemma records_return (n : ast) : records "return" n = is_Return n.
Proof.
  unfold records, operation_of. destruct n; try reflexivity.
  destruct n; try reflexivity.
  destruct (str_in attr file_methods); [reflexivity|].
  destruct (str_in attr database_methods); reflexivity.
Qed.

Lemma records_assignment (n : ast) : records "assignment" n = is_Assign n.
Proof.
  unfold records, operation_of. destruct n; try reflexivity.
  destruct n; try reflexivity.
  destruct (str_in attr file_methods); [reflexivity|].
  destruct (str_in attr database_methods); reflexivity.
Qed.

Lemma records_file_io (n : ast) :
  records "file_io" n = is_method_call file_methods n.
Proof.
  unfold records, operation_of. destruct n; try reflexivity.
  destruct n; try reflexivity. cbn [is_method_call].
  destruct (str_in attr file_methods); [reflexivity|].
  destruct (str_in attr database_methods); reflexivity.
Qed.

Lemma file_method_not_database (attr : string) :
  str_in attr file_methods = true -> str_in attr database_methods = false.
Proof.
  unfold str_in, file_methods, database_methods. simpl.
  destruct (String.eqb_spec attr "open") as [->|_]; [reflexivity|].
  destruct (String.eqb_spec attr "read") as [->|_]; [reflexivity|].
  destruct (String.eqb_spec attr "write") as [->|_]; [reflexivity|].
  destruct (String.eqb_spec attr "close") as [->|_]; [reflexivity|].
  discriminate.
Qed.

Lemma records_database (n : ast) :
  records "database" n = is_method_call database_methods n.
Proof.
  unfold records, operation_of. destruct n; try reflexivity.
  destruct n; try reflexivity. cbn [is_method_call].
  destruct (str_in attr file_methods) eqn:E.
  - now rewrite (file_method_not_database attr E).
  - destruct (str_in attr database_methods); reflexivity.
Qed.

Section Check.
Variable lines : list string.
Variable file_path : string.

(** The issues the naming check adds, read off the subtree. *)
Lemma naming_issues_eq (node : ast) (s : engine) :
  issues (_check_function_naming_consistency lines file_path node s)
  = issues s ++ map (naming_issue lines file_path node)
                    (naming_findings node).
Proof.
  unfold _check_function_naming_consistency. cbv zeta.
  rewrite fold_append_issue. cbn [issues]. do 2 f_equal.
  rewrite !operations_mem.
  rewrite (has_node_ext _ _ node records_return),
          (has_node_ext _ _ node records_assignment),
          (has_node_ext _ _ node records_file_io),
          (has_node_ext _ _ node records_database).
  unfold naming_findings. cbv zeta.
  destruct (PyStr.startswith _ "is_"), (PyStr.startswith _ "has_");
    reflexivity.
Qed.

End Check.

(** A setter that only uses an augmented assignment is reported. *)
Example augmented_assignment_is_no_assignment :
  naming_findings set_total = ["函数名暗示设置数据，但没有赋值操作"]
  /\ length (issues (_check_function_naming_consistency [] "acc.py" set_total
                       engine_init)) = 1%nat.
Proof. vm_compute. split; reflexivity. Qed.

End Naming.

(* ====================================================================== *)
(** * What an analysis reports, counted *)
(* ====================================================================== *)

Module Census.

Import CensusSpec.
Import NamingSpec.

Lemma count_if_none {A} (p : A -> bool) (l : list A) :
  (forall x, p x = false) -> count_if p l = 0%nat.
Proof.
  intros H. unfold count_if.
  induction l as [|x l IH]; simpl; [reflexivity|]. now rewrite H.
Qed.

Lemma count_if_all {A} (p : A -> bool) (l : list A) :
  (forall x, p x = true) -> count_if p l = length l.
Proof.
  intros H. unfold count_if.
  induction l as [|x l IH]; simpl; [reflexivity|].
  rewrite H. simpl. now rewrite IH.
Qed.

Lemma list_sum_zero {A} (f : A -> nat) (l : list A) :
  (forall x, f x = 0%nat) -> list_sum (map f l) = 0%nat.
Proof.
  intros H. induction l as [|x l IH]; simpl; [reflexivity|].
  now rewrite H, IH.
Qed.

Lemma list_sum_b2n {A} (f : A -> nat) (q : A -> bool) (l : list A) :
  (forall x, f x = Nat.b2n (q x)) -> list_sum (map f l) = count_if q l.
Proof.
  intros H. rewrite count_if_sum. f_equal. apply map_ext, H.
Qed.

(** A non-empty filter is a successful search. *)
Lemma filter_match {A B} (p : A -> bool) (l : list A) (a b : B) :
  match filter p l with [] => a | _ :: _ => b end
  = if existsb p l then b else a.
Proof.
  induction l as [|x l IH]; simpl; [reflexivity|].
  destruct (p x); simpl; [reflexivity | exact IH].
Qed.

Lemma class_metrics_emitted (h : ast -> engine -> engine) (l : list ast) :
  (forall n, appending (h n)) ->
  class_metrics (emitted h l)
  = flat_map (fun c => class_metrics (h c engine_init)) l.
Proof.
  intros Hh. induction l as [|c l IH]; [reflexivity|].
  rewrite emitted_cons by assumption. simpl. now rewrite IH.
Qed.

Lemma class_metrics_visit
  (h : ast -> engine -> engine) (n : ast) (s : engine) :
  (forall n, appending (h n)) ->
  class_metrics (visit h n s)
  = class_metrics s
    ++ flat_map (fun c => class_metrics (h c engine_init)) (preorder n).
Proof.
  intros Hh. rewrite (appending_visit h Hh n s). simpl. f_equal.
  rewrite visit_preorder. apply (class_metrics_emitted h _ Hh).
Qed.

Ltac handler_cases :=
  repeat match goal with
         | |- context [match ?x with _ => _ end] => destruct x
         end; reflexivity.

Section Passes.
Variable str_targets : list ast -> string.
Variable dump : ast -> string.
Variable lines : list string.
Variable file_path : string.

Lemma count_visit (p : CodeIssue.t -> bool) (h : ast -> engine -> engine)
  (tree : ast) (s : engine) :
  (forall n, appending (h n)) ->
  count_if p (issues (visit h tree s))
  = (count_if p (issues s)
     + list_sum (map (fun c => count_if p (issues (h c engine_init)))
                     (preorder tree)))%nat.
Proof.
  intros Hh. rewrite issues_visit by assumption.
  now rewrite count_if_app, count_if_flat_map.
Qed.

(** The issues of an analysis, counted pass by pass and node by node. *)
Lemma count_run (p : CodeIssue.t -> bool) (tree : ast) :
  count_if p
    (issues (run_analyzers str_targets dump tree lines file_path engine_init))
  = (list_sum (map (fun c => count_if p (issues
        (BusinessLogicVisitor.handler lines file_path c engine_init)))
        (preorder tree))
     + list_sum (map (fun c => count_if p (issues
        (PerformanceVisitor.handler lines file_path c engine_init)))
        (preorder tree))
     + list_sum (map (fun c => count_if p (issues
        (SecurityVisitor.handler lines file_path str_targets c engine_init)))
        (preorder tree))
     + list_sum (map (fun c => count_if p (issues
        (ArchitectureVisitor.handler lines file_path dump c engine_init)))
        (preorder tree)))%nat.
Proof.
  unfold run_analyzers. cbv zeta.
  unfold _analyze_architecture_decisions, _analyze_security_risks,
    _analyze_performance_patterns, _analyze_business_logic.
  rewrite count_visit by apply appending_architecture.
  rewrite count_visit by apply appending_security.
  rewrite count_visit by apply appending_performance.
  rewrite count_visit by apply appending_business.
  reflexivity.
Qed.

(** What the business-logic visitor finds at one node. *)
Lemma business_issues (node : ast) :
  issues (BusinessLogicVisitor.handler lines file_path node engine_init)
  = if is_FunctionDef node
    then map (BusinessLogicVisitor.naming_issue lines file_path node)
             (naming_findings node)
         ++ (if (10 <? BusinessLogicVisitor._calculate_cyclomatic_complexity
                         node)%nat
             then [BusinessLogicVisitor.complexity_issue lines file_path node
                     (BusinessLogicVisitor._calculate_cyclomatic_complexity
                        node)]
             else [])
         ++ (if (5 <? length (a_args (node_args node)))%nat
             then [BusinessLogicVisitor.parameter_issue lines file_path node
                     (length (a_args (node_args node)))]
             else [])
         ++ map (BusinessLogicVisitor.bare_except_issue lines file_path)
                (filter BusinessLogicVisitor.is_bare_except (walk node))
    else [].
Proof.
  destruct node; try reflexivity.
  cbv beta iota delta
    [BusinessLogicVisitor.handler BusinessLogicVisitor.visit_FunctionDef_own
     is_FunctionDef].
  cbv zeta.
  set (node := FunctionDef _ _ _ _ _ _ _).
  rewrite (appending_error_handling lines file_path node),
          (appending_responsibility lines file_path node).
  cbn [issues engine_app].
  assert (H2 : issues (BusinessLogicVisitor._analyze_function_responsibility
                          lines file_path node engine_init)
               = (if (10 <? BusinessLogicVisitor._calculate_cyclomatic_complexity
                                node)%nat
                  then [BusinessLogicVisitor.complexity_issue lines file_path
                          node
                          (BusinessLogicVisitor._calculate_cyclomatic_complexity
                             node)]
                  else [])
                 ++ (if (5 <? length (a_args (node_args node)))%nat
                     then [BusinessLogicVisitor.parameter_issue lines
                             file_path node
                             (length (a_args (node_args node)))]
                     else [])).
  { unfold BusinessLogicVisitor._analyze_function_responsibility. cbv zeta.
    destruct (10 <? _)%nat, (5 <? _)%nat; reflexivity. }
  assert (H3 : issues (BusinessLogicVisitor._check_error_handling_consistency
                          lines file_path node engine_init)
               = map (BusinessLogicVisitor.bare_except_issue lines file_path)
                     (filter BusinessLogicVisitor.is_bare_except
                             (walk node))).
  { unfold BusinessLogicVisitor._check_error_handling_consistency. cbv zeta.
    destruct (filter BusinessLogicVisitor.is_bare_except (walk node))
      as [|b l]; [reflexivity|].
    now rewrite fold_append_issue. }
  rewrite H2, H3, Naming.naming_issues_eq. cbn [issues engine_init app].
  now rewrite <- !app_assoc.
Qed.

Lemma count_single (p : CodeIssue.t -> bool) (i : CodeIssue.t) :
  count_if p [i] = Nat.b2n (p i).
Proof. unfold count_if. simpl. now destruct (p i). Qed.

Lemma business_count (p : CodeIssue.t -> bool) (node : ast) :
  count_if p
    (issues (BusinessLogicVisitor.handler lines file_path node engine_init))
  = if is_FunctionDef node
    then (count_if
            (fun x => p (BusinessLogicVisitor.naming_issue lines file_path
                           node x))
            (naming_findings node)
          + (if (10 <? BusinessLogicVisitor._calculate_cyclomatic_complexity
                          node)%nat
             then Nat.b2n (p (BusinessLogicVisitor.complexity_issue
                    lines file_path node
                    (BusinessLogicVisitor._calculate_cyclomatic_complexity
                       node)))
             else 0)
          + (if (5 <? length (a_args (node_args node)))%nat
             then Nat.b2n (p (BusinessLogicVisitor.parameter_issue
                    lines file_path node (length (a_args (node_args node)))))
             else 0)
          + count_if
              (fun h => p (BusinessLogicVisitor.bare_except_issue
                             lines file_path h))
              (filter BusinessLogicVisitor.is_bare_except (walk node)))%nat
    else 0%nat.
Proof.
  rewrite business_issues. destruct (is_FunctionDef node); [|reflexivity].
  rewrite !count_if_app, !count_if_map.
  destruct (10 <? _)%nat, (5 <? _)%nat; rewrite ?count_single;
    change (count_if p []) with 0%nat; lia.
Qed.

(** What the performance visitor finds at one node. *)
Lemma performance_issues (node : ast) :
  issues (PerformanceVisitor.handler lines file_path node engine_init)
  = if is_For node
    then (if existsb PerformanceVisitor.is_loop (walk_below node)
          then [PerformanceVisitor.nested_loop_issue lines file_path node]
          else [])
         ++ (if has_node PerformanceVisitor.is_add node
             then [PerformanceVisitor.concat_issue lines file_path node]
             else [])
    else [].
Proof.
  destruct node; try reflexivity.
  cbv beta iota delta
    [PerformanceVisitor.handler PerformanceVisitor.visit_For_own is_For].
  cbv zeta.
  set (node := For _ _ _ _ _).
  unfold has_node.
  rewrite <- (Text.existsb_perm _ _ _ (walk_perm node)).
  rewrite <- !filter_match.
  unfold PerformanceVisitor.nested_loops,
    PerformanceVisitor._find_string_concatenations.
  destruct (filter PerformanceVisitor.is_loop (walk_below node)),
           (filter PerformanceVisitor.is_add (walk node)); reflexivity.
Qed.

Lemma performance_count (p : CodeIssue.t -> bool) (node : ast) :
  count_if p
    (issues (PerformanceVisitor.handler lines file_path node engine_init))
  = if is_For node
    then ((if existsb PerformanceVisitor.is_loop (walk_below node)
           then Nat.b2n (p (PerformanceVisitor.nested_loop_issue
                              lines file_path node))
           else 0)
          + (if has_node PerformanceVisitor.is_add node
             then Nat.b2n (p (PerformanceVisitor.concat_issue
                                lines file_path node))
             else 0))%nat
    else 0%nat.
Proof.
  rewrite performance_issues. destruct (is_For node); [|reflexivity].
  rewrite count_if_app.
  destruct (existsb _ _), (has_node _ _); rewrite ?count_single;
    change (count_if p []) with 0%nat; lia.
Qed.

(** What the security visitor finds at one node. *)
Lemma security_count (p : CodeIssue.t -> bool) (node : ast) :
  count_if p
    (issues (SecurityVisitor.handler lines file_path str_targets node
               engine_init))
  = ((if SecretsSpec.is_secret_assignment str_targets node
      then Nat.b2n (p (SecurityVisitor.hardcoded_secret_issue
                         lines file_path node))
      else 0)
     + match node with
       | Call (Name id _) _ _ _ =>
           if String.eqb id "eval"
           then Nat.b2n (p (SecurityVisitor.eval_issue lines file_path node))
           else if String.eqb id "exec"
           then Nat.b2n (p (SecurityVisitor.exec_issue lines file_path node))
           else 0
       | _ => 0
       end)%nat.
Proof.
  destruct node; try reflexivity.
  - cbv beta iota delta
      [SecurityVisitor.handler SecurityVisitor.visit_Assign_own
       SecretsSpec.is_secret_assignment].
    destruct node; try reflexivity. destruct value; try reflexivity.
    destruct (_ && _); [|reflexivity].
    cbn [issues append_issue engine_init app]. rewrite count_single. lia.
  - cbv beta iota delta
      [SecurityVisitor.handler SecurityVisitor.visit_Call_own
       SecretsSpec.is_secret_assignment].
    destruct node; try reflexivity.
    destruct (String.eqb id "eval");
      [cbn [issues append_issue engine_init app]; now rewrite count_single|].
    destruct (String.eqb id "exec"); [|reflexivity].
    cbn [issues append_issue engine_init app]. now rewrite count_single.
Qed.

(** What the architecture visitor finds at one node. *)
Lemma architecture_count (p : CodeIssue.t -> bool) (node : ast) :
  count_if p
    (issues (ArchitectureVisitor.handler lines file_path dump node
               engine_init))
  = if is_large_class node
    then Nat.b2n (p (ArchitectureVisitor.class_size_issue lines file_path
                       node (filter is_FunctionDef (node_body node))))
    else 0%nat.
Proof.
  destruct node; try reflexivity.
  cbv beta iota zeta delta
    [ArchitectureVisitor.handler ArchitectureVisitor.visit_ClassDef_own
     is_large_class is_ClassDef direct_methods andb].
  destruct (15 <? _)%nat; [|reflexivity].
  cbn [issues append_issue append_class_metrics engine_init app].
  now rewrite count_single.
Qed.

Lemma list_sum_filter {A} (q : A -> bool) (f : A -> nat) (l : list A) :
  list_sum (map (fun c => if q c then f c else 0%nat) l)
  = list_sum (map f (filter q l)).
Proof.
  induction l as [|x l IH]; simpl; [reflexivity|].
  destruct (q x); simpl; now rewrite IH.
Qed.

Lemma list_sum_map_add {A} (f g : A -> nat) (l : list A) :
  list_sum (map (fun x => f x + g x)%nat l)
  = (list_sum (map f l) + list_sum (map g l))%nat.
Proof. induction l as [|x l IH]; simpl; [reflexivity|]. rewrite IH. lia. Qed.

(** The passes that cannot emit an issue of the kind counted. *)
Ltac no_business :=
  let c := fresh "c" in
  intros c; rewrite business_count;
  destruct (is_FunctionDef c); [|reflexivity];
  rewrite !count_if_none by reflexivity;
  destruct (10 <? BusinessLogicVisitor._calculate_cyclomatic_complexity c)%nat,
           (5 <? length (a_args (node_args c)))%nat; reflexivity.

Ltac no_performance :=
  let c := fresh "c" in
  intros c; rewrite performance_count;
  destruct (is_For c); [|reflexivity];
  destruct (existsb PerformanceVisitor.is_loop (walk_below c)),
           (has_node PerformanceVisitor.is_add c); reflexivity.

Ltac no_security :=
  let c := fresh "c" in
  intros c; rewrite security_count;
  destruct (SecretsSpec.is_secret_assignment str_targets c);
  destruct c; try reflexivity; handler_cases.

Ltac no_architecture :=
  let c := fresh "c" in
  intros c; rewrite architecture_count;
  destruct (is_large_class c); reflexivity.

(** X1. The naming check looks at the whole subtree of the definition, nested
    definitions included, and at nothing else. A name starting with [get_],
    [is_] or [has_] (letter case ignored) is reported when the subtree holds
    no return statement; one starting with [set_] when it holds no
    assignment statement (an augmented or annotated assignment does not
    count); one containing [save] when it holds no call of a method named
    [open], [read], [write], [close], [execute], [query] or [commit] (a call
    of the builtin [open] does not count). Over an analysis, the naming
    warnings (warning, logic, confidence 0.7) are the findings of the
    function definitions of the tree. *)
Theorem naming_findings_reported :
  (forall node s,
      issues (BusinessLogicVisitor._check_function_naming_consistency
                lines file_path node s)
      = issues s
        ++ map (BusinessLogicVisitor.naming_issue lines file_path node)
               (naming_findings node))
  /\ (forall tree,
         count_if (issue_kind warning logic (7 # 10))
           (issues (run_analyzers str_targets dump tree lines file_path
                      engine_init))
         = list_sum (map (fun n => length (naming_findings n))
                         (filter is_FunctionDef (preorder tree)))).
Proof.
  split; [apply Naming.naming_issues_eq|].
  intros tree. rewrite count_run.
  rewrite (list_sum_zero
             (fun c => count_if _
                         (issues (PerformanceVisitor.handler _ _ c _)))).
  2:{ no_performance. }
  rewrite (list_sum_zero
             (fun c => count_if _
                         (issues (SecurityVisitor.handler _ _ _ c _)))).
  2:{ no_security. }
  rewrite (list_sum_zero
             (fun c => count_if _
                         (issues (ArchitectureVisitor.handler _ _ _ c _)))).
  2:{ no_architecture. }
  rewrite !Nat.add_0_r, <- list_sum_filter. f_equal. apply map_ext.
  intros c. rewrite business_count.
  destruct (is_FunctionDef c); [|reflexivity].
  rewrite (count_if_none (fun h => issue_kind _ _ _
                            (BusinessLogicVisitor.bare_except_issue _ _ h)))
    by reflexivity.
  rewrite (count_if_all (fun x => issue_kind _ _ _
                           (BusinessLogicVisitor.naming_issue _ _ c x)))
    by reflexivity.
  assert (Hc : forall n, issue_kind warning logic (7 # 10)
                 (BusinessLogicVisitor.complexity_issue lines file_path c n)
               = false) by reflexivity.
  assert (Hp : forall n, issue_kind warning logic (7 # 10)
                 (BusinessLogicVisitor.parameter_issue lines file_path c n)
               = false) by reflexivity.
  rewrite Hc, Hp. destruct (10 <? _)%nat, (5 <? _)%nat; simpl; lia.
Qed.

Lemma suggestion_sum (tree : ast) :
  count_if (has_severity suggestion)
    (issues (run_analyzers str_targets dump tree lines file_path engine_init))
  = list_sum (map (fun c => Nat.b2n (has_many_parameters c))
                  (preorder tree)).
Proof.
  rewrite count_run.
  rewrite (list_sum_zero
             (fun c => count_if _
                         (issues (PerformanceVisitor.handler _ _ c _))))
    by no_performance.
  rewrite (list_sum_zero
             (fun c => count_if _
                         (issues (SecurityVisitor.handler _ _ _ c _))))
    by no_security.
  rewrite (list_sum_zero
             (fun c => count_if _
                         (issues (ArchitectureVisitor.handler _ _ _ c _))))
    by no_architecture.
  rewrite !Nat.add_0_r. f_equal. apply map_ext.
  intros c. rewrite business_count. unfold has_many_parameters.
  destruct (is_FunctionDef c); [|reflexivity].
  rewrite !count_if_none by reflexivity.
  destruct (10 <? _)%nat, (5 <? _)%nat; reflexivity.
Qed.

Lemma class_size_sum (tree : ast) :
  count_if (issue_kind warning architecture (8 # 10))
    (issues (run_analyzers str_targets dump tree lines file_path engine_init))
  = list_sum (map (fun c => Nat.b2n (is_large_class c)) (preorder tree)).
Proof.
  rewrite count_run.
  rewrite (list_sum_zero
             (fun c => count_if _
                         (issues (BusinessLogicVisitor.handler _ _ c _))))
    by no_business.
  rewrite (list_sum_zero
             (fun c => count_if _
                         (issues (PerformanceVisitor.handler _ _ c _))))
    by no_performance.
  rewrite (list_sum_zero
             (fun c => count_if _
                         (issues (SecurityVisitor.handler _ _ _ c _))))
    by no_security.
  cbn [Nat.add]. f_equal. apply map_ext.
  intros c. rewrite architecture_count.
  destruct (is_large_class c); reflexivity.
Qed.

(** X2. The suggestions of an analysis ([analysis_summary.suggestions]) are the
    parameter findings, one for each (synchronous) function definition of
    the tree with more than 5 positional parameters, nested definitions and
    methods included. *)
Theorem parameter_suggestions_counted (tree : ast) :
  count_severity suggestion
    (issues (run_analyzers str_targets dump tree lines file_path engine_init))
  = count_if has_many_parameters (preorder tree).
Proof.
  assert (E : forall l, count_severity suggestion l
                        = count_if (has_severity suggestion) l)
    by reflexivity.
  now rewrite E, suggestion_sum, <- count_if_sum.
Qed.

(** X3. The complexity warnings (warning, architecture, confidence 0.9) of an
    analysis are one for each function definition of the tree whose
    cyclomatic complexity exceeds 10. *)
Theorem complexity_warnings_counted (tree : ast) :
  count_if (issue_kind warning architecture (9 # 10))
    (issues (run_analyzers str_targets dump tree lines file_path engine_init))
  = count_if is_complex_function (preorder tree).
Proof.
  rewrite count_run.
  rewrite (list_sum_zero
             (fun c => count_if _
                         (issues (PerformanceVisitor.handler _ _ c _))))
    by no_performance.
  rewrite (list_sum_zero
             (fun c => count_if _
                         (issues (SecurityVisitor.handler _ _ _ c _))))
    by no_security.
  rewrite (list_sum_zero
             (fun c => count_if _
                         (issues (ArchitectureVisitor.handler _ _ _ c _))))
    by no_architecture.
  rewrite !Nat.add_0_r. apply list_sum_b2n.
  intros c. rewrite business_count. unfold is_complex_function.
  destruct (is_FunctionDef c); [|reflexivity].
  rewrite !count_if_none by reflexivity.
  destruct (10 <? _)%nat, (5 <? _)%nat; reflexivity.
Qed.

(** X4. A call of the plain name [eval] or [exec] gives one critical security
    issue of confidence 0.95, and nothing else does: a method of that name
    ([obj.eval(...)]) is not reported. The critical issues of an analysis
    are these and the hard-coded secrets. *)
Theorem dynamic_calls_counted (tree : ast) :
  count_if (issue_kind critical security (95 # 100))
    (issues (run_analyzers str_targets dump tree lines file_path engine_init))
  = count_if is_dynamic_call (preorder tree)
  /\ count_severity critical
       (issues (run_analyzers str_targets dump tree lines file_path
                  engine_init))
     = (count_if (SecretsSpec.is_secret_assignment str_targets)
                 (preorder tree)
        + count_if is_dynamic_call (preorder tree))%nat.
Proof.
  split.
  - rewrite count_run.
    rewrite (list_sum_zero
               (fun c => count_if _
                           (issues (BusinessLogicVisitor.handler _ _ c _))))
      by no_business.
    rewrite (list_sum_zero
               (fun c => count_if _
                           (issues (PerformanceVisitor.handler _ _ c _))))
      by no_performance.
    rewrite (list_sum_zero
               (fun c => count_if _
                           (issues (ArchitectureVisitor.handler _ _ _ c _))))
      by no_architecture.
    rewrite Nat.add_0_r. cbn [Nat.add]. apply list_sum_b2n.
    intros c. rewrite security_count. unfold is_dynamic_call.
    destruct (SecretsSpec.is_secret_assignment str_targets c);
      destruct c; try reflexivity; handler_cases.
  - assert (E : forall l, count_severity critical l
                          = count_if (has_severity critical) l)
      by reflexivity.
    rewrite E, count_run.
    rewrite (list_sum_zero
               (fun c => count_if _
                           (issues (BusinessLogicVisitor.handler _ _ c _))))
      by no_business.
    rewrite (list_sum_zero
               (fun c => count_if _
                           (issues (PerformanceVisitor.handler _ _ c _))))
      by no_performance.
    rewrite (list_sum_zero
               (fun c => count_if _
                           (issues (ArchitectureVisitor.handler _ _ _ c _))))
      by no_architecture.
    rewrite Nat.add_0_r. cbn [Nat.add].
    rewrite !count_if_sum, <- list_sum_map_add. f_equal. apply map_ext.
    intros c. rewrite security_count. unfold is_dynamic_call.
    destruct (SecretsSpec.is_secret_assignment str_targets c);
      destruct c; try reflexivity; handler_cases.
Qed.

(** X5. The string-concatenation warnings (warning, performance, confidence
    0.9) of an analysis are one for each [for] loop of the tree whose
    subtree holds a binary [+] expression, whatever its operands are; a
    [while] loop is never reported, and neither is a loop that only uses
    the augmented assignment [+=]. *)
Theorem concatenation_warnings_counted (tree : ast) :
  count_if (issue_kind warning performance (9 # 10))
    (issues (run_analyzers str_targets dump tree lines file_path engine_init))
  = count_if concatenates (preorder tree).
Proof.
  rewrite count_run.
  rewrite (list_sum_zero
             (fun c => count_if _
                         (issues (BusinessLogicVisitor.handler _ _ c _))))
    by no_business.
  rewrite (list_sum_zero
             (fun c => count_if _
                         (issues (SecurityVisitor.handler _ _ _ c _))))
    by no_security.
  rewrite (list_sum_zero
             (fun c => count_if _
                         (issues (ArchitectureVisitor.handler _ _ _ c _))))
    by no_architecture.
  rewrite !Nat.add_0_r. cbn [Nat.add]. apply list_sum_b2n.
  intros c. rewrite performance_count. unfold concatenates.
  destruct (is_For c); [|reflexivity].
  destruct (existsb PerformanceVisitor.is_loop (walk_below c)),
           (has_node PerformanceVisitor.is_add c); reflexivity.
Qed.

(** X6. The nested-loop warnings (warning, performance, confidence 0.8) of an
    analysis are one for each [for] loop of the tree that has a [for] or
    [while] loop strictly below it, at any depth and in any field (the
    [else] branch and nested function definitions included). *)
Theorem nested_loop_warnings_counted (tree : ast) :
  count_if (issue_kind warning performance (8 # 10))
    (issues (run_analyzers str_targets dump tree lines file_path engine_init))
  = count_if has_inner_loop (preorder tree).
Proof.
  rewrite count_run.
  rewrite (list_sum_zero
             (fun c => count_if _
                         (issues (BusinessLogicVisitor.handler _ _ c _))))
    by no_business.
  rewrite (list_sum_zero
             (fun c => count_if _
                         (issues (SecurityVisitor.handler _ _ _ c _))))
    by no_security.
  rewrite (list_sum_zero
             (fun c => count_if _
                         (issues (ArchitectureVisitor.handler _ _ _ c _))))
    by no_architecture.
  rewrite !Nat.add_0_r. cbn [Nat.add]. apply list_sum_b2n.
  intros c. rewrite performance_count. unfold has_inner_loop.
  rewrite <- (Text.existsb_perm _ _ _ (walk_below_perm c)).
  destruct (is_For c); [|reflexivity].
  destruct (existsb PerformanceVisitor.is_loop (walk_below c)),
           (has_node PerformanceVisitor.is_add c); reflexivity.
Qed.

Lemma class_metrics_business (tree : ast) (s : engine) :
  class_metrics (_analyze_business_logic tree lines file_path s)
  = class_metrics s.
Proof.
  unfold _analyze_business_logic.
  rewrite class_metrics_visit by apply appending_business.
  rewrite Business.flat_map_nil; [apply app_nil_r|].
  intros c. destruct c; try reflexivity.
  cbv beta iota delta
    [BusinessLogicVisitor.handler BusinessLogicVisitor.visit_FunctionDef_own].
  cbv zeta.
  set (node := FunctionDef _ _ _ _ _ _ _).
  rewrite (appending_error_handling lines file_path node),
          (appending_responsibility lines file_path node).
  cbn [class_metrics engine_app].
  unfold BusinessLogicVisitor._check_function_naming_consistency.
  cbv zeta. rewrite fold_append_issue. cbn [class_metrics engine_init app].
  unfold BusinessLogicVisitor._analyze_function_responsibility,
    BusinessLogicVisitor._check_error_handling_consistency. cbv zeta.
  destruct (10 <? _)%nat, (5 <? _)%nat;
    (destruct (filter BusinessLogicVisitor.is_bare_except (walk node));
     [reflexivity | now rewrite fold_append_issue]).
Qed.

Lemma class_metrics_performance (tree : ast) (s : engine) :
  class_metrics (_analyze_performance_patterns tree lines file_path s)
  = class_metrics s.
Proof.
  unfold _analyze_performance_patterns.
  rewrite class_metrics_visit by apply appending_performance.
  rewrite Business.flat_map_nil; [apply app_nil_r|].
  intros c. destruct c; try reflexivity.
  cbv beta iota delta
    [PerformanceVisitor.handler PerformanceVisitor.visit_For_own].
  handler_cases.
Qed.

Lemma class_metrics_security (tree : ast) (s : engine) :
  class_metrics (_analyze_security_risks str_targets tree lines file_path s)
  = class_metrics s.
Proof.
  unfold _analyze_security_risks.
  rewrite class_metrics_visit by apply appending_security.
  rewrite Business.flat_map_nil; [apply app_nil_r|].
  intros c. destruct c; try reflexivity;
    cbv beta iota delta
      [SecurityVisitor.handler SecurityVisitor.visit_Assign_own
       SecurityVisitor.visit_Call_own];
    handler_cases.
Qed.

Lemma class_metrics_architecture (tree : ast) (s : engine) :
  class_metrics (_analyze_architecture_decisions dump tree lines file_path s)
  = class_metrics s
    ++ map (class_record dump) (filter is_ClassDef (preorder tree)).
Proof.
  unfold _analyze_architecture_decisions.
  rewrite class_metrics_visit by apply appending_architecture.
  f_equal. rewrite <- Business.flat_map_if.
  apply flat_map_ext. intros c. destruct c; try reflexivity.
  cbv beta iota zeta delta
    [ArchitectureVisitor.handler ArchitectureVisitor.visit_ClassDef_own
     is_ClassDef].
  destruct (15 <? _)%nat; reflexivity.
Qed.

(** The class records of an analysis, in depth-first order. *)
Lemma class_metrics_run (tree : ast) (s : engine) :
  class_metrics (run_analyzers str_targets dump tree lines file_path s)
  = class_metrics s
    ++ map (class_record dump) (filter is_ClassDef (preorder tree)).
Proof.
  unfold run_analyzers. cbv zeta.
  rewrite class_metrics_architecture, class_metrics_security,
    class_metrics_performance, class_metrics_business.
  reflexivity.
Qed.

(** X7. An analysis stores one record per class definition of the tree, nested
    classes included, in depth-first order; the method count of a record is
    the number of (synchronous) function definitions among the statements of
    the class body. The class-size warnings (warning, architecture,
    confidence 0.8) are one for each class whose count exceeds 15. *)
Theorem classes_recorded (tree : ast) :
  class_metrics
    (run_analyzers str_targets dump tree lines file_path engine_init)
  = map (class_record dump) (filter is_ClassDef (preorder tree))
  /\ count_if (issue_kind warning architecture (8 # 10))
       (issues (run_analyzers str_targets dump tree lines file_path
                  engine_init))
     = count_if is_large_class (preorder tree).
Proof.
  split; [now rewrite class_metrics_run|].
  now rewrite class_size_sum, <- count_if_sum.
Qed.

End Passes.

Lemma calls_fold (l : list ast) :
  forall calls,
    fold_left
      (fun calls child =>
         match child with
         | Call (Name id _) _ _ _ => calls ++ [id]
         | Call (Attribute _ attr _) _ _ _ => calls ++ [attr]
         | _ => calls
         end) l calls
    = calls ++ flat_map callee l.
Proof.
  induction l as [|c l IH]; intros calls; cbn [fold_left flat_map].
  - now rewrite app_nil_r.
  - rewrite IH. destruct c; try reflexivity.
    destruct c; cbn [callee app]; rewrite <- ?app_assoc; reflexivity.
Qed.

(** X8. Two fields of a function record are taken over the whole subtree of
    the definition, nested definitions included: [return_complexity] is the
    number of its return statements, and [external_calls] lists, with
    repetitions and in the breadth-first order of [ast.walk], the name of
    every call whose callee is a plain name or an attribute; a call of
    anything else (a subscript, a call result, a lambda) is left out. *)
Theorem function_record_fields (node : ast) :
  BusinessLogicVisitor._count_return_statements node
  = count_if is_Return (preorder node)
  /\ BusinessLogicVisitor._extract_external_calls node
     = flat_map callee (walk node)
  /\ Permutation (BusinessLogicVisitor._extract_external_calls node)
                 (flat_map callee (preorder node)).
Proof.
  assert (E : BusinessLogicVisitor._extract_external_calls node
              = flat_map callee (walk node)).
  { unfold BusinessLogicVisitor._extract_external_calls.
    now rewrite calls_fold. }
  split; [|split; [exact E|]].
  - unfold BusinessLogicVisitor._count_return_statements.
    apply (count_if_perm is_Return _ _ (walk_perm node)).
  - rewrite E.
    apply Refactoring.Permutation_flat_map_list, walk_perm.
Qed.

(** A loop that adds with [+=] is not reported; a loop that adds two
    numbers with [+] is. *)
Example addition_in_a_loop :
  concatenates augmented_loop = false /\ concatenates counting_loop = true.
Proof. vm_compute. split; reflexivity. Qed.

End Census.

(* ====================================================================== *)
(** * The relative-path retry *)
(* ====================================================================== *)

Module ResolvePath.

Lemma path_join_project (p : string) :
  PyStr.startswith p "/" = false ->
  path_join project_path p = (project_path ++ "/" ++ p)%string.
Proof. intros H. unfold path_join. now rewrite H. Qed.

Lemma resolve_path_twice
  (path_exists : string -> bool) (file_path : string) :
  resolve_path path_exists (resolve_path path_exists file_path)
  = resolve_path path_exists file_path.
Proof.
  unfold resolve_path at 2 3.
  destruct (isabs file_path) eqn:E; cbn [negb].
  - unfold resolve_path. now rewrite E.
  - destruct (path_exists (path_join project_path file_path)) eqn:X.
    + rewrite path_join_project by exact E. reflexivity.
    + unfold resolve_path. now rewrite E, X.
Qed.

(** X9. Resolving a path twice is resolving it once. The report tools resolve
    the path and then call [analyze_code_intelligence] and
    [suggest_refactoring], which resolve it again: they look at the same
    file and give the answers they give on the path as queried. *)
Theorem resolve_path_idempotent
  (path_exists : string -> bool) (read_text : string -> read_result)
  (parse : string -> parse_result) (str_targets : list ast -> string)
  (dump : ast -> string) (analyzer : engine) (file_path : string) :
  let resolved := resolve_path path_exists file_path in
  resolve_path path_exists resolved = resolved
  /\ analyze_code_intelligence path_exists read_text parse str_targets dump
       analyzer resolved
     = analyze_code_intelligence path_exists read_text parse str_targets dump
         analyzer file_path
  /\ suggest_refactoring_tool path_exists read_text parse resolved
     = suggest_refactoring_tool path_exists read_text parse file_path.
Proof.
  intros resolved. unfold resolved.
  unfold analyze_code_intelligence, suggest_refactoring_tool. cbv zeta.
  rewrite !resolve_path_twice. now repeat split.
Qed.

End ResolvePath.

(* ====================================================================== *)
(** * Dependencies and the technology stack *)
(* ====================================================================== *)

Module Dependencies.

Import DependenciesSpec.

Lemma requirement_name_bare (line : string) :
  PyStr.contains "==" (requirement_name line) = false
  /\ PyStr.contains ">=" (requirement_name line) = false
  /\ PyStr.contains "<=" (requirement_name line) = false.
Proof.
  unfold requirement_name. repeat split.
  - apply Text.contains_before, Text.contains_before, Text.before_no_sep.
    discriminate.
  - apply Text.contains_before, Text.before_no_sep. discriminate.
  - apply Text.before_no_sep. discriminate.
Qed.

Lemma requirement_name_prefix (line : string) :
  String.prefix (requirement_name line) line = true.
Proof.
  unfold requirement_name. apply Substring.prefix_spec.
  destruct (Text.before_prefix "==" line) as [p1 H1].
  destruct (Text.before_prefix ">=" (PyText.before "==" line)) as [p2 H2].
  destruct (Text.before_prefix
              "<=" (PyText.before ">=" (PyText.before "==" line)))
    as [p3 H3].
  exists (p3 ++ p2 ++ p1)%string.
  rewrite <- !Text.append_assoc, <- H3, <- H2. exact H1.
Qed.

Lemma requirements_fold (l : list string) :
  forall acc,
    fold_left
      (fun dependencies line =>
         let line := MinimalServer.strip line in
         if MinimalServer.nonempty line
            && negb (PyStr.startswith line "#")
         then dependencies ++ [requirement_name line]
         else dependencies) l acc
    = acc ++ map (fun line => requirement_name (MinimalServer.strip line))
                 (filter (fun line =>
                            MinimalServer.nonempty (MinimalServer.strip line)
                            && negb (PyStr.startswith
                                       (MinimalServer.strip line) "#")) l).
Proof.
  induction l as [|x l IH]; intros acc; simpl.
  - now rewrite app_nil_r.
  - rewrite IH. destruct (_ && _); simpl; [|reflexivity].
    now rewrite <- app_assoc.
Qed.

Section Parse.
Variable read_text : string -> read_result.

(** X10. No name [_parse_dependencies] returns holds the version operator
    [>=]. A name read from a [.txt] file holds no [==] and no [<=] either
    and is the beginning of a stripped line of the file; a name read from a
    [.toml] file holds no dot. *)
Theorem dependency_names_bare (file_path content dep : string) :
  read_text file_path = ReadOk content ->
  In dep (_parse_dependencies read_text file_path) ->
  PyStr.contains ">=" dep = false
  /\ (PyStr.endswith file_path ".txt" = true ->
      PyStr.contains "==" dep = false
      /\ PyStr.contains "<=" dep = false
      /\ exists line,
           In line (PyStr.split_lines content)
           /\ String.prefix dep (MinimalServer.strip line) = true)
  /\ (PyStr.endswith file_path ".txt" = false ->
      PyStr.contains "." dep = false).
Proof.
  intros Hr. unfold _parse_dependencies. rewrite Hr.
  destruct (PyStr.endswith file_path ".txt").
  - rewrite requirements_fold. cbn [app]. intros Hin.
    apply in_map_iff in Hin. destruct Hin as (line & <- & Hl).
    apply filter_In in Hl. destruct Hl as [Hl _].
    destruct (requirement_name_bare (MinimalServer.strip line))
      as (H1 & H2 & H3).
    split; [exact H2|]. split; [|discriminate].
    intros _. split; [exact H1|]. split; [exact H3|].
    exists line. split; [exact Hl | apply requirement_name_prefix].
  - destruct (PyStr.endswith file_path ".toml"); [|contradiction].
    intros Hin. apply in_map_iff in Hin. destruct Hin as (d & <- & Hd).
    apply filter_In in Hd. destruct Hd as [_ Hd].
    apply negb_true_iff in Hd.
    split; [apply Text.before_no_sep; discriminate|].
    split; [discriminate|].
    intros _. now apply Text.contains_before.
Qed.

(** A file that is neither [.txt] nor [.toml] yields no name. *)
Lemma parse_other_suffix (file_path : string) :
  PyStr.endswith file_path ".txt" = false ->
  PyStr.endswith file_path ".toml" = false ->
  _parse_dependencies read_text file_path = [].
Proof.
  intros H1 H2. unfold _parse_dependencies. rewrite H1, H2.
  now destruct (read_text file_path).
Qed.

Lemma endswith_join (root name p : string) :
  PyStr.startswith name "/" = false ->
  (String.length p <= String.length name)%nat ->
  PyStr.endswith (path_join root name) p = PyStr.endswith name p.
Proof.
  intros Hs Hl. destruct (Text.path_join_relative root name Hs)
    as (sep & -> & _).
  rewrite <- Text.append_assoc. now apply Text.endswith_append.
Qed.

Lemma parse_setup_py (root : string) :
  _parse_dependencies read_text (path_join root "setup.py") = [].
Proof.
  apply parse_other_suffix; rewrite endswith_join;
    solve [reflexivity | simpl; lia].
Qed.

Lemma parse_pipfile (root : string) :
  _parse_dependencies read_text (path_join root "Pipfile") = [].
Proof.
  apply parse_other_suffix; rewrite endswith_join;
    solve [reflexivity | simpl; lia].
Qed.

End Parse.

Lemma dependency_names_bare_witness :
  PyStr.contains ">=" "django" = false.
Proof.
  apply (proj1 (dependency_names_bare
                  (only_file "requirements.txt" requirements)
                  "requirements.txt" requirements "django"
                  eq_refl ltac:(vm_compute; tauto))).
Defined.

Lemma classify_fold (l : list string) :
  forall t,
    fold_left classify l t
    = mk_tech_stack (primary_language t)
        (frameworks t ++ filter is_framework l)
        (databases t
         ++ filter (fun d => negb (is_framework d) && is_database d) l)
        (testing_frameworks t
         ++ filter (fun d => negb (is_framework d) && negb (is_database d)
                             && is_testing d) l)
        (dependencies t).
Proof.
  induction l as [|d l IH]; intros t; simpl.
  - destruct t. simpl. now rewrite !app_nil_r.
  - rewrite IH. unfold classify, is_framework, is_database, is_testing.
    destruct (mentions_any framework_words (PyStr.lower d));
      [simpl; now rewrite <- app_assoc|].
    destruct (mentions_any database_words (PyStr.lower d));
      [simpl; now rewrite <- app_assoc|].
    destruct (mentions_any testing_words (PyStr.lower d));
      [simpl; now rewrite <- app_assoc|].
    reflexivity.
Qed.

Section Stack.
Variable path_exists : string -> bool.
Variable read_text : string -> read_result.

Lemma scan_req_file_classified (root : string) (t : tech_stack_t)
  (f : string) :
  classified t -> classified (scan_req_file path_exists read_text root t f).
Proof.
  intros (Hf & Hd & Ht & Hl). unfold scan_req_file.
  destruct (path_exists (path_join root f)); [|now repeat split].
  cbv zeta. rewrite classify_fold. unfold classified. simpl.
  rewrite !filter_app, <- Hf, <- Hd, <- Ht. now repeat split.
Qed.

Lemma scan_tech_stack_classified (root : string) :
  classified (scan_tech_stack path_exists read_text root).
Proof.
  unfold scan_tech_stack.
  assert (H0 : classified (mk_tech_stack "Python" [] [] [] []))
    by now repeat split.
  revert H0. generalize (mk_tech_stack "Python" [] [] [] []).
  induction req_files as [|f l IH]; intros t H0; simpl; [exact H0|].
  apply IH, scan_req_file_classified, H0.
Qed.

(** X11. The frameworks, databases and testing frameworks [_identify_tech_stack]
    reports are the dependencies it reports, sorted into three classes that
    do not overlap: a dependency that mentions a framework word is a
    framework (and nothing else), one that does not but mentions a database
    word is a database, one that mentions neither but a testing word is a
    testing framework. *)
Theorem tech_stack_classification (root : string) :
  exists deps,
    let tech_stack := _identify_tech_stack path_exists read_text root in
    dict_get "dependencies" tech_stack = Some (PList (map PStr deps))
    /\ dict_get "frameworks" tech_stack
       = Some (PList (map PStr (filter is_framework deps)))
    /\ dict_get "databases" tech_stack
       = Some (PList (map PStr
            (filter (fun d => negb (is_framework d) && is_database d) deps)))
    /\ dict_get "testing_frameworks" tech_stack
       = Some (PList (map PStr
            (filter (fun d => negb (is_framework d) && negb (is_database d)
                              && is_testing d) deps)))
    /\ dict_get "primary_language" tech_stack = Some (PStr "Python").
Proof.
  exists (dependencies (scan_tech_stack path_exists read_text root)).
  destruct (scan_tech_stack_classified root) as (Hf & Hd & Ht & Hl).
  unfold _identify_tech_stack, tech_stack_dict. cbv zeta.
  cbn [dict_get String.eqb Ascii.eqb Bool.eqb].
  rewrite <- Hf, <- Hd, <- Ht, Hl. repeat split.
Qed.

Lemma scan_req_file_nothing (root : string) (t : tech_stack_t)
  (f : string) :
  _parse_dependencies read_text (path_join root f) = [] ->
  scan_req_file path_exists read_text root t f = t.
Proof.
  intros H. unfold scan_req_file.
  destruct (path_exists (path_join root f)); [|reflexivity].
  cbv zeta. rewrite H. simpl. rewrite app_nil_r. now destruct t.
Qed.

(** The scan stops mattering after the first two files. *)
Lemma scan_tech_stack_two (root : string) :
  scan_tech_stack path_exists read_text root
  = fold_left (scan_req_file path_exists read_text root) parsed_files
              (mk_tech_stack "Python" [] [] [] []).
Proof.
  unfold scan_tech_stack, req_files, parsed_files. simpl.
  rewrite (scan_req_file_nothing root _ "Pipfile")
    by apply parse_pipfile.
  rewrite (scan_req_file_nothing root _ "setup.py")
    by apply parse_setup_py.
  reflexivity.
Qed.

End Stack.

Lemma scan_req_file_agree
  (pe pe' : string -> bool) (rt rt' : string -> read_result)
  (root : string) (t : tech_stack_t) (f : string) :
  pe (path_join root f) = pe' (path_join root f) ->
  rt (path_join root f) = rt' (path_join root f) ->
  scan_req_file pe rt root t f = scan_req_file pe' rt' root t f.
Proof.
  intros H1 H2. unfold scan_req_file, _parse_dependencies.
  now rewrite H1, H2.
Qed.

(** X12. [setup.py] and [Pipfile] are looked up but no dependency is read from
    them: the technology stack is the same on two file systems that agree
    on [requirements.txt] and [pyproject.toml] of the project root. *)
Theorem tech_stack_reads_two_files
  (pe pe' : string -> bool) (rt rt' : string -> read_result)
  (root : string) :
  (forall f, In f parsed_files ->
             pe (path_join root f) = pe' (path_join root f)
             /\ rt (path_join root f) = rt' (path_join root f)) ->
  _identify_tech_stack pe rt root = _identify_tech_stack pe' rt' root.
Proof.
  intros H. unfold _identify_tech_stack. f_equal.
  rewrite !scan_tech_stack_two. unfold parsed_files in *. simpl.
  destruct (H "requirements.txt") as [A1 A2]; [simpl; tauto|].
  destruct (H "pyproject.toml") as [B1 B2]; [simpl; tauto|].
  rewrite (scan_req_file_agree pe pe' rt rt' root _ "requirements.txt" A1 A2).
  now rewrite (scan_req_file_agree pe pe' rt rt' root _ "pyproject.toml"
                 B1 B2).
Qed.

(** A project whose only manifest is a [setup.py] has the technology stack
    of a project without any. *)
Lemma tech_stack_reads_two_files_witness :
  _identify_tech_stack (exists_only "/srv/app/setup.py")
    (only_file "/srv/app/setup.py" "install_requires=['django']") "/srv/app"
  = _identify_tech_stack (fun _ => false)
      (fun _ => ReadError "No such file or directory") "/srv/app".
Proof.
  apply tech_stack_reads_two_files.
  intros f [<-|[<-|[]]]; split; reflexivity.
Defined.

End Dependencies.

(* ====================================================================== *)
(** * Technical debt: the other factors *)
(* ====================================================================== *)

Module DebtFactors.

Section Scan.
Variable os_walk : string -> list (string * list string * list string).
Variable read_text : string -> read_result.

Lemma debt_fold (l : list string) :
  forall d,
    let d' := fold_left (debt_of_file read_text) l d in
    code_duplication d' = code_duplication d
    /\ complex_classes d' = complex_classes d
    /\ (missing_tests d <= missing_tests d'
        <= missing_tests d + length l)%nat
    /\ (poor_documentation d <= poor_documentation d'
        <= poor_documentation d + length l)%nat.
Proof.
  induction l as [|p l IH]; intros d; simpl; [lia|].
  destruct (IH (debt_of_file read_text d p)) as (H1 & H2 & H3 & H4).
  rewrite H1, H2. unfold debt_of_file in *.
  destruct (read_text p); simpl in *; [|lia].
  destruct (negb _), (_ <? _)%nat; lia.
Qed.

(** X13. Two of the five debt factors, [code_duplication] and
    [complex_classes], are never incremented and stay 0: the total score is
    the sum of the other three, of which [missing_tests] and
    [poor_documentation] count each [.py] file at most once. *)
Theorem debt_factors_counted (project_root : string) :
  let d := scan_debt os_walk read_text project_root in
  let n := length (python_files os_walk project_root) in
  code_duplication d = 0%nat
  /\ complex_classes d = 0%nat
  /\ (missing_tests d <= n)%nat
  /\ (poor_documentation d <= n)%nat
  /\ dict_get "total_score"
       (_calculate_tech_debt os_walk read_text project_root)
     = Some (PNat (long_functions d + missing_tests d
                   + poor_documentation d)).
Proof.
  intros d n. unfold d, n, scan_debt.
  destruct (debt_fold (python_files os_walk project_root)
              (mk_debt 0 0 0 0 0)) as (H1 & H2 & H3 & H4).
  simpl in H1, H2, H3, H4.
  split; [exact H1|]. split; [exact H2|].
  split; [lia|]. split; [lia|].
  unfold _calculate_tech_debt. cbv zeta.
  cbn [dict_get String.eqb Ascii.eqb Bool.eqb].
  unfold total_debt, scan_debt. rewrite H1, H2.
  do 2 f_equal. lia.
Qed.

Lemma missing_tests_fold (l : list string) :
  Forall (fun p => PyStr.contains "test" (PyStr.lower p) = true) l ->
  forall d,
    missing_tests (fold_left (debt_of_file read_text) l d) = missing_tests d.
Proof.
  induction 1 as [|p l Hp _ IH]; intros d; simpl; [reflexivity|].
  rewrite IH. unfold debt_of_file.
  destruct (read_text p); simpl; [|reflexivity].
  rewrite Hp. simpl. lia.
Qed.

(** X14. The test for a test file looks at the whole path: in a project whose
    root path mentions [test], no file counts as lacking tests. The two
    hypotheses on [os.walk] are what the library guarantees: every
    directory it yields lies below the top, and the files are plain
    names. *)
Theorem no_missing_tests_below_test_path (project_root : string) :
  (forall root dirs files,
      In (root, dirs, files) (os_walk project_root) ->
      String.prefix project_root root = true
      /\ Forall (fun file => PyStr.startswith file "/" = false) files) ->
  PyStr.contains "test" (PyStr.lower project_root) = true ->
  missing_tests (scan_debt os_walk read_text project_root) = 0%nat.
Proof.
  intros Hw Ht. unfold scan_debt. rewrite missing_tests_fold; [reflexivity|].
  apply Forall_forall. intros p Hp.
  unfold python_files in Hp. apply in_flat_map in Hp.
  destruct Hp as ([[root dirs] files] & Hin & Hp).
  apply in_map_iff in Hp. destruct Hp as (file & <- & Hf).
  apply filter_In in Hf. destruct Hf as [Hf _].
  destruct (Hw root dirs files Hin) as [Hroot Hfiles].
  rewrite Forall_forall in Hfiles. specialize (Hfiles file Hf).
  destruct (Text.path_join_relative root file Hfiles) as (sep & -> & _).
  apply Substring.prefix_spec in Hroot. destruct Hroot as [post ->].
  rewrite Text.append_assoc, Text.lower_append.
  now apply Text.contains_append.
Qed.

End Scan.

Lemma no_missing_tests_below_test_path_witness :
  missing_tests
    (scan_debt ProjectSpec.testbed_walk (fun _ => ReadOk "x = 1")
       "/srv/testbed") = 0%nat.
Proof.
  apply no_missing_tests_below_test_path.
  - intros root dirs files [H|[H|[]]]; injection H as <- <- <-;
      (split; [reflexivity | repeat constructor]).
  - reflexivity.
Defined.

End DebtFactors.

(* ====================================================================== *)
(** * The project context *)
(* ====================================================================== *)

Module ProjectContextFacts.

Import DependenciesSpec.

Section Context.
Variable path_exists : string -> bool.
Variable read_text : string -> read_result.
Variable listdir : string -> outcome (list string).
Variable isdir : string -> bool.
Variable os_walk : string -> list (string * list string * list string).

(** On the dictionaries the engine builds, the recommendations never fail
    on a missing key, are at most two, and lack the advice to modularize. *)
Lemma recommendations_returned (project_root : string) :
  exists recommendations,
    _generate_project_recommendations
      (_identify_tech_stack path_exists read_text project_root)
      (_calculate_tech_debt os_walk read_text project_root)
    = Returned recommendations
    /\ ~ In modularization_advice recommendations
    /\ (length recommendations <= 2)%nat.
Proof.
  unfold _generate_project_recommendations, _identify_tech_stack,
    tech_stack_dict, _calculate_tech_debt, dict_item.
  cbv zeta. cbn [dict_get String.eqb Ascii.eqb Bool.eqb].
  eexists. split; [reflexivity|].
  unfold modularization_advice.
  destruct (negb _), (is_str _ _); simpl; split; try lia;
    intros H; repeat (destruct H as [H|H]; [discriminate H|]); exact H.
Qed.

(** X15. The recommendations of [analyze_project_context] are at most two
    and never hold the advice to modularize, whatever the architecture
    pattern reported beside them: the pattern is looked up in the technology
    stack, which has no such entry. *)
Theorem recommendations_never_modular (project_root : string) (v : pyval) :
  dict_get "recommendations"
    (analyze_project_context path_exists read_text listdir isdir os_walk
       project_root) = Some v ->
  exists recommendations,
    v = PList (map PStr recommendations)
    /\ ~ In modularization_advice recommendations
    /\ (length recommendations <= 2)%nat.
Proof.
  unfold analyze_project_context, _detect_architecture_pattern.
  destruct (listdir project_root) as [names|msg]; [|discriminate].
  cbv zeta.
  destruct (recommendations_returned project_root) as (recs & -> & Hn & Hl).
  cbn [dict_get String.eqb Ascii.eqb Bool.eqb].
  intros H. injection H as <-. now exists recs.
Qed.


End Context.

(** In a flat project the advice is not given. *)
Lemma recommendations_never_modular_witness :
  exists recommendations,
    PList [PStr "建议添加测试框架(如pytest)以提高代码质量"]
    = PList (map PStr recommendations)
    /\ ~ In modularization_advice recommendations
    /\ (length recommendations <= 2)%nat.
Proof.
  apply (recommendations_never_modular (fun _ => false)
           (fun _ => ReadError "") ProjectSpec.empty_listing
           (fun _ => false) (fun _ => []) "/srv/app").
  reflexivity.
Defined.


(** A flat project: the pattern is reported, the advice is not given. *)
Example flat_project_gets_no_advice :
  let result :=
    analyze_project_context (fun _ => false) (fun _ => ReadError "")
      ProjectSpec.empty_listing (fun _ => false) (fun _ => []) "/srv/app" in
  dict_get "architecture_pattern" result
  = Some (PStr "Simple/Flat Structure")
  /\ dict_get "recommendations" result
     = Some (PList [PStr "建议添加测试框架(如pytest)以提高代码质量"]).
Proof. vm_compute. split; reflexivity. Qed.

End ProjectContextFacts.

(* ====================================================================== *)
(** * Commit messages *)
(* ====================================================================== *)

Module Commit.

Import CommitSpec.

Lemma types_fold (ty : string) (l : list string) :
  forall acc,
    str_in ty (fold_left (fun types change =>
                            set_add (change_type change) types) l acc)
    = str_in ty acc || has_type ty l.
Proof.
  induction l as [|c l IH]; intros acc; simpl.
  - now rewrite orb_false_r.
  - rewrite IH, Text.str_in_set_add. unfold has_type. simpl.
    rewrite (String.eqb_sym (change_type c) ty).
    now rewrite orb_assoc, (orb_comm (String.eqb _ _)).
Qed.

(** The message of a non-empty list, read off the types present. *)
Lemma message_by_rank (c : string) (l : list string) :
  let changes := c :: l in
  generate_commit_message changes
  = message_of
      (if has_type "feat" changes then "feat: implement new functionality"
       else if has_type "fix" changes then "fix: resolve issues"
       else if has_type "test" changes then "test: add/update tests"
       else if has_type "docs" changes then "docs: update documentation"
       else "refactor: improve code structure")
      (length changes).
Proof.
  intros changes. unfold generate_commit_message. cbv zeta.
  change (match changes with [] => "chore: minor updates" | _ :: _ => ?x end)
    with x.
  rewrite !types_fold. cbn [str_in existsb orb].
  destruct (has_type "feat" changes); [reflexivity|].
  destruct (has_type "fix" changes); [reflexivity|].
  destruct (has_type "test" changes); [reflexivity|].
  destruct (has_type "docs" changes); reflexivity.
Qed.

(** X17. The message does not depend on the order of the descriptions; one
    description filed under [feat] decides the subject whatever the others
    are. *)
Theorem commit_message_by_rank :
  (forall l l', Permutation l l' ->
                generate_commit_message l = generate_commit_message l')
  /\ (forall l, has_type "feat" l = true ->
                generate_commit_message l
                = message_of "feat: implement new functionality" (length l))
  /\ (forall l, l <> [] -> has_type "feat" l = false ->
                has_type "fix" l = true ->
                generate_commit_message l
                = message_of "fix: resolve issues" (length l)).
Proof.
  split; [|split].
  - intros l l' HP. destruct l as [|c l], l' as [|c' l'].
    + reflexivity.
    + apply Permutation_nil in HP. discriminate.
    + apply Permutation_sym, Permutation_nil in HP. discriminate.
    + rewrite !message_by_rank. cbv zeta.
      unfold has_type.
      rewrite !(Text.existsb_perm _ _ _ HP), (Permutation_length HP).
      reflexivity.
  - intros [|c l] H; [discriminate|].
    rewrite message_by_rank. cbv zeta. now rewrite H.
  - intros [|c l] Hne Hf Hx; [congruence|].
    rewrite message_by_rank. cbv zeta. now rewrite Hf, Hx.
Qed.

Lemma commit_message_by_rank_witness :
  generate_commit_message ["README"; "added login"]
  = generate_commit_message ["added login"; "README"].
Proof.
  apply (proj1 commit_message_by_rank). apply perm_swap.
Defined.

(** X18. The tool splits its text on commas: it never answers with the [chore]
    message of the empty list, and the number of files it reports is one
    more than the number of commas, also for the empty text. *)
Theorem commit_tool_counts_commas (changes_description : string) :
  exists subject,
    In subject subjects
    /\ generate_commit_message_tool changes_description
       = message_of subject
           (S (TextSpec.count_char comma changes_description)).
Proof.
  unfold generate_commit_message_tool.
  pose proof (Text.split_char_length (ascii_of_nat 44) changes_description)
    as Hl.
  destruct (PyStr.split_char (ascii_of_nat 44) changes_description)
    as [|c l] eqn:E; [discriminate|].
  rewrite message_by_rank. cbv zeta. rewrite Hl.
  unfold subjects.
  destruct (has_type "feat" (c :: l)); [eexists; split; [|reflexivity]|].
  { simpl; tauto. }
  destruct (has_type "fix" (c :: l)); [eexists; split; [|reflexivity]|].
  { simpl; tauto. }
  destruct (has_type "test" (c :: l)); [eexists; split; [|reflexivity]|].
  { simpl; tauto. }
  destruct (has_type "docs" (c :: l)); eexists; (split; [|reflexivity]);
    simpl; tauto.
Qed.

End Commit.

(* ====================================================================== *)
(** * The minimal server: line counts and listings *)
(* ====================================================================== *)

Module MinimalToolsFacts.

Import MinimalServer.
Import MinimalTools.
Import MinimalSpec.

Lemma comment_has_text (line : string) :
  is_comment line = true -> has_text line = true.
Proof.
  unfold is_comment, has_text, PyStr.startswith.
  now destruct (strip line).
Qed.

Lemma filter_split {A} (p q : A -> bool) (l : list A) :
  (forall x, q x = true -> p x = true) ->
  length (filter p l)
  = (length (filter (fun x => p x && negb (q x)) l)
     + length (filter q l))%nat.
Proof.
  intros H. induction l as [|x l IH]; simpl; [reflexivity|].
  specialize (H x).
  destruct (p x), (q x); simpl; try lia;
    specialize (H eq_refl); discriminate H.
Qed.

Section Tools.
Variable path_exists : string -> bool.
Variable read_text : string -> read_result.
Variable parse : string -> parse_result.
Variable getcwd : string.
Variable listdir_opt : string -> option (list string).
Variable listdir : string -> outcome (list string).
Variable isfile : string -> bool.
Variable getsize : string -> outcome nat.

(** X19. For a file that can be read, [count_lines] answers with five entries
    whose numbers add up: every non-empty line is either a code line or a
    comment line, and the non-empty lines are among the lines. *)
Theorem count_lines_partition (file_path text : string) :
  path_exists file_path = true ->
  read_text file_path = ReadOk text ->
  exists total non_empty code comment,
    count_lines path_exists read_text file_path
    = [ ("file_path", PStr file_path); ("total_lines", PNat total);
        ("non_empty_lines", PNat non_empty); ("code_lines", PNat code);
        ("comment_lines", PNat comment) ]
    /\ (code + comment = non_empty)%nat
    /\ (non_empty <= total)%nat
    /\ total = length (PyText.readlines text).
Proof.
  intros He Hr. unfold count_lines. rewrite He, Hr. cbn [negb]. cbv zeta.
  do 4 eexists. split; [reflexivity|].
  split; [|split; [apply filter_length_le | reflexivity]].
  symmetry. apply filter_split, comment_has_text.
Qed.

(** X20. The two tools count the lines of a file differently: [analyze_python]
    splits the text on line feeds, [count_lines] reads lines. For the same
    file the first reports one line more than the second when the text is
    empty or ends with a line feed, and the same number otherwise. *)
Theorem total_lines_of_the_two_tools (file_path text : string) :
  let path := resolve_path path_exists file_path in
  path_exists path = true ->
  PyStr.endswith path ".py" = true ->
  read_text path = ReadOk text ->
  (forall msg, parse text <> ParseError msg) ->
  exists result n,
    analyze_python path_exists read_text parse getcwd listdir_opt file_path
    = Some result
    /\ dict_get "total_lines" (count_lines path_exists read_text path)
       = Some (PNat n)
    /\ dict_get "total_lines" result
       = Some (PNat (n + (if TextSpec.ends_line text then 1 else 0))).
Proof.
  intros path He Hpy Hr Hp. unfold analyze_python, count_lines. cbv zeta.
  fold path. rewrite He, Hpy, Hr. cbn [negb].
  destruct (parse text) as [tree|msg lineno|msg] eqn:P.
  - destruct (collect tree) as [functions classes].
    eexists. exists (length (PyText.readlines text)).
    split; [reflexivity|]. split; [reflexivity|].
    unfold basic_stats. cbv zeta.
    cbn [app dict_get String.eqb Ascii.eqb Bool.eqb].
    unfold PNat. now rewrite Text.split_lines_readlines.
  - eexists. exists (length (PyText.readlines text)).
    split; [reflexivity|]. split; [reflexivity|].
    unfold basic_stats. cbv zeta.
    cbn [app dict_get String.eqb Ascii.eqb Bool.eqb].
    unfold PNat. now rewrite Text.split_lines_readlines.
  - now destruct (Hp msg).
Qed.

(** X21. [analyze_python] lets an exception escape in one case only: the file
    does not exist and the project directory cannot be listed for the
    suggestions. In every other case it returns a dictionary. *)
Theorem analyze_python_raises (file_path : string) :
  analyze_python path_exists read_text parse getcwd listdir_opt file_path
  = None
  <-> path_exists (resolve_path path_exists file_path) = false
      /\ listdir_opt project_path = None.
Proof.
  unfold analyze_python. cbv zeta.
  destruct (path_exists (resolve_path path_exists file_path)); cbn [negb].
  - split; [|intros [H _]; discriminate H].
    destruct (negb (PyStr.endswith _ ".py")); [discriminate|].
    destruct (read_text _) as [content|msg]; [|discriminate].
    destruct (parse content) as [tree|msg lineno|msg]; try discriminate.
    destruct (collect tree); discriminate.
  - destruct (listdir_opt project_path).
    + split; [discriminate | intros [_ H]; discriminate H].
    + split; [now split | reflexivity].
Qed.

Lemma collect_fold (l : list ast) :
  forall functions classes,
    fold_left
      (fun '(functions, classes) node =>
         match node with
         | FunctionDef name a _ _ _ lineno _ =>
             (functions ++ [PDict [ ("name", PStr name);
                                    ("line", PInt lineno);
                                    ("args", PNat (length (a_args a))) ]],
              classes)
         | ClassDef name _ _ _ _ lineno _ =>
             (functions,
              classes ++ [PDict [ ("name", PStr name);
                                  ("line", PInt lineno) ]])
         | _ => (functions, classes)
         end) l (functions, classes)
    = (functions ++ map function_entry (filter is_FunctionDef l),
       classes ++ map class_entry (filter is_ClassDef l)).
Proof.
  induction l as [|n l IH]; intros functions classes; simpl.
  - now rewrite !app_nil_r.
  - destruct n; rewrite IH; simpl; rewrite <- ?app_assoc; reflexivity.
Qed.

Lemma collect_eq (tree : ast) :
  collect tree
  = (map function_entry (filter is_FunctionDef (walk tree)),
     map class_entry (filter is_ClassDef (walk tree))).
Proof. unfold collect. now rewrite collect_fold. Qed.

End Tools.

Lemma analyze_python_raises_witness :
  analyze_python (fun _ => false) (fun _ => ReadError "")
    (fun _ => ParseError "") "/srv" (fun _ => None) "missing.py" = None.
Proof.
  apply (proj2 (analyze_python_raises (fun _ => false)
                  (fun _ => ReadError "") (fun _ => ParseError "") "/srv"
                  (fun _ => None) "missing.py")).
  split; reflexivity.
Defined.

Lemma count_lines_partition_witness :
  exists total non_empty code comment,
    count_lines (fun _ => true) (fun _ => ReadOk two_lines) "main.py"
    = [ ("file_path", PStr "main.py"); ("total_lines", PNat total);
        ("non_empty_lines", PNat non_empty); ("code_lines", PNat code);
        ("comment_lines", PNat comment) ]
    /\ (code + comment = non_empty)%nat
    /\ (non_empty <= total)%nat
    /\ total = length (PyText.readlines two_lines).
Proof.
  apply (count_lines_partition (fun _ => true) (fun _ => ReadOk two_lines)
           "main.py" two_lines); reflexivity.
Defined.

Lemma total_lines_of_the_two_tools_witness :
  exists result n,
    analyze_python (fun _ => true) (fun _ => ReadOk two_lines)
      (fun _ => ParseSyntaxError "invalid syntax" (Some 1%Z)) "/srv"
      (fun _ => None) "/main.py"
    = Some result
    /\ dict_get "total_lines"
         (count_lines (fun _ => true) (fun _ => ReadOk two_lines)
            (resolve_path (fun _ => true) "/main.py"))
       = Some (PNat n)
    /\ dict_get "total_lines" result
       = Some (PNat (n + (if TextSpec.ends_line two_lines then 1 else 0))).
Proof.
  apply (total_lines_of_the_two_tools (fun _ => true)
           (fun _ => ReadOk two_lines)
           (fun _ => ParseSyntaxError "invalid syntax" (Some 1%Z)) "/srv"
           (fun _ => None) "/main.py" two_lines);
    try reflexivity.
  intros msg. discriminate.
Defined.

(** ** The sort of [list_python_files] *)

Lemma insert_by_size_perm (x : py_file) (l : list py_file) :
  Permutation (insert_by_size x l) (x :: l).
Proof.
  induction l as [|y r IH]; simpl; [reflexivity|].
  destruct (pf_size y <=? pf_size x)%nat; [reflexivity|].
  rewrite IH. apply perm_swap.
Qed.

Lemma sort_by_size_perm (l : list py_file) :
  Permutation (sort_by_size l) l.
Proof.
  induction l as [|x l IH]; simpl; [reflexivity|].
  rewrite insert_by_size_perm. now apply perm_skip.
Qed.

Lemma insert_by_size_sorted (x : py_file) (l : list py_file) :
  StronglySorted not_smaller l ->
  StronglySorted not_smaller (insert_by_size x l).
Proof.
  induction 1 as [|y r Hr IH Hy]; simpl.
  - repeat constructor.
  - destruct (pf_size y <=? pf_size x)%nat eqn:E.
    + apply Nat.leb_le in E. constructor; [now constructor|].
      constructor; [exact E|].
      eapply Forall_impl; [|exact Hy]. unfold not_smaller. intros a. lia.
    + apply Nat.leb_gt in E. constructor; [exact IH|].
      apply (Permutation_Forall (Permutation_sym (insert_by_size_perm x r))).
      constructor; [unfold not_smaller; lia | exact Hy].
Qed.

Lemma sort_by_size_sorted (l : list py_file) :
  StronglySorted not_smaller (sort_by_size l).
Proof.
  induction l as [|x l IH]; simpl; [constructor|].
  now apply insert_by_size_sorted.
Qed.

Section Listing.
Variable listdir : string -> outcome (list string).
Variable isfile : string -> bool.
Variable getsize : string -> outcome nat.

Lemma collect_files_spec (directory : string) (items : list string) :
  forall acc res,
    collect_files isfile getsize directory items acc = Returned res ->
    exists new,
      res = acc ++ new
      /\ map pf_name new = filter (is_python_file isfile directory) items
      /\ Forall (fun f => pf_path f = path_join directory (pf_name f)
                          /\ getsize (pf_path f) = Returned (pf_size f)) new.
Proof.
  induction items as [|item rest IH]; intros acc res; simpl.
  - intros H. injection H as <-. exists []. rewrite app_nil_r.
    now repeat split.
  - unfold is_python_file at 1.
    destruct (PyStr.endswith item ".py" && isfile (path_join directory item)).
    + destruct (getsize (path_join directory item)) as [size|msg] eqn:G;
        [|discriminate].
      intros H. apply IH in H. destruct H as (new & -> & Hn & Hf).
      exists (mk_py_file item (path_join directory item) size :: new).
      rewrite <- app_assoc. split; [reflexivity|].
      split; [simpl; now rewrite Hn|].
      constructor; [now split | exact Hf].
    + apply IH.
Qed.

Lemma collect_files_returns (directory : string) (items : list string) :
  forall acc,
    Forall (size_known getsize directory)
           (filter (is_python_file isfile directory) items) ->
    exists res, collect_files isfile getsize directory items acc
                = Returned res.
Proof.
  induction items as [|item rest IH]; intros acc; simpl.
  - intros _. now exists acc.
  - unfold is_python_file at 1.
    destruct (PyStr.endswith item ".py" && isfile (path_join directory item)).
    + intros H. inversion H as [|x l (size & Hs) Hrest]; subst.
      rewrite Hs. now apply IH.
    + apply IH.
Qed.

Lemma collect_files_raises (directory : string) (items : list string) :
  forall acc before item after msg,
    filter (is_python_file isfile directory) items
    = before ++ item :: after ->
    Forall (size_known getsize directory) before ->
    getsize (path_join directory item) = Raised msg ->
    collect_files isfile getsize directory items acc = Raised msg.
Proof.
  induction items as [|x rest IH]; intros acc before item after msg; simpl.
  - intros H. destruct before; discriminate H.
  - unfold is_python_file at 1.
    destruct (PyStr.endswith x ".py" && isfile (path_join directory x)).
    + intros H Hb Hr. destruct before as [|b before]; simpl in H.
      * injection H as -> _. now rewrite Hr.
      * injection H as -> H.
        inversion Hb as [|y l (size & Hs) Hrest]; subst.
        rewrite Hs. now apply (IH _ before item after).
    + apply IH.
Qed.

(** X22. When the directory can be listed: if the size of every [.py] file
    of the listing can be read, [list_python_files] answers with these
    files, each of them once, ordered by size, largest first, and [count]
    and [total_size] are their number and the sum of their sizes; if
    reading the size of one of them fails, the answer is the single entry
    [error] with the message of the first failure, in listing order. *)
Theorem list_python_files_sorted (directory : string) (items : list string) :
  let dir := listed_directory directory in
  let result := list_python_files listdir isfile getsize directory in
  let kept := filter (is_python_file isfile dir) items in
  listdir dir = Returned items ->
  (Forall (size_known getsize dir) kept ->
   exists files,
     dict_get "python_files" result = Some (PList (map py_file_dict files))
     /\ StronglySorted not_smaller files
     /\ Permutation (map pf_name files) kept
     /\ Forall (fun f => pf_path f = path_join dir (pf_name f)
                         /\ getsize (pf_path f) = Returned (pf_size f))
               files
     /\ dict_get "count" result = Some (PNat (length files))
     /\ dict_get "total_size" result
        = Some (PNat (list_sum (map pf_size files)))
     /\ dict_get "error" result = None)
  /\ (forall before item after msg,
         kept = before ++ item :: after ->
         Forall (size_known getsize dir) before ->
         getsize (path_join dir item) = Raised msg ->
         result = [("error", PStr msg)]).
Proof.
  intros dir result kept Hl. unfold result, list_python_files. cbv zeta.
  fold (listed_directory directory). fold dir. rewrite Hl. split.
  - intros Hk.
    destruct (collect_files_returns dir items [] Hk) as (res & C).
    rewrite C. apply collect_files_spec in C.
    destruct C as (new & -> & Hn & Hf). cbn [app].
    exists (sort_by_size new). split; [reflexivity|].
    split; [apply sort_by_size_sorted|].
    split; [unfold kept; rewrite <- Hn;
            apply Permutation_map, sort_by_size_perm|].
    split; [|repeat split; reflexivity].
    apply (Permutation_Forall (Permutation_sym (sort_by_size_perm new))).
    exact Hf.
  - intros before item after msg Hk Hb Hr.
    now rewrite (collect_files_raises dir items [] before item after msg).
Qed.

End Listing.

(** The two [.py] files of a listing of three entries, the larger first. *)
Lemma list_python_files_sorted_witness :
  exists files,
    dict_get "python_files"
      (list_python_files (fun _ => Returned ["a.py"; "notes.md"; "b.py"])
         (fun _ => true) sizes "/srv")
    = Some (PList (map py_file_dict files))
    /\ StronglySorted not_smaller files
    /\ Permutation (map pf_name files) ["a.py"; "b.py"]
    /\ dict_get "count"
         (list_python_files (fun _ => Returned ["a.py"; "notes.md"; "b.py"])
            (fun _ => true) sizes "/srv")
       = Some (PNat (length files)).
Proof.
  destruct (proj1 (list_python_files_sorted
                     (fun _ => Returned ["a.py"; "notes.md"; "b.py"])
                     (fun _ => true) sizes "/srv"
                     ["a.py"; "notes.md"; "b.py"] eq_refl))
    as (files & H1 & H2 & H3 & _ & H5 & _).
  - repeat constructor; [now exists 10%nat | now exists 30%nat].
  - exists files. now repeat split.
Defined.

(** The larger file comes first. *)
Example listing_by_size :
  dict_get "python_files"
    (list_python_files (fun _ => Returned ["a.py"; "notes.md"; "b.py"])
       (fun _ => true) sizes "/srv")
  = Some (PList (map py_file_dict
                   [ mk_py_file "b.py" "/srv/b.py" 30;
                     mk_py_file "a.py" "/srv/a.py" 10 ])).
Proof. vm_compute. reflexivity. Qed.

(** A size that cannot be read turns the whole answer into the error. *)
Example listing_with_a_missing_file :
  list_python_files (fun _ => Returned ["a.py"; "notes.md"; "b.py"])
    (fun _ => true) sizes_without_b "/srv"
  = [("error", PStr "[Errno 2] No such file or directory: '/srv/b.py'")].
Proof. vm_compute. reflexivity. Qed.

End MinimalToolsFacts.

(* ====================================================================== *)
(** * Suggestions, results and the two servers *)
(* ====================================================================== *)

Module CrossTool.

Import CensusSpec.
Import SuggestionSpec.

Lemma suggest_count (ty : string) (tree : ast) :
  count_if (suggestion_type ty) (fold_left suggest_for_node (walk tree) [])
  = list_sum (map (fun n => count_if (suggestion_type ty)
                              (suggest_for_node [] n))
                  (preorder tree)).
Proof.
  rewrite Refactoring.suggest_fold. cbn [app].
  rewrite count_if_flat_map.
  apply Permutation_list_sum, Permutation_map, walk_perm.
Qed.

Lemma suggest_length (tree : ast) :
  length (fold_left suggest_for_node (walk tree) [])
  = list_sum (map (fun n => length (suggest_for_node [] n)) (preorder tree)).
Proof.
  rewrite Refactoring.suggest_fold. cbn [app].
  rewrite (Permutation_length
             (Refactoring.Permutation_flat_map_list _ _ _ (walk_perm tree))).
  induction (preorder tree) as [|c l IH]; simpl; [reflexivity|].
  now rewrite length_app, IH.
Qed.

Lemma function_length_at (n : ast) :
  count_if (suggestion_type "function_length") (suggest_for_node [] n)
  = Nat.b2n (is_long_function n).
Proof.
  destruct n; try reflexivity.
  - cbv beta iota delta [suggest_for_node is_long_function is_FunctionDef
                           node_end_lineno node_lineno andb].
    cbv zeta. destruct (50 <? _)%Z, (5 <? _)%nat; reflexivity.
  - cbv beta iota delta [suggest_for_node]. cbv zeta.
    destruct (15 <? _)%nat; reflexivity.
Qed.

Lemma parameter_count_at (n : ast) :
  count_if (suggestion_type "parameter_count") (suggest_for_node [] n)
  = Nat.b2n (has_many_parameters n).
Proof.
  destruct n; try reflexivity.
  - cbv beta iota delta [suggest_for_node has_many_parameters is_FunctionDef
                           node_args andb].
    cbv zeta. destruct (50 <? _)%Z, (5 <? _)%nat; reflexivity.
  - cbv beta iota delta [suggest_for_node]. cbv zeta.
    destruct (15 <? _)%nat; reflexivity.
Qed.

Lemma class_size_at (n : ast) :
  count_if (suggestion_type "class_size") (suggest_for_node [] n)
  = Nat.b2n (is_large_class n).
Proof.
  destruct n; try reflexivity.
  - cbv beta iota delta [suggest_for_node]. cbv zeta.
    destruct (50 <? _)%Z, (5 <? _)%nat; reflexivity.
  - cbv beta iota delta [suggest_for_node is_large_class is_ClassDef
                           direct_methods node_body andb].
    cbv zeta. destruct (15 <? _)%nat; reflexivity.
Qed.

Lemma suggestions_at (n : ast) :
  length (suggest_for_node [] n)
  = (Nat.b2n (is_long_function n) + Nat.b2n (has_many_parameters n)
     + Nat.b2n (is_large_class n))%nat.
Proof.
  destruct n; try reflexivity.
  - cbv beta iota delta [suggest_for_node is_long_function
                           has_many_parameters is_FunctionDef
                           node_end_lineno node_lineno node_args andb].
    cbv zeta. destruct (50 <? _)%Z, (5 <? _)%nat; reflexivity.
  - cbv beta iota delta [suggest_for_node is_large_class is_ClassDef
                           direct_methods node_body andb].
    cbv zeta. destruct (15 <? _)%nat; reflexivity.
Qed.

Lemma severity_partition (l : list CodeIssue.t) :
  length l
  = (count_severity critical l + count_severity warning l
     + count_severity suggestion l)%nat.
Proof.
  unfold count_severity.
  induction l as [|i l IH]; simpl; [reflexivity|].
  destruct (CodeIssue.severity i); simpl; lia.
Qed.

Section Tools.
Variable path_exists : string -> bool.
Variable read_text : string -> read_result.
Variable parse : string -> parse_result.
Variable str_targets : list ast -> string.
Variable dump : ast -> string.
Variable getcwd : string.
Variable listdir : string -> option (list string).

(** X23. For code that parses, [suggest_refactoring] gives one
    [function_length] suggestion per function definition whose last line
    lies more than 50 lines after its first, one [parameter_count]
    suggestion per function definition with more than 5 positional
    parameters and one [class_size] suggestion per class definition with
    more than 15 methods, nested definitions included, and nothing else;
    code that does not parse gives no suggestion. *)
Theorem refactoring_suggestions_counted (code : string) :
  (forall tree,
      parse code = ParseOk tree ->
      let suggestions := suggest_refactoring parse code in
      count_if (suggestion_type "function_length") suggestions
      = count_if is_long_function (preorder tree)
      /\ count_if (suggestion_type "parameter_count") suggestions
         = count_if has_many_parameters (preorder tree)
      /\ count_if (suggestion_type "class_size") suggestions
         = count_if is_large_class (preorder tree)
      /\ length suggestions
         = (count_if is_long_function (preorder tree)
            + count_if has_many_parameters (preorder tree)
            + count_if is_large_class (preorder tree))%nat)
  /\ ((forall tree, parse code <> ParseOk tree) ->
      suggest_refactoring parse code = []).
Proof.
  split.
  - intros tree Hp suggestions. unfold suggestions, suggest_refactoring.
    rewrite Hp. rewrite !suggest_count, suggest_length.
    rewrite !count_if_sum.
    split; [f_equal; apply map_ext, function_length_at|].
    split; [f_equal; apply map_ext, parameter_count_at|].
    split; [f_equal; apply map_ext, class_size_at|].
    rewrite <- !Census.list_sum_map_add. f_equal.
    apply map_ext, suggestions_at.
  - intros H. unfold suggest_refactoring.
    destruct (parse code) as [tree| |]; [|reflexivity|reflexivity].
    now destruct (H tree).
Qed.

(** X24. The two engines agree on functions with too many parameters and on
    classes that are too large: for the same tree, [suggest_refactoring]
    gives as many [parameter_count] suggestions as the analysis gives
    suggestions, and as many [class_size] suggestions as the analysis gives
    class-size warnings (warning, architecture, confidence 0.8). *)
Theorem refactoring_agrees_with_analysis
  (code : string) (tree : ast) (lines : list string) (file_path : string) :
  parse code = ParseOk tree ->
  let found :=
    issues (run_analyzers str_targets dump tree lines file_path engine_init)
  in
  count_if (suggestion_type "parameter_count")
           (suggest_refactoring parse code)
  = count_severity suggestion found
  /\ count_if (suggestion_type "class_size") (suggest_refactoring parse code)
     = count_if (issue_kind warning architecture (8 # 10)) found.
Proof.
  intros Hp found. unfold found, suggest_refactoring. rewrite Hp.
  rewrite !suggest_count. split.
  - assert (E : forall l, count_severity suggestion l
                          = count_if (has_severity suggestion) l)
      by reflexivity.
    rewrite E, Census.suggestion_sum.
    f_equal. apply map_ext, parameter_count_at.
  - rewrite Census.class_size_sum.
    f_equal. apply map_ext, class_size_at.
Qed.

(** X25. Whatever the file, [analyze_file] answers either with an error entry
    and no summary, or with a summary, a list of issues and a score and no
    error entry. In the second case the total of the summary is the length
    of the list of issues and the sum of the three counts by severity, and
    the score lies between 0 and 100. *)
Theorem analysis_result_shape (self : engine) (file_path : string) :
  let result :=
    fst (analyze_file path_exists read_text parse str_targets dump
           self file_path) in
  (exists msg,
      dict_get "error" result = Some (PStr msg)
      /\ dict_has "analysis_summary" result = false
      /\ dict_has "overall_quality_score" result = false)
  \/ (dict_has "error" result = false
      /\ exists total criticals warnings suggestions listed score,
           dict_get "analysis_summary" result
           = Some (PDict [ ("total_issues", PNat total);
                           ("critical_issues", PNat criticals);
                           ("warnings", PNat warnings);
                           ("suggestions", PNat suggestions) ])
           /\ dict_get "issues" result = Some (PList listed)
           /\ length listed = total
           /\ total = (criticals + warnings + suggestions)%nat
           /\ dict_get "overall_quality_score" result = Some (PFloat score)
           /\ (0 <= score <= 100)%Q).
Proof.
  intros result. unfold result, analyze_file.
  destruct (path_exists file_path); cbn [negb fst];
    [|left; eexists; repeat split].
  destruct (read_text file_path) as [source|msg];
    [|left; eexists; repeat split].
  destruct (parse source) as [tree|msg lineno|msg];
    [|left; eexists; repeat split|left; eexists; repeat split].
  right. cbv zeta. cbn [fst]. split; [reflexivity|].
  do 6 eexists. split; [reflexivity|]. split; [reflexivity|].
  split; [apply length_map|]. split; [apply severity_partition|].
  split; [reflexivity|].
  apply AnalysisScore.analysis_score_in_range.
Qed.

(** X26. On a file that parses, the counts of [analyze_python] are the numbers
    of function and class definitions of the tree, nested ones included and
    async functions left out: as many as the analysis engine stores function
    records and class records for the same tree. *)
Theorem analyze_python_counts
  (file_path text : string) (tree : ast) (lines : list string) :
  let path := resolve_path path_exists file_path in
  path_exists path = true ->
  PyStr.endswith path ".py" = true ->
  read_text path = ReadOk text ->
  parse text = ParseOk tree ->
  exists result,
    MinimalServer.analyze_python path_exists read_text parse getcwd listdir
      file_path = Some result
    /\ dict_get "functions_count" result
       = Some (PNat (count_if is_FunctionDef (preorder tree)))
    /\ dict_get "classes_count" result
       = Some (PNat (count_if is_ClassDef (preorder tree)))
    /\ count_if is_FunctionDef (preorder tree)
       = length (function_metrics
                   (run_analyzers str_targets dump tree lines path
                      engine_init))
    /\ count_if is_ClassDef (preorder tree)
       = length (class_metrics
                   (run_analyzers str_targets dump tree lines path
                      engine_init)).
Proof.
  intros path He Hpy Hr Hp. unfold MinimalServer.analyze_python. cbv zeta.
  fold path. rewrite He, Hpy, Hr, Hp. cbn [negb].
  rewrite MinimalToolsFacts.collect_eq.
  eexists. split; [reflexivity|].
  unfold MinimalServer.basic_stats. cbv zeta.
  cbn [app dict_get String.eqb Ascii.eqb Bool.eqb].
  rewrite !length_map.
  fold (count_if is_FunctionDef (walk tree)).
  fold (count_if is_ClassDef (walk tree)).
  rewrite !(count_if_perm _ _ _ (walk_perm tree)).
  split; [reflexivity|]. split; [reflexivity|].
  rewrite Business.metrics_run, Census.class_metrics_run.
  cbn [function_metrics class_metrics engine_init app].
  now rewrite !length_map.
Qed.

End Tools.

Lemma refactoring_suggestions_counted_witness :
  count_if (suggestion_type "parameter_count")
    (suggest_refactoring (RefactoringSpec.parse_as wide_module) "def connect")
  = count_if has_many_parameters (preorder wide_module).
Proof.
  apply (proj1 (refactoring_suggestions_counted
                  (RefactoringSpec.parse_as wide_module) "def connect")
           wide_module eq_refl).
Defined.

Lemma refactoring_agrees_with_analysis_witness :
  count_if (suggestion_type "parameter_count")
    (suggest_refactoring (RefactoringSpec.parse_as wide_module) "def connect")
  = count_severity suggestion
      (issues (run_analyzers Sample.no_text Sample.no_dump wide_module
                 ["def connect"] "db.py" engine_init)).
Proof.
  apply (refactoring_agrees_with_analysis
           (RefactoringSpec.parse_as wide_module) Sample.no_text
           Sample.no_dump "def connect" wide_module ["def connect"] "db.py"
           eq_refl).
Defined.

Lemma analyze_python_counts_witness :
  exists result,
    MinimalServer.analyze_python (fun _ => true)
      (fun _ => ReadOk "def connect")
      (RefactoringSpec.parse_as wide_module) "/srv" (fun _ => None) "/db.py"
    = Some result
    /\ dict_get "functions_count" result = Some (PNat 1).
Proof.
  destruct (analyze_python_counts (fun _ => true)
              (fun _ => ReadOk "def connect")
              (RefactoringSpec.parse_as wide_module) Sample.no_text
              Sample.no_dump "/srv" (fun _ => None)
              "/db.py" "def connect" wide_module ["def connect"]
              eq_refl eq_refl eq_refl eq_refl)
    as (result & H1 & H2 & _).
  exists result. split; [exact H1 | exact H2].
Defined.

End CrossTool.
